(** * VentureCapital: the cleaning pipeline and the success predictor

    A shallow embedding of [utils.py]: the scalar cleaners, the dataset
    loaders, the sector aggregation and the label encoding used at
    inference, followed by the properties of the specification.

    Conventions.
    - A Python [str] is a [string] whose characters are code points below
      256 (the primary file is read as ISO-8859-1).
    - A Python [float] is an IEEE 754 binary64 value, [spec_float] with
      precision 53 and maximal exponent 1024.
    - A call that may raise returns a [result]; [try]/[except] is
      [try_except] with the handler's class. *)

From Stdlib Require Import String Ascii List Bool ZArith NArith Lia SpecFloat.
From Stdlib Require Import Sorting.Sorted Sorting.Permutation.
From Stdlib Require OrderedTypeEx.
Import ListNotations.

Open Scope string_scope.
Open Scope Z_scope.

(* ===================================================================== *)
(** * Python: exceptions                                                  *)
(* ===================================================================== *)

Module Py.

(** The exceptions the modelled code can meet.  [KeyboardInterrupt] stands
    for the classes that derive from [BaseException] only. *)
Inductive exn :=
| ValueError
| UnicodeDecodeError
| KeyError (key : string)
| FileNotFoundError
| PermissionError
| ParserError
| EmptyDataError
| KeyboardInterrupt.

(** The classes named by the [except] clauses of [utils.py]. *)
Inductive exn_class := CBaseException | CException | CValueError | CUnicodeDecodeError.

(** [isinstance e c]: [UnicodeDecodeError] derives from [ValueError];
    pandas' [ParserError] and [EmptyDataError] derive from [ValueError] too. *)
Definition isinstance (e : exn) (c : exn_class) : bool :=
  match c, e with
  | CBaseException, _ => true
  | CException, KeyboardInterrupt => false
  | CException, _ => true
  | CValueError, (ValueError | UnicodeDecodeError | ParserError | EmptyDataError) => true
  | CValueError, _ => false
  | CUnicodeDecodeError, UnicodeDecodeError => true
  | CUnicodeDecodeError, _ => false
  end.

Inductive result (A : Type) :=
| Ok (a : A)
| Raise (e : exn).
Arguments Ok {A} a.
Arguments Raise {A} e.

Definition bind {A B} (r : result A) (k : A -> result B) : result B :=
  match r with
  | Ok a => k a
  | Raise e => Raise e
  end.

(** [try: body except c: handler] *)
Definition try_except {A} (body : result A) (c : exn_class) (handler : result A) : result A :=
  match body with
  | Ok a => Ok a
  | Raise e => if isinstance e c then handler else Raise e
  end.

(** Iterating a fallible function over a list, left to right. *)
Fixpoint mapM {A B} (f : A -> result B) (l : list A) : result (list B) :=
  match l with
  | [] => Ok []
  | a :: l' => bind (f a) (fun b => bind (mapM f l') (fun bs => Ok (b :: bs)))
  end.

End Py.
Import Py.

Notation "x <- c ;; k" := (Py.bind c (fun x => k))
  (at level 61, c at next level, right associativity).

(* ===================================================================== *)
(** * Python: strings                                                     *)
(* ===================================================================== *)

Module Str.

Definition code (c : ascii) : N := N_of_ascii c.

Definition between (lo hi : N) (c : ascii) : bool :=
  ((lo <=? code c) && (code c <=? hi))%N.

(** [str.isspace] on one character, for code points below 256. *)
Definition isspace (c : ascii) : bool :=
  between 9 13 c || between 28 32 c || (code c =? 133)%N || (code c =? 160)%N.

(** [str.isdigit] on one character, for code points below 256: the ASCII
    digits and the superscripts two, three and one. *)
Definition isdigit_char (c : ascii) : bool :=
  between 48 57 c || (code c =? 178)%N || (code c =? 179)%N || (code c =? 185)%N.

(** The ASCII digits, the only decimal digits below 256. *)
Definition is_decimal (c : ascii) : bool := between 48 57 c.

Definition digit_value (c : ascii) : N := (code c - 48)%N.

Fixpoint lstrip (s : string) : string :=
  match s with
  | String c s' => if isspace c then lstrip s' else s
  | EmptyString => EmptyString
  end.

Fixpoint rstrip (s : string) : string :=
  match s with
  | EmptyString => EmptyString
  | String c s' =>
      match rstrip s' with
      | EmptyString => if isspace c then EmptyString else String c EmptyString
      | r => String c r
      end
  end.

(** [s.strip()] *)
Definition strip (s : string) : string := rstrip (lstrip s).

(** [c in s] for a one-character [c]. *)
Fixpoint contains (c : ascii) (s : string) : bool :=
  match s with
  | EmptyString => false
  | String d s' => Ascii.eqb d c || contains c s'
  end.

(** [s.replace(c, '')] for a one-character [c]. *)
Fixpoint remove (c : ascii) (s : string) : string :=
  match s with
  | EmptyString => EmptyString
  | String d s' => if Ascii.eqb d c then remove c s' else String d (remove c s')
  end.

(** [s.replace(c, '', 1)] for a one-character [c]. *)
Fixpoint remove_first (c : ascii) (s : string) : string :=
  match s with
  | EmptyString => EmptyString
  | String d s' => if Ascii.eqb d c then s' else String d (remove_first c s')
  end.

(** [s.isdigit()]: not empty and every character a digit. *)
Fixpoint all_digits (s : string) : bool :=
  match s with
  | EmptyString => true
  | String c s' => isdigit_char c && all_digits s'
  end.

Definition isdigit (s : string) : bool :=
  match s with
  | EmptyString => false
  | _ => all_digits s
  end.

(** [s.split(c)[0]] for a one-character [c]. *)
Fixpoint split_head (c : ascii) (s : string) : string :=
  match s with
  | EmptyString => EmptyString
  | String d s' => if Ascii.eqb d c then EmptyString else String d (split_head c s')
  end.

(** [str.lower] on one character, for code points below 256. *)
Definition lower_char (c : ascii) : ascii :=
  if between 65 90 c || (between 192 222 c && negb (code c =? 215)%N)
  then ascii_of_N (code c + 32)
  else c.

Fixpoint lower (s : string) : string :=
  match s with
  | EmptyString => EmptyString
  | String c s' => String (lower_char c) (lower s')
  end.

End Str.

(* ===================================================================== *)
(** * Python: float                                                       *)
(* ===================================================================== *)

Module Float.

Definition float := spec_float.

Definition prec : Z := 53.
Definition emax : Z := 1024.

Definition mul : float -> float -> float := SFmul prec emax.
Definition div : float -> float -> float := SFdiv prec emax.
Definition ltb : float -> float -> bool := SFltb.
Definition leb : float -> float -> bool := SFleb.

Definition nan : float := S754_nan.
Definition inf : float := S754_infinity false.
Definition zero : float := S754_zero false.

Definition is_nan (f : float) : bool :=
  match f with S754_nan => true | _ => false end.

(** The binary64 nearest to [n / d] (ties to even), with sign [neg]. *)
Definition of_ratio (neg : bool) (n d : positive) : float :=
  div (S754_finite neg n 0) (S754_finite false d 0).

(** Conversion of an integer, as in the true division of two [int64]. *)
Definition of_Z (z : Z) : float :=
  match z with
  | Z0 => zero
  | Zpos p => of_ratio false p 1
  | Zneg p => of_ratio true p 1
  end.

(** [m * 10^e] for a decimal mantissa and exponent read from text. *)
Definition of_decimal (neg : bool) (m : N) (e : Z) : float :=
  match m with
  | N0 => S754_zero neg
  | Npos p =>
      match e with
      | Zneg k => of_ratio neg p (Pos.pow 10 k)
      | Z0 => of_ratio neg p 1
      | Zpos k => of_ratio neg (p * Pos.pow 10 k) 1
      end
  end.

(** ** [float(s)] on a string *)

(** Characters as [float] sees them: the spaces above 126 become a blank,
    every other character above 126 becomes a question mark. *)
Definition to_ascii (c : ascii) : ascii :=
  if (Str.code c <? 127)%N then c
  else if Str.isspace c then " "%char else "?"%char.

Fixpoint transform (s : string) : string :=
  match s with
  | EmptyString => EmptyString
  | String c s' => String (to_ascii c) (transform s')
  end.

(** Underscores are dropped when each stands between two digits; any
    other underscore is an error ([None]). [prev] is the previous
    character. *)
Fixpoint strip_underscores (prev : ascii) (s : string) : option string :=
  match s with
  | EmptyString => if Ascii.eqb prev "_" then None else Some EmptyString
  | String c s' =>
      if Ascii.eqb c "_" then
        if Str.is_decimal prev then strip_underscores c s' else None
      else
        if Ascii.eqb prev "_" && negb (Str.is_decimal c) then None
        else match strip_underscores c s' with
             | Some r => Some (String c r)
             | None => None
             end
  end.

(** The C locale's [isspace]. *)
Definition c_isspace (c : ascii) : bool :=
  Str.between 9 13 c || (Str.code c =? 32)%N.

Fixpoint c_lstrip (s : string) : string :=
  match s with
  | String c s' => if c_isspace c then c_lstrip s' else s
  | EmptyString => EmptyString
  end.

Fixpoint c_rstrip (s : string) : string :=
  match s with
  | EmptyString => EmptyString
  | String c s' =>
      match c_rstrip s' with
      | EmptyString => if c_isspace c then EmptyString else String c EmptyString
      | r => String c r
      end
  end.

(** Reads a run of decimal digits: the accumulated value, how many digits
    were read, and the rest. *)
Fixpoint digits (s : string) (acc : N) (cnt : nat) : N * nat * string :=
  match s with
  | String c s' =>
      if Str.is_decimal c then digits s' (acc * 10 + Str.digit_value c)%N (S cnt)
      else (acc, cnt, s)
  | EmptyString => (acc, cnt, s)
  end.

Definition sign_of (s : string) : bool * string :=
  match s with
  | String c s' =>
      if Ascii.eqb c "-" then (true, s')
      else if Ascii.eqb c "+" then (false, s')
      else (false, s)
  | EmptyString => (false, s)
  end.

(** The exponent part: [e] or [E], an optional sign, at least one digit. *)
Definition exponent (s : string) : option (Z * string) :=
  match s with
  | String c s' =>
      if Ascii.eqb c "e" || Ascii.eqb c "E" then
        let '(neg, s1) := sign_of s' in
        let '(v, n, rest) := digits s1 0%N 0%nat in
        match n with
        | O => None
        | _ => Some (if neg then (- Z.of_N v) else Z.of_N v, rest)
        end
      else None
  | EmptyString => None
  end.

(** An unsigned decimal numeral: digits, an optional point, digits, an
    optional exponent; at least one digit before the exponent. *)
Definition decimal (neg : bool) (s : string) : option float :=
  let '(m1, n1, r1) := digits s 0%N 0%nat in
  let '(m2, n2, r2) :=
    match r1 with
    | String "."%char r => let '(m, n, r') := digits r m1 0%nat in (m, n, r')
    | _ => (m1, 0%nat, r1)
    end in
  match (n1 + n2)%nat with
  | O => None
  | _ =>
      match r2 with
      | EmptyString => Some (of_decimal neg m2 (- Z.of_nat n2))
      | _ =>
          match exponent r2 with
          | Some (e, EmptyString) => Some (of_decimal neg m2 (e - Z.of_nat n2))
          | _ => None
          end
      end
  end.

(** [inf], [infinity] and [nan], in any case. *)
Definition inf_or_nan (neg : bool) (s : string) : option float :=
  let l := Str.lower s in
  if String.eqb l "inf" || String.eqb l "infinity" then Some (S754_infinity neg)
  else if String.eqb l "nan" then Some nan
  else None.

(** [float(s)]: [ValueError] when [s] is not a numeral. *)
Definition of_string (s : string) : result float :=
  let t := transform s in
  let u := if Str.contains "_" t then strip_underscores "000" t else Some t in
  match u with
  | None => Raise ValueError
  | Some u =>
      let '(neg, body) := sign_of (c_rstrip (c_lstrip u)) in
      match decimal neg body with
      | Some f => Ok f
      | None =>
          match inf_or_nan neg body with
          | Some f => Ok f
          | None => Raise ValueError
          end
      end
  end.

End Float.

(* ===================================================================== *)
(** * Scalar cleaners                                                     *)
(* ===================================================================== *)

(** The objects held by a table cell or handed to a cleaner: text, a
    [float64] (whose NaN is the missing value), an integer, a timestamp in
    nanoseconds since the epoch, the missing timestamp, and [None]. *)
Inductive pyobj :=
| PStr (s : string)
| PFloat (f : Float.float)
| PInt (z : Z)
| PTime (t : Z)
| PNaT
| PNone.

Definition is_str (x : pyobj) : bool :=
  match x with PStr _ => true | _ => false end.

Module Cleaners.

(** [def clean_currency(x)] *)
Definition clean_currency (x : pyobj) : result pyobj :=
  match x with
  | PStr x =>
      let clean_str := Str.remove "," (Str.strip x) in
      if String.eqb clean_str "-" || String.eqb clean_str "" then
        Ok (PFloat Float.zero)
      else
        try_except
          (f <- Float.of_string clean_str ;; Ok (PFloat f))
          CValueError
          (Ok (PFloat Float.zero))
  | _ => Ok x
  end.

(** The literals [1.0], [1e3], [1e6], [1e9], [1e12]. *)
Definition one : Float.float := Float.of_decimal false 1 0.
Definition thousand : Float.float := Float.of_decimal false 1 3.
Definition million : Float.float := Float.of_decimal false 1 6.
Definition billion : Float.float := Float.of_decimal false 1 9.
Definition trillion : Float.float := Float.of_decimal false 1 12.

(** [def clean_money_string(x)] *)
Definition clean_money_string (x : pyobj) : result pyobj :=
  if negb (is_str x) then Ok x
  else
    match x with
    | PStr x =>
        let s := Str.remove "," (Str.remove "$" (Str.strip x)) in
        let multiplier := one in
        let '(multiplier, s) :=
          if Str.contains "B" s then (billion, Str.remove "B" s)
          else if Str.contains "M" s then (million, Str.remove "M" s)
          else if Str.contains "K" s then (thousand, Str.remove "K" s)
          else if Str.contains "T" s then (trillion, Str.remove "T" s)
          else (multiplier, s) in
        try_except
          (f <- Float.of_string s ;; Ok (PFloat (Float.mul f multiplier)))
          CValueError
          (Ok (PFloat Float.zero))
    | _ => Ok x
    end.

(** ** The abbreviated-currency cleaner as the specification words it *)

(** A unit letter with its scale. *)
Definition unit_scale := (ascii * Float.float)%type.

(** The precedence the specification gives: T, B, M, K. *)
Definition spec_units : list unit_scale :=
  [("T"%char, trillion); ("B"%char, billion); ("M"%char, million); ("K"%char, thousand)].

(** The precedence of the [if]/[elif] chain: B, M, K, T. *)
Definition code_units : list unit_scale :=
  [("B"%char, billion); ("M"%char, million); ("K"%char, thousand); ("T"%char, trillion)].

(** First match wins. *)
Fixpoint detect_unit (units : list unit_scale) (s : string) : option unit_scale :=
  match units with
  | [] => None
  | (c, k) :: rest => if Str.contains c s then Some (c, k) else detect_unit rest s
  end.

(** Strip, drop the currency symbol and the separators, detect at most one
    unit in the given precedence, strip it, parse the rest and scale. *)
Definition abbreviated_currency (units : list unit_scale) (x : string) : Float.float :=
  let s := Str.remove "," (Str.remove "$" (Str.strip x)) in
  let '(scale, rest) :=
    match detect_unit units s with
    | Some (c, k) => (k, Str.remove c s)
    | None => (one, s)
    end in
  match Float.of_string rest with
  | Ok f => Float.mul f scale
  | Raise _ => Float.zero
  end.

End Cleaners.

(* ===================================================================== *)
(** * pandas: series and tables                                           *)
(* ===================================================================== *)

Module Pandas.

Definition Series := list pyobj.

(** A table: its columns in order, each a name and a series; the index is
    the default one, the positions [0 .. n-1]. *)
Definition DataFrame := list (string * Series).

(** [np.nan] *)
Definition NaN : pyobj := PFloat Float.nan.

(** [pd.DataFrame()] *)
Definition empty : DataFrame := [].

Definition nrows (df : DataFrame) : nat :=
  match df with
  | [] => 0%nat
  | (_, col) :: _ => length col
  end.

(** [df.empty] *)
Definition is_empty (df : DataFrame) : bool := Nat.eqb (nrows df) 0.

Definition columns (df : DataFrame) : list string := map fst df.

(** [c in df.columns] *)
Definition has_col (c : string) (df : DataFrame) : bool :=
  existsb (String.eqb c) (columns df).

(** [df[c]], a [KeyError] when the column is absent. *)
Fixpoint get_col (c : string) (df : DataFrame) : result Series :=
  match df with
  | [] => Raise (KeyError c)
  | (name, col) :: df' => if String.eqb c name then Ok col else get_col c df'
  end.

(** [df[c] = v]: replaces the column in place, or appends it. *)
Fixpoint set_col (c : string) (v : Series) (df : DataFrame) : DataFrame :=
  match df with
  | [] => [(c, v)]
  | (name, col) :: df' =>
      if String.eqb c name then (name, v) :: df' else (name, col) :: set_col c v df'
  end.

(** [df.columns = df.columns.str.strip()] *)
Definition strip_columns (df : DataFrame) : DataFrame :=
  map (fun p => (Str.strip (fst p), snd p)) df.

(** [pd.isna] on one cell. *)
Definition isna (x : pyobj) : bool :=
  match x with
  | PFloat f => Float.is_nan f
  | PNaT | PNone => true
  | _ => false
  end.

Definition notna (x : pyobj) : bool := negb (isna x).

(** [series.dtype == object]: the column holds text. *)
Definition is_object (col : Series) : bool :=
  existsb is_str col.

(** [x in values] for a list of string literals. *)
Definition isin (values : list string) (x : pyobj) : bool :=
  match x with
  | PStr s => existsb (String.eqb s) values
  | _ => false
  end.

(** Rows by position, [col.iloc[idx]]; a position out of range reads as
    missing. *)
Definition take (idx : list nat) (col : Series) : Series :=
  map (fun i => nth i col NaN) idx.

Fixpoint update (i : nat) (v : pyobj) (col : Series) : Series :=
  match col, i with
  | [], _ => []
  | _ :: col', O => v :: col'
  | x :: col', S i' => x :: update i' v col'
  end.

(** [col.loc[idx] = vals], aligned on the index. *)
Fixpoint assign (idx : list nat) (vals : Series) (col : Series) : Series :=
  match idx, vals with
  | i :: idx', v :: vals' => assign idx' vals' (update i v col)
  | _, _ => col
  end.

(** The positions at which the mask holds, [col[mask].index]. *)
Definition where_ (mask : pyobj -> bool) (col : Series) : list nat :=
  filter (fun i => mask (nth i col NaN)) (seq 0 (length col)).

(** [df[mask]] for a boolean mask given by its positions. *)
Definition take_rows (idx : list nat) (df : DataFrame) : DataFrame :=
  map (fun p => (fst p, take idx (snd p))) df.

(** [series.fillna(v)] *)
Definition fillna (v : pyobj) (col : Series) : Series :=
  map (fun x => if isna x then v else x) col.

Definition count_if (p : pyobj -> bool) (col : Series) : Z :=
  Z.of_nat (length (filter p col)).

End Pandas.

(* ===================================================================== *)
(** * Dataset loaders                                                     *)
(* ===================================================================== *)

Import Pandas.

Fixpoint foldM {A B} (f : A -> B -> result A) (l : list B) (a : A) : result A :=
  match l with
  | [] => Ok a
  | b :: l' => a' <- f a b ;; foldM f l' a'
  end.

Section Loaders.

(** The library calls the loaders make.
    - [read_csv path encoding]: the parsed file, or the exception raised;
    - [str_of_number]: [str] of a number or a timestamp;
    - [to_datetime col]: [pd.to_datetime(col, errors='coerce')], a
      timestamp or nothing (NaT) per row;
    - [to_numeric col]: [pd.to_numeric(col, errors='coerce')];
    - [year_of t]: the calendar year of a timestamp. *)
Variable read_csv : string -> option string -> result DataFrame.
Variable str_of_number : pyobj -> string.
Variable to_datetime : Series -> list (option Z).
Variable to_numeric : Series -> Series.
Variable year_of : Z -> Z.

(** [series.astype(str)] on one cell. *)
Definition astype_str (x : pyobj) : string :=
  match x with
  | PStr s => s
  | PFloat f => if Float.is_nan f then "nan" else str_of_number x
  | PNaT => "NaT"
  | PNone => "None"
  | _ => str_of_number x
  end.

Definition datetime_cell (t : option Z) : pyobj :=
  match t with
  | Some t => PTime t
  | None => PNaT
  end.

(** [series.dt.year] on one cell. *)
Definition dt_year (x : pyobj) : pyobj :=
  match x with
  | PTime t => PInt (year_of t)
  | _ => NaN
  end.

(** ** [load_data] *)

(** Step 2 (also lines 214-216 of the training routine): the funding
    column goes through [clean_currency] when it is textual. *)
Definition clean_funding (df : DataFrame) : result DataFrame :=
  if has_col "funding_total_usd" df then
    col <- get_col "funding_total_usd" df ;;
    if is_object col then
      col' <- mapM (fun x => Cleaners.clean_currency (PStr (astype_str x))) col ;;
      Ok (set_col "funding_total_usd" col' df)
    else Ok df
  else Ok df.

Definition date_cols : list string :=
  ["founded_at"; "first_funding_at"; "last_funding_at"].

(** Step 3, the body of the loop over [date_cols]. *)
Definition parse_date_col (df : DataFrame) (col : string) : result DataFrame :=
  if has_col col df then
    c <- get_col col df ;;
    Ok (set_col col (map datetime_cell (to_datetime c)) df)
  else Ok df.

(** Step 4. *)
Definition founded_year (df : DataFrame) : result DataFrame :=
  if has_col "founded_year" df then
    c <- get_col "founded_year" df ;;
    Ok (set_col "founded_year" (to_numeric c) df)
  else if has_col "founded_at" df then
    c <- get_col "founded_at" df ;;
    Ok (set_col "founded_year" (map dt_year c) df)
  else Ok df.

(** Step 5. *)
Definition normalize_status (df : DataFrame) : result DataFrame :=
  if has_col "status" df then
    c <- get_col "status" df ;;
    Ok (set_col "status" (map (fun x => PStr (Str.lower (Str.strip (astype_str x)))) c) df)
  else Ok df.

(** Step 6. *)
Definition normalize_market (df : DataFrame) : result DataFrame :=
  if has_col "market" df then
    c <- get_col "market" df ;;
    Ok (set_col "market" (map (fun x => PStr (Str.strip (astype_str x))) c) df)
  else Ok df.

Definition exit_statuses : list string := ["acquired"; "ipo"].

Definition ns_per_day : Z := 86400000000000.

(** The literals [365.0] and [0.5]. *)
Definition lit_365 : Float.float := Float.of_decimal false 3650 (-1).
Definition lit_half : Float.float := Float.of_decimal false 5 (-1).

(** [(last - founded).dt.days / 365.0] on one row. *)
Definition years_between (last founded : pyobj) : pyobj :=
  match last, founded with
  | PTime t1, PTime t0 => PFloat (Float.div (Float.of_Z ((t1 - t0) / ns_per_day)) lit_365)
  | _, _ => NaN
  end.

(** [years < 0.5] on one cell. *)
Definition below_half (y : pyobj) : bool :=
  match y with
  | PFloat f => Float.ltb f lit_half
  | _ => false
  end.

(** Lines 90-91: where both dates are known the duration replaces the
    cell. *)
Fixpoint exit_years (last founded years : Series) : Series :=
  match last, founded, years with
  | l :: last', f :: founded', y :: years' =>
      (if notna l && notna f then years_between l f else y)
        :: exit_years last' founded' years'
  | _, _, _ => []
  end.

(** Step 7: the years to exit, computed on the rows with an exit status
    and written back at their positions. *)
Definition years_to_exit (df : DataFrame) : result DataFrame :=
  let df := set_col "years_to_exit" (repeat NaN (nrows df)) df in
  status <- get_col "status" df ;;
  let index := where_ (isin exit_statuses) status in
  let exits := take_rows index df in
  last <- get_col "last_funding_at" exits ;;
  founded <- get_col "founded_at" exits ;;
  years <- get_col "years_to_exit" exits ;;
  let years := exit_years last founded years in
  let years := map (fun y => if below_half y then NaN else y) years in
  all_years <- get_col "years_to_exit" df ;;
  Ok (set_col "years_to_exit" (assign index years all_years) df).

(** [def load_data(filepath)] *)
Definition load_data (filepath : string) : result DataFrame :=
  df <- try_except (read_csv filepath (Some "ISO-8859-1"))
          CUnicodeDecodeError
          (read_csv filepath None) ;;
  let df := strip_columns df in
  df <- clean_funding df ;;
  df <- foldM parse_date_col date_cols df ;;
  df <- founded_year df ;;
  df <- normalize_status df ;;
  df <- normalize_market df ;;
  years_to_exit df.

(** ** [load_saas_data] *)

(** Line 173: [df[col + '_USD'] = df[col].apply(clean_money_string)]. *)
Definition clean_money_col (df : DataFrame) (col : string) : result DataFrame :=
  if has_col col df then
    c <- get_col col df ;;
    c' <- mapM Cleaners.clean_money_string c ;;
    Ok (set_col (col ++ "_USD") c' df)
  else Ok df.

(** The lambda of line 176, on the text of one cell. *)
Definition clean_employees (x : string) : result pyobj :=
  if Str.isdigit (Str.remove_first "." x) then
    f <- Float.of_string (Str.remove_first "." x) ;; Ok (PFloat f)
  else Ok (PInt 0).

(** [def load_saas_data(filepath)] *)
Definition load_saas_data (filepath : string) : result DataFrame :=
  match read_csv filepath None with
  | Raise e => if isinstance e CException then Ok empty else Raise e
  | Ok df =>
      df <- foldM clean_money_col ["Total Funding"; "ARR"; "Valuation"] df ;;
      if has_col "Employees" df then
        c <- get_col "Employees" df ;;
        c' <- mapM (fun x => clean_employees (Str.remove "," (astype_str x))) c ;;
        Ok (set_col "Employees" c' df)
      else Ok df
  end.

(** ** [load_investor_data] *)

(** [def load_investor_data(filepath)] *)
Definition load_investor_data (filepath : string) : result DataFrame :=
  try_except (read_csv filepath (Some "utf-8"))
    CException
    (try_except (read_csv filepath (Some "ISO-8859-1"))
       CBaseException
       (Ok empty)).

(** ** [load_unicorn_data] *)

(** Element-wise arithmetic of pandas on two columns and on a column and
    a scalar; a [TypeError] of the library is an exception of [result]. *)
Variable series_sub : Series -> Series -> result Series.
Variable series_scale : Series -> Float.float -> result Series.

(** Equality of dictionary keys. *)
Definition key_eqb (x y : pyobj) : bool :=
  match x, y with
  | PStr a, PStr b => String.eqb a b
  | PInt a, PInt b => Z.eqb a b
  | PFloat a, PFloat b => SFeqb a b
  | PInt a, PFloat b => SFeqb (Float.of_Z a) b
  | PFloat a, PInt b => SFeqb a (Float.of_Z b)
  | PTime a, PTime b => Z.eqb a b
  | _, _ => false
  end.

(** [dict(zip(keys, values)).get(k)]: a later pair overrides. *)
Fixpoint dict_find (keys values : Series) (k : pyobj) : option pyobj :=
  match keys, values with
  | k' :: keys', v :: values' =>
      match dict_find keys' values' k with
      | Some found => Some found
      | None => if key_eqb k' k then Some v else None
      end
  | _, _ => None
  end.

(** [series.map(dict)] on one cell: a key that is absent maps to NaN. *)
Definition dict_get (keys values : Series) (k : pyobj) : pyobj :=
  match dict_find keys values k with
  | Some v => v
  | None => NaN
  end.

(** [def load_unicorn_data(filepath)] *)
Definition load_unicorn_data (filepath : string) : result DataFrame :=
  match read_csv filepath None with
  | Raise e => if isinstance e CException then Ok empty else Raise e
  | Ok df_2022 =>
      df_2021 <- try_except (read_csv "Unicorn_Companies2021.csv" None)
                   CException (Ok empty) ;;
      df_2022 <-
        (if has_col "Last Valuation (Billion $)" df_2022 then
           c <- get_col "Last Valuation (Billion $)" df_2022 ;;
           v <- series_scale (to_numeric c) Cleaners.billion ;;
           Ok (set_col "Valuation_USD" v df_2022)
         else Ok df_2022) ;;
      df_2022 <-
        (if has_col "Date Joined" df_2022 then
           c <- get_col "Date Joined" df_2022 ;;
           let joined := map datetime_cell (to_datetime c) in
           Ok (set_col "Year Joined" (map dt_year joined)
                 (set_col "Date Joined" joined df_2022))
         else Ok df_2022) ;;
      df_2022 <-
        (if negb (is_empty df_2021) && has_col "Company" df_2021
            && has_col "Year Founded" df_2021 then
           keys <- get_col "Company" df_2021 ;;
           values <- get_col "Year Founded" df_2021 ;;
           company <- get_col "Company" df_2022 ;;
           let df_2022 := set_col "Year Founded" (map (dict_get keys values) company) df_2022 in
           joined <- get_col "Year Joined" df_2022 ;;
           founded <- get_col "Year Founded" df_2022 ;;
           d <- series_sub joined founded ;;
           Ok (set_col "Years_to_Unicorn" d df_2022)
         else Ok (set_col "Years_to_Unicorn" (repeat NaN (nrows df_2022)) df_2022)) ;;
      if has_col "Investors" df_2022 then
        c <- get_col "Investors" df_2022 ;;
        Ok (set_col "Select Investors" c df_2022)
      else Ok df_2022
  end.

End Loaders.

(* ===================================================================== *)
(** * Metrics aggregator                                                  *)
(* ===================================================================== *)

Module Metrics.

(** One row of the aggregation of line 102, keyed by its sector. *)
Record Agg := {
  market : string;
  total_funding_usd : Float.float;
  deal_count : Z;
  exit_count : Z;
  avg_years_to_exit : Float.float
}.

(** One row of the table returned. *)
Record Sector := {
  agg : Agg;
  success_rate : Float.float;
  avg_deal_size : Float.float
}.

(** The literal [100]. *)
Definition hundred : Float.float := Float.of_Z 100.

(** The sorted distinct keys of a grouping: insertion in code point
    order, without repetition. *)
Fixpoint insert_key (k : string) (keys : list string) : list string :=
  match keys with
  | [] => [k]
  | k' :: rest =>
      match String.compare k k' with
      | Lt => k :: keys
      | Eq => keys
      | Gt => k' :: insert_key k rest
      end
  end.

(** The group keys of [groupby]: the text cells of the column; a missing
    key is dropped. *)
Fixpoint group_keys (col : Series) : list string :=
  match col with
  | [] => []
  | PStr s :: col' => insert_key s (group_keys col')
  | _ :: col' => group_keys col'
  end.

Definition is_key (k : string) (x : pyobj) : bool :=
  match x with
  | PStr s => String.eqb s k
  | _ => false
  end.

(** [sort_values(..., ascending=False)]: a row comes before another when
    its value is at least the other's; an undefined value comes last. *)
Definition before (a b : Float.float) : bool :=
  Float.is_nan b || (negb (Float.is_nan a) && Float.leb b a).

Fixpoint insert_sorted {A} (key : A -> Float.float) (x : A) (l : list A) : list A :=
  match l with
  | [] => [x]
  | y :: l' => if before (key x) (key y) then x :: l else y :: insert_sorted key x l'
  end.

(** The sort is an insertion sort; pandas leaves the order of rows with
    equal values to its sorting routine. *)
Fixpoint sort_desc {A} (key : A -> Float.float) (l : list A) : list A :=
  match l with
  | [] => []
  | x :: l' => insert_sorted key x (sort_desc key l')
  end.

(** The columns the aggregation of line 102 reads, in the order of their
    names. *)
Definition agg_columns : list string :=
  ["funding_total_usd"; "name"; "status"; "years_to_exit"].

(** Names as Python prints a list of them. *)
Fixpoint py_names (cols : list string) : string :=
  match cols with
  | [] => EmptyString
  | [c] => "'" ++ c ++ "'"
  | c :: cols' => "'" ++ c ++ "', " ++ py_names cols'
  end.

(** The text of the KeyError [agg] raises for the columns it does not
    find: all of them, in one message. *)
Definition absent_message (cols : list string) : string :=
  "Column(s) [" ++ py_names cols ++ "] do not exist".

Section Aggregation.

(** The reductions of pandas on the cells of one group of a numeric
    column: the sum and the median, both skipping missing values. *)
Variable group_sum : Series -> Float.float.
Variable group_median : Series -> Float.float.

(** The four aggregates of one group, from the group's rows. *)
Definition aggregate (funding name status years : Series) (k : string) (rows : list nat) : Agg :=
  {| market := k;
     total_funding_usd := group_sum (take rows funding);
     deal_count := count_if notna (take rows name);
     exit_count := count_if (isin ["acquired"; "ipo"]) (take rows status);
     avg_years_to_exit := group_median (take rows years) |}.

Definition derive (a : Agg) : Sector :=
  {| agg := a;
     success_rate :=
       Float.mul (Float.div (Float.of_Z (exit_count a)) (Float.of_Z (deal_count a))) hundred;
     avg_deal_size := Float.div (total_funding_usd a) (Float.of_Z (deal_count a)) |}.

(** [def get_sector_metrics(df)] *)
Definition get_sector_metrics (df : DataFrame) : result (list Sector) :=
  by_market <- get_col "market" df ;;
  match filter (fun c => negb (has_col c df)) agg_columns with
  | c :: absent => Raise (KeyError (absent_message (c :: absent)))
  | [] =>
      funding <- get_col "funding_total_usd" df ;;
      name <- get_col "name" df ;;
      status <- get_col "status" df ;;
      years <- get_col "years_to_exit" df ;;
      let metrics :=
        map (fun k => aggregate funding name status years k (where_ (is_key k) by_market))
            (group_keys by_market) in
      let metrics := filter (fun a => 5 <? deal_count a) metrics in
      let metrics := map derive metrics in
      Ok (sort_desc (fun r => total_funding_usd (agg r)) metrics)
  end.

End Aggregation.

End Metrics.

(* ===================================================================== *)
(** * Label encoding and the success model                                *)
(* ===================================================================== *)

Module LabelEncoder.

(** A fitted encoder: its vocabulary [classes_], code [i] for the
    [i]-th class. *)
Record t := { classes_ : list string }.

(** [fit]: the sorted distinct values, [sorted(set(y))]. *)
Definition fit (y : list string) : t :=
  {| classes_ := fold_right Metrics.insert_key [] y |}.

Fixpoint index_of (x : string) (l : list string) : option nat :=
  match l with
  | [] => None
  | c :: l' =>
      if String.eqb x c then Some 0%nat
      else match index_of x l' with
           | Some i => Some (S i)
           | None => None
           end
  end.

(** [transform([x])[0]]: the code of [x], a [ValueError] on a value that
    was not seen by [fit]. *)
Definition transform (enc : t) (x : string) : result nat :=
  match index_of x (classes_ enc) with
  | Some i => Ok i
  | None => Raise ValueError
  end.

(** ** The fallback policy as the specification words it *)

(** Try the literal value; if unseen, try ["Other"]; if that too is
    unseen, code 0. *)
Definition fallback_policy (enc : t) (x : string) : nat :=
  match transform enc x with
  | Ok c => c
  | Raise _ =>
      match transform enc "Other" with
      | Ok c => c
      | Raise _ => 0%nat
      end
  end.

End LabelEncoder.

Section Learning.

Variable read_csv : string -> option string -> result DataFrame.
Variable str_of_number : pyobj -> string.
Variable to_numeric : Series -> Series.

(** The classifier of scikit-learn: the type of a fitted forest, [fit] on
    the feature rows and their labels, and the probability of the
    positive class for one feature row. *)
Variable Model : Type.
Variable forest_fit : list (list pyobj) -> Series -> result Model.
Variable predict_proba : Model -> list pyobj -> result Float.float.

(** [value_counts().nlargest(50).index]: the fifty most frequent values. *)
Variable top_50 : list string -> list string.

(** The lambda of line 223. *)
Definition first_category (x : pyobj) : string :=
  match x with
  | PStr s => Str.split_head "|" s
  | _ => "Other"
  end.

(** Line 223 on one cell: [astype(str)], then the lambda. *)
Definition primary_category (x : pyobj) : string :=
  first_category (PStr (astype_str str_of_number x)).

(** [df.dropna()]: the positions of the rows without a missing cell. *)
Definition complete_rows (df : DataFrame) : list nat :=
  filter (fun i => forallb (fun p => notna (nth i (snd p) NaN)) df) (seq 0 (nrows df)).

Definition text_of (x : pyobj) : string :=
  match x with
  | PStr s => s
  | _ => ""
  end.

(** The rows of a table, cell by cell in column order. *)
Definition rows_of (df : DataFrame) : list (list pyobj) :=
  map (fun i => map (fun p => nth i (snd p) NaN) df) (seq 0 (nrows df)).

Definition code_cell (r : result nat) : pyobj :=
  match r with
  | Ok c => PInt (Z.of_nat c)
  | Raise _ => NaN
  end.

(** [def train_success_model(filepath)]: the model and the two encoders,
    or [(None, None)]. *)
Definition train_success_model (filepath : string)
  : result (option Model * option (LabelEncoder.t * LabelEncoder.t)) :=
  match read_csv filepath None with
  | Raise e => if isinstance e CException then Ok (None, None) else Raise e
  | Ok df =>
      status <- get_col "status" df ;;
      let valid_status := ["operating"; "acquired"; "closed"; "ipo"] in
      let df := take_rows (where_ (isin valid_status) status) df in
      status <- get_col "status" df ;;
      let df := set_col "is_success"
                  (map (fun x => if isin ["acquired"; "ipo"] x then PInt 1 else PInt 0) status) df in
      df <- clean_funding str_of_number df ;;
      df <- (if has_col "funding_rounds" df then
               c <- get_col "funding_rounds" df ;;
               Ok (set_col "funding_rounds" (fillna (PInt 1) (to_numeric c)) df)
             else Ok df) ;;
      category_list <- get_col "category_list" df ;;
      let df := set_col "primary_category"
                  (map (fun x => PStr (primary_category x)) category_list) df in
      funding <- get_col "funding_total_usd" df ;;
      rounds <- get_col "funding_rounds" df ;;
      country <- get_col "country_code" df ;;
      category <- get_col "primary_category" df ;;
      is_success <- get_col "is_success" df ;;
      let selected := [("funding_total_usd", funding); ("funding_rounds", rounds);
                       ("country_code", country); ("primary_category", category);
                       ("is_success", is_success)] in
      let df_clean := take_rows (complete_rows selected) selected in
      country <- get_col "country_code" df_clean ;;
      let countries := map (astype_str str_of_number) country in
      let le_country := LabelEncoder.fit countries in
      let df_clean := set_col "country_code_enc"
                        (map (fun x => code_cell (LabelEncoder.transform le_country x)) countries)
                        df_clean in
      category <- get_col "primary_category" df_clean ;;
      let top_cats := top_50 (map text_of category) in
      let categories :=
        map (fun x => if existsb (String.eqb (text_of x)) top_cats then text_of x else "Other")
            category in
      let df_clean := set_col "primary_category" (map PStr categories) df_clean in
      let le_category := LabelEncoder.fit categories in
      let df_clean := set_col "category_enc"
                        (map (fun x => code_cell (LabelEncoder.transform le_category x)) categories)
                        df_clean in
      funding <- get_col "funding_total_usd" df_clean ;;
      rounds <- get_col "funding_rounds" df_clean ;;
      country_enc <- get_col "country_code_enc" df_clean ;;
      category_enc <- get_col "category_enc" df_clean ;;
      y <- get_col "is_success" df_clean ;;
      let X := rows_of [("funding_total_usd", funding); ("funding_rounds", rounds);
                        ("country_code_enc", country_enc); ("category_enc", category_enc)] in
      model <- forest_fit X y ;;
      Ok (Some model, Some (le_country, le_category))
  end.

(** Lines 253-256: the code of the country. *)
Definition encode_country (le_country : LabelEncoder.t) (country : string) : result nat :=
  try_except (LabelEncoder.transform le_country country)
    CBaseException
    (Ok 0%nat).

(** Lines 258-264: the code of the category. *)
Definition encode_category (le_category : LabelEncoder.t) (category : string) : result nat :=
  try_except (LabelEncoder.transform le_category category)
    CBaseException
    (try_except (LabelEncoder.transform le_category "Other")
       CBaseException
       (Ok 0%nat)).

(** [def predict_success(model, encoders, funding, rounds, country, category)] *)
Definition predict_success (model : Model) (encoders : LabelEncoder.t * LabelEncoder.t)
    (funding rounds : pyobj) (country category : string) : result Float.float :=
  let '(le_country, le_category) := encoders in
  c_enc <- encode_country le_country country ;;
  cat_enc <- encode_category le_category category ;;
  let X_input := [funding; rounds; PInt (Z.of_nat c_enc); PInt (Z.of_nat cat_enc)] in
  predict_proba model X_input.

End Learning.

(* ===================================================================== *)
(** * Values and fixtures of the statements                               *)
(* ===================================================================== *)

(** [x >= 0.0] holds, or [x] is NaN. *)
Definition nonneg_or_nan (f : Float.float) : bool :=
  Float.is_nan f || Float.leb Float.zero f.

(** The literals [1.0e11] and [5.0e7]. *)
Definition lit_1e11 : Float.float := Float.of_decimal false 10 10.
Definition lit_5e7 : Float.float := Float.of_decimal false 50 6.


(** A file system whose every path holds the table [df]. *)
Definition one_file (df : DataFrame) (path : string) (encoding : option string)
  : result DataFrame := Ok df.

(** Stand-ins for the library calls: numbers print as a fixed text, an
    integer or a timestamp is a date (its nanoseconds), numeric coercion
    keeps the cells, the year counts 365-day years from 1970, the
    reductions return 0.0. *)
Definition fx_str (x : pyobj) : string := "0".

Definition fx_to_datetime (col : Series) : list (option Z) :=
  map (fun x => match x with
                | PInt t | PTime t => Some t
                | _ => None
                end) col.

Definition fx_to_numeric (col : Series) : Series := col.

Definition fx_year (t : Z) : Z := 1970 + t / (365 * ns_per_day).

Definition fx_reduce (col : Series) : Float.float := Float.zero.

Definition fx_sub (a b : Series) : result Series := Ok a.

Definition fx_scale (a : Series) (k : Float.float) : result Series := Ok a.


Definition fx_fit (X : list (list pyobj)) (y : Series) : result unit := Ok tt.





(** Six named companies of one sector, two of them exits. *)
Definition named_deals : DataFrame :=
  [("name", repeat (PStr "a") 6);
   ("market", repeat (PStr "Software") 6);
   ("status", [PStr "acquired"; PStr "ipo"; PStr "operating"; PStr "closed";
               PStr "operating"; PStr "operating"]);
   ("funding_total_usd", repeat (PFloat Float.zero) 6);
   ("years_to_exit", repeat NaN 6)].

(** [load_data] reads [df0] at [path], in either encoding. *)
Definition reads (read_csv : string -> option string -> result DataFrame)
    (path : string) (df0 : DataFrame) : Prop :=
  try_except (read_csv path (Some "ISO-8859-1")) CUnicodeDecodeError (read_csv path None)
  = Ok df0.


(** Three companies: an exit after two years, an exit after ninety days,
    and one still operating; dates in nanoseconds. *)
Definition three_companies : DataFrame :=
  [(" status ", [PStr " Acquired"; PStr "ipo"; PStr "operating"]);
   ("founded_at", [PInt 0; PInt 0; PInt 0]);
   ("last_funding_at",
    [PInt (730 * ns_per_day); PInt (90 * ns_per_day); PInt (730 * ns_per_day)])].

(** A table with a status column and no date column. *)
Definition status_only : DataFrame :=
  [("status", [PStr "operating"])].

(** The cell that step 7 of [load_data] writes at a row with an exit
    status. *)
Definition exit_cell (last founded : Series) (i : nat) : pyobj :=
  let y := if notna (nth i last NaN) && notna (nth i founded NaN)
           then years_between (nth i last NaN) (nth i founded NaN)
           else NaN in
  if below_half y then NaN else y.

(** The second table has the columns of the first, and possibly the
    derived founded_year. *)
Definition keeps (df df' : DataFrame) : Prop :=
  forall c, String.eqb c "founded_year" = false -> has_col c df' = has_col c df.

(** ** Whole amounts *)

(** Every character of the text satisfies [p]. *)
Fixpoint all_chars (p : ascii -> bool) (s : string) : bool :=
  match s with
  | EmptyString => true
  | String c s' => p c && all_chars p s'
  end.

(** The number a run of decimal digits writes, after the digits [acc]. *)
Fixpoint whole (acc : N) (d : string) : N :=
  match d with
  | EmptyString => acc
  | String c d' => whole (acc * 10 + Str.digit_value c)%N d'
  end.

(** A digit or a thousands separator. *)
Definition is_amount_char (c : ascii) : bool :=
  Str.is_decimal c || Ascii.eqb c ",".

(** Text made of digits and separators, with at least one digit. *)
Definition is_amount (t : string) : Prop :=
  all_chars is_amount_char t = true /\ Str.remove "," t <> "".

(** A table of [n] rows: every column has [n] cells. *)
Definition rectangular (n : nat) (df : DataFrame) : Prop :=
  Forall (fun p => length (snd p) = n) df.

(** A library call on a column returns one cell per row. *)
Definition keeps_length {A} (f : Series -> list A) : Prop :=
  forall col, length (f col) = length col.

(** ** Normal forms of the text columns *)

(** A status cell as step 5 of [load_data] leaves it: text that is its
    own lower case and its own [strip]. *)
Definition normalized_status (x : pyobj) : Prop :=
  exists s, x = PStr s /\ Str.lower s = s /\ Str.strip s = s.

(** A market cell as step 6 leaves it: text that is its own [strip]. *)
Definition trimmed_text (x : pyobj) : Prop :=
  exists s, x = PStr s /\ Str.strip s = s.

(** The columns of the table [load_data] returns, from those of the file
    after trimming: the same, years_to_exit, and founded_year when a
    founding date is there. *)
Definition loaded_column (df1 : DataFrame) (c : string) : bool :=
  has_col c df1
  || String.eqb c "years_to_exit"
  || (String.eqb c "founded_year" && has_col "founded_at" df1).

(** ** Sectors and vocabularies *)

(** Strictly ascending in code point order. *)
Definition ascending (l : list string) : Prop :=
  StronglySorted (fun a b => String.compare a b = Lt) l.

(** The sectors of a metrics table, in its order. *)
Definition sectors (rows : list Metrics.Sector) : list string :=
  map (fun r => Metrics.market (Metrics.agg r)) rows.



(** ** Training data *)

(** A label of the classifier: 0 or 1. *)
Definition binary_label (l : pyobj) : Prop := l = PInt 0 \/ l = PInt 1.

(** A feature row of the classifier: four cells, none missing. *)
Definition defined_row (row : list pyobj) : Prop :=
  length row = 4%nat /\ Forall (fun c => notna c = true) row.

(** Line 210: the label of a status. *)
Definition label_of (x : pyobj) : pyobj :=
  if isin ["acquired"; "ipo"] x then PInt 1 else PInt 0.

(** A stand-in for the fifty most frequent values: the first fifty. *)
Definition fx_top50 (l : list string) : list string := firstn 50 l.

(** Four companies of a training file; the last has an unknown status and
    the third has no country. *)
Definition training_table : DataFrame :=
  [("status", [PStr "acquired"; PStr "operating"; PStr "closed"; PStr "pending"]);
   ("funding_total_usd", [PStr "1,000"; PStr "-"; PStr "500"; PStr "7"]);
   ("funding_rounds", [PInt 2; NaN; PInt 1; PInt 3]);
   ("country_code", [PStr "USA"; PStr "GBR"; NaN; PStr "USA"]);
   ("category_list", [PStr "Software|Games"; NaN; PStr "Health"; PStr "Software"])].

(** ** The optional loaders *)

(** What [clean_money_string] makes of one cell: text becomes the float
    of its amount, anything else stays. *)
Definition money_cell (x : pyobj) : pyobj :=
  match x with
  | PStr s => PFloat (Cleaners.abbreviated_currency Cleaners.code_units s)
  | _ => x
  end.

(** The money columns of the SaaS file. *)
Definition money_columns : list string := ["Total Funding"; "ARR"; "Valuation"].

(** An employee count as the SaaS loader leaves it: a float or the
    integer 0. *)
Definition employee_count (x : pyobj) : Prop :=
  x = PInt 0 \/ exists f, x = PFloat f.

(** A SaaS file of two companies, without an employee column. *)
Definition saas_table : DataFrame :=
  [("Company Name", [PStr "Acme"; PStr "Globex"]);
   ("ARR", [PStr "$50M"; PStr "$1.5B"]);
   ("Valuation", [PStr "$2B"; NaN])].

(** The unicorn file and its reference file: the second company is
    spelled differently in the reference. *)
Definition unicorns_2022 : DataFrame :=
  [("Company", [PStr "Acme"; PStr "Globex Inc"]);
   ("Date Joined", [PInt 0; PInt 0])].

Definition unicorns_2021 : DataFrame :=
  [("Company", [PStr "Acme"; PStr "Globex"]);
   ("Year Founded", [PInt 1960; PInt 1970])].

(** A file system holding the unicorn file and, under its fixed name, the
    reference file. *)
Definition unicorn_files (path : string) (encoding : option string) : result DataFrame :=
  if String.eqb path "Unicorn_Companies2021.csv" then Ok unicorns_2021
  else Ok unicorns_2022.

(** The same without the reference file. *)
Definition unicorn_file_alone (path : string) (encoding : option string)
  : result DataFrame :=
  if String.eqb path "Unicorn_Companies2021.csv" then Raise FileNotFoundError
  else Ok unicorns_2022.

(** A file that is not UTF-8 and reads as ISO-8859-1. *)
Definition latin1_file (df : DataFrame) (path : string) (encoding : option string)
  : result DataFrame :=
  match encoding with
  | Some "ISO-8859-1" => Ok df
  | _ => Raise UnicodeDecodeError
  end.

(** ** The funding column *)

(** What step 2 of [load_data] makes of one cell of a textual funding
    column. *)
Definition funding_cell (str_of_number : pyobj -> string) (x : pyobj) : pyobj :=
  PFloat (match Float.of_string (Str.remove "," (Str.strip (astype_str str_of_number x))) with
          | Ok f => f
          | Raise _ => Float.zero
          end).

Definition is_float (x : pyobj) : Prop := exists f, x = PFloat f.

(** A table with a textual funding column, a status and the two dates. *)
Definition funded_companies : DataFrame :=
  [("funding_total_usd", [PStr " 1,000 "; PStr "-"; NaN]);
   ("status", [PStr "operating"; PStr "closed"; PStr "ipo"]);
   ("founded_at", [PInt 0; PInt 0; PInt 0]);
   ("last_funding_at", [PInt 0; PInt 0; PInt 0])].

(* ===================================================================== *)
(** * Metrics aggregator: funding by year and sector                      *)
(* ===================================================================== *)

Module Yearly.

(** One row of the table returned: a year, a sector and the sum of the
    funding of the sector's companies founded that year. *)
Record Row := {
  founded_year : pyobj;
  market : string;
  funding_total_usd : Float.float
}.

(** [series.nlargest(n)] on the sums of the sectors: the undefined sums
    are dropped, the rest is sorted in descending order and the first [n]
    are kept ([n <= 0] keeps none). *)
Definition nlargest (n : Z) (sums : list (string * Float.float)) : list string :=
  map fst
    (firstn (Z.to_nat n)
       (Metrics.sort_desc snd
          (filter (fun p => negb (Float.is_nan (snd p))) sums))).

Section Grouping.

(** The reduction of pandas on the cells of one group, and the order of
    pandas on the values of a year column ([Eq]: the same year). *)
Variable group_sum : Series -> Float.float.
Variable year_compare : pyobj -> pyobj -> comparison.

(** The order of the keys of [groupby(['founded_year', 'market'])]: by
    year, then by sector. *)
Definition key_compare (a b : pyobj * string) : comparison :=
  match year_compare (fst a) (fst b) with
  | Eq => String.compare (snd a) (snd b)
  | c => c
  end.

(** The sorted distinct keys, by insertion. *)
Fixpoint insert_pair (k : pyobj * string) (keys : list (pyobj * string))
  : list (pyobj * string) :=
  match keys with
  | [] => [k]
  | k' :: rest =>
      match key_compare k k' with
      | Lt => k :: keys
      | Eq => keys
      | Gt => k' :: insert_pair k rest
      end
  end.

(** The keys of the rows: a row with a missing year or without a market
    text has none. *)
Fixpoint group_pairs (years markets : Series) : list (pyobj * string) :=
  match years, markets with
  | y :: years', m :: markets' =>
      match m with
      | PStr s =>
          if notna y then insert_pair (y, s) (group_pairs years' markets')
          else group_pairs years' markets'
      | _ => group_pairs years' markets'
      end
  | _, _ => []
  end.

(** The row belongs to the group of the key. *)
Definition in_group (k : pyobj * string) (y m : pyobj) : bool :=
  match m with
  | PStr s =>
      notna y && String.eqb s (snd k)
      && match year_compare y (fst k) with Eq => true | _ => false end
  | _ => false
  end.

Definition group_rows (k : pyobj * string) (years markets : Series) : list nat :=
  filter (fun i => in_group k (nth i years NaN) (nth i markets NaN))
         (seq 0 (length markets)).

(** [sort_values('founded_year')], by insertion; pandas leaves the order
    of rows of one year to its sorting routine. *)
Fixpoint insert_row (r : Row) (l : list Row) : list Row :=
  match l with
  | [] => [r]
  | r' :: l' =>
      match year_compare (founded_year r) (founded_year r') with
      | Gt => r' :: insert_row r l'
      | _ => r :: l
      end
  end.

Fixpoint sort_rows (l : list Row) : list Row :=
  match l with
  | [] => []
  | r :: l' => insert_row r (sort_rows l')
  end.

(** The sums of the sectors, [df.groupby('market')['funding_total_usd'].sum()]. *)
Definition sector_sums (by_market funding : Series) : list (string * Float.float) :=
  map (fun k => (k, group_sum (take (where_ (Metrics.is_key k) by_market) funding)))
      (Metrics.group_keys by_market).

(** [def get_yearly_funding_by_sector(df, top_n=5)] *)
Definition get_yearly_funding_by_sector (df : DataFrame) (top_n : Z)
  : result (list Row) :=
  by_market <- get_col "market" df ;;
  funding <- get_col "funding_total_usd" df ;;
  let top_sectors := nlargest top_n (sector_sums by_market funding) in
  let subset := take_rows (where_ (isin top_sectors) by_market) df in
  years <- get_col "founded_year" subset ;;
  markets <- get_col "market" subset ;;
  funding <- get_col "funding_total_usd" subset ;;
  let yearly :=
    map (fun k => {| founded_year := fst k;
                     market := snd k;
                     funding_total_usd :=
                       group_sum (take (group_rows k years markets) funding) |})
        (group_pairs years markets) in
  Ok (sort_rows yearly).

End Grouping.

End Yearly.

(** ** Values of the statements on yearly funding *)

(** The order of the years is a strict weak order: reversing the
    arguments reverses the answer, and "before" passes along "before" and
    along "the same year". *)
Definition year_order (cmp : pyobj -> pyobj -> comparison) : Prop :=
  (forall a b, cmp b a = CompOpp (cmp a b)) /\
  (forall a b c, cmp a b = Lt -> cmp b c = Lt -> cmp a c = Lt) /\
  (forall a b c, cmp a b = Eq -> cmp b c = Lt -> cmp a c = Lt) /\
  (forall a b c, cmp a b = Lt -> cmp b c = Eq -> cmp a c = Lt).

(** The key of a row. *)
Definition row_key (r : Yearly.Row) : pyobj * string :=
  (Yearly.founded_year r, Yearly.market r).

(** A stand-in for the order of the years: integers by value, any other
    cell as 0. *)
Definition fx_year_rank (x : pyobj) : Z :=
  match x with
  | PInt z => z
  | _ => 0
  end.

Definition fx_year_compare (a b : pyobj) : comparison :=
  Z.compare (fx_year_rank a) (fx_year_rank b).

(** Three sectors over two years; the sums are 0.0 under the stand-in
    reduction. *)
Definition yearly_table : DataFrame :=
  [("market", [PStr "Software"; PStr "Health"; PStr "Software"; PStr "Games"; NaN]);
   ("founded_year", [PInt 2011; PInt 2010; PInt 2010; NaN; PInt 2012]);
   ("funding_total_usd", repeat (PFloat Float.zero) 5)].

(* ===================================================================== *)
(** * Dataset loaders: a table with row labels                            *)
(* ===================================================================== *)

(** [read_csv] gives every row a label: its position by default, and the
    first field of the row when the rows of the file have one field more
    than its header.  The loaders above are written for the default
    labels; line 94 of [load_data] is the one place of [utils.py] that
    addresses rows by their labels, and [Indexed] has it as written. *)
Module Indexed.

Section Labels.

Context {Label : Type}.

(** The equality of two labels, and the parsed file: the label of each
    row position and the columns. *)
Variable label_eqb : Label -> Label -> bool.
Variable read_csv : string -> option string -> result ((nat -> Label) * DataFrame).
Variable str_of_number : pyobj -> string.
Variable to_datetime : Series -> list (option Z).
Variable to_numeric : Series -> Series.
Variable year_of : Z -> Z.

(** The value a series with the labels [labels] holds for the label [l]:
    that of its first row with this label. *)
Fixpoint value_at (labels : list Label) (vals : Series) (l : Label) : option pyobj :=
  match labels, vals with
  | l' :: labels', v :: vals' =>
      if label_eqb l' l then Some v else value_at labels' vals' l
  | _, _ => None
  end.

(** No label occurs twice. *)
Fixpoint unique (labels : list Label) : bool :=
  match labels with
  | [] => true
  | l :: labels' => negb (existsb (label_eqb l) labels') && unique labels'
  end.

(** [col.loc[labels] = vals] for a series [vals] with the labels [labels]:
    the rows of the table whose label is among [labels] are selected, all
    of them, and the series is aligned on their labels, so that each
    receives the value of its label; pandas refuses to align a series that
    has a label twice, with a ValueError. *)
Definition loc_set (index : nat -> Label) (labels : list Label) (vals col : Series)
  : result Series :=
  if unique labels then
    Ok (map (fun p => match value_at labels vals (index p) with
                      | Some v => v
                      | None => nth p col NaN
                      end)
            (seq 0 (length col)))
  else Raise ValueError.

(** Step 7 of [load_data], lines 87-94. *)
Definition years_to_exit (index : nat -> Label) (df : DataFrame) : result DataFrame :=
  let df := set_col "years_to_exit" (repeat NaN (nrows df)) df in
  status <- get_col "status" df ;;
  let rows := where_ (isin exit_statuses) status in
  let exits := take_rows rows df in
  last <- get_col "last_funding_at" exits ;;
  founded <- get_col "founded_at" exits ;;
  years <- get_col "years_to_exit" exits ;;
  let years := exit_years last founded years in
  let years := map (fun y => if below_half y then NaN else y) years in
  all_years <- get_col "years_to_exit" df ;;
  all_years <- loc_set index (map index rows) years all_years ;;
  Ok (set_col "years_to_exit" all_years df).

(** [def load_data(filepath)], with the labels of the rows. *)
Definition load_data (filepath : string) : result ((nat -> Label) * DataFrame) :=
  frame <- try_except (read_csv filepath (Some "ISO-8859-1"))
             CUnicodeDecodeError
             (read_csv filepath None) ;;
  let index := fst frame in
  let df := strip_columns (snd frame) in
  df <- clean_funding str_of_number df ;;
  df <- foldM (parse_date_col to_datetime) date_cols df ;;
  df <- founded_year to_numeric year_of df ;;
  df <- normalize_status str_of_number df ;;
  df <- normalize_market str_of_number df ;;
  df <- years_to_exit index df ;;
  Ok (index, df).

End Labels.

End Indexed.

(** ** Values of the statements on row labels *)

(** No two rows carry the same label. *)
Definition distinct_labels {Label} (label_eqb : Label -> Label -> bool)
    (index : nat -> Label) : Prop :=
  forall i j, label_eqb (index i) (index j) = true <-> i = j.

(** A file system whose every path holds the table [df] with the row
    labels [index]. *)
Definition one_labelled_file {Label} (index : nat -> Label) (df : DataFrame)
    (path : string) (encoding : option string)
  : result ((nat -> Label) * DataFrame) := Ok (index, df).

(** The file
<<
    status,founded_at,last_funding_at
    a,acquired,0,63072000000000000
    a,operating,0,63072000000000000
>>
    whose rows have one field more than the header: the first field is
    the label of the row.  An exit after two years and a company still
    operating, both labelled [a]; dates in nanoseconds. *)
Definition same_label_index (i : nat) : string := "a".

Definition same_label_companies : DataFrame :=
  [("status", [PStr "acquired"; PStr "operating"]);
   ("founded_at", [PInt 0; PInt 0]);
   ("last_funding_at", [PInt (730 * ns_per_day); PInt (730 * ns_per_day)])].

(** The default labels: the positions. *)
Definition default_index (i : nat) : nat := i.


(* ===================================================================== *)
(** * Properties: floats                                                  *)
(* ===================================================================== *)

Section RoundingSign.

Let prec := Float.prec.
Let emax := Float.emax.

Lemma shr_1_nonneg mrs : 0 <= shr_m mrs -> 0 <= shr_m (shr_1 mrs).
Proof.
  destruct mrs as [m r s]; simpl.
  destruct m as [|p|p]; simpl; try lia.
  - destruct p; simpl; lia.
Qed.

Lemma iter_shr_1_nonneg p : forall mrs,
  0 <= shr_m mrs -> 0 <= shr_m (iter_pos shr_1 p mrs).
Proof.
  induction p; intros mrs H; simpl.
  - apply IHp, IHp, shr_1_nonneg, H.
  - apply IHp, IHp, H.
  - apply shr_1_nonneg, H.
Qed.

Lemma shr_fexp_nonneg m e l :
  0 <= m -> 0 <= shr_m (fst (shr_fexp prec emax m e l)).
Proof.
  intros H. unfold shr_fexp, shr.
  assert (H0 : 0 <= shr_m (shr_record_of_loc m l))
    by (destruct l as [|[]]; simpl; exact H).
  destruct (fexp prec emax (Zdigits2 m + e) - e); simpl; auto.
  apply iter_shr_1_nonneg, H0.
Qed.

Lemma round_nearest_even_nonneg m l : 0 <= m -> 0 <= round_nearest_even m l.
Proof.
  intros H. destruct l as [|[]]; simpl; try lia.
  destruct (Z.even m); lia.
Qed.

(** Rounding a non-negative mantissa keeps the sign it is given. *)
Lemma binary_round_aux_sign sx mx ex lx :
  0 <= mx ->
  match binary_round_aux prec emax sx mx ex lx with
  | S754_zero s | S754_infinity s | S754_finite s _ _ => s = sx
  | S754_nan => False
  end.
Proof.
  intros H. unfold binary_round_aux.
  pose proof (shr_fexp_nonneg mx ex lx H) as H1.
  destruct (shr_fexp prec emax mx ex lx) as [mrs' e']; simpl in H1.
  pose proof (shr_fexp_nonneg _ e' loc_Exact
                (round_nearest_even_nonneg _ (loc_of_shr_record mrs') H1)) as H2.
  destruct (shr_fexp prec emax _ e' loc_Exact) as [mrs'' e'']; simpl in H2.
  destruct (shr_m mrs'') as [|p|p]; try reflexivity.
  - destruct (e'' <=? emax - prec); reflexivity.
  - lia.
Qed.

Lemma of_ratio_sign neg n d :
  match Float.of_ratio neg n d with
  | S754_zero s | S754_infinity s | S754_finite s _ _ => s = neg
  | S754_nan => False
  end.
Proof.
  unfold Float.of_ratio, Float.div, SFdiv.
  destruct (SFdiv_core_binary Float.prec Float.emax (Z.pos n) 0 (Z.pos d) 0)
    as [[mz ez] lz] eqn:E.
  replace (xorb neg false) with neg by (destruct neg; reflexivity).
  apply binary_round_aux_sign.
  unfold SFdiv_core_binary in E.
  set (m' := match _ - _ - _ with Z0 => Z.pos n | Z.pos _ => _ | Z.neg _ => 0 end) in E.
  assert (Hm : 0 <= m').
  { subst m'. destruct (_ - _ - _); try lia. apply Z.shiftl_nonneg. lia. }
  pose proof (Z_div_mod m' (Z.pos d) eq_refl) as Hd.
  destruct (Z.div_eucl m' (Z.pos d)) as [q r].
  inversion E; subst. nia.
Qed.

End RoundingSign.

Lemma of_decimal_nonneg m e : nonneg_or_nan (Float.of_decimal false m e) = true.
Proof.
  unfold Float.of_decimal.
  assert (H : forall n d, nonneg_or_nan (Float.of_ratio false n d) = true).
  { intros n d. pose proof (of_ratio_sign false n d) as H.
    destruct (Float.of_ratio false n d); try contradiction; subst; reflexivity. }
  destruct m; [reflexivity|]. destruct e; apply H.
Qed.



(* ===================================================================== *)
(** * Properties: strings and [float(s)]                                  *)
(* ===================================================================== *)

(** [float(s)] raises nothing but [ValueError]. *)
Lemma of_string_raises s e : Float.of_string s = Raise e -> e = ValueError.
Proof.
  unfold Float.of_string.
  destruct (if Str.contains _ _ then _ else _) as [u|]; [|congruence].
  destruct (Float.sign_of _) as [neg body].
  destruct (Float.decimal neg body); [discriminate|].
  destruct (Float.inf_or_nan neg body); [discriminate|congruence].
Qed.

Section Occurrences.

(** A character that does not occur in a text does not occur in what the
    string operations leave of it. *)
Variable c : ascii.

Lemma contains_lstrip s : Str.contains c s = false -> Str.contains c (Str.lstrip s) = false.
Proof.
  induction s as [|d s IH]; simpl; auto.
  intros H. apply orb_false_iff in H as [H1 H2].
  destruct (Str.isspace d); simpl; auto. now rewrite H1, H2.
Qed.

Lemma contains_rstrip s : Str.contains c s = false -> Str.contains c (Str.rstrip s) = false.
Proof.
  induction s as [|d s IH]; simpl; auto.
  intros H. apply orb_false_iff in H as [H1 H2]. specialize (IH H2).
  destruct (Str.rstrip s); simpl in *.
  - destruct (Str.isspace d); simpl; auto. now rewrite H1.
  - now rewrite H1, IH.
Qed.

Lemma contains_strip s : Str.contains c s = false -> Str.contains c (Str.strip s) = false.
Proof. intros H. apply contains_rstrip, contains_lstrip, H. Qed.

Lemma contains_remove d s : Str.contains c s = false -> Str.contains c (Str.remove d s) = false.
Proof.
  induction s as [|a s IH]; simpl; auto.
  intros H. apply orb_false_iff in H as [H1 H2].
  destruct (Ascii.eqb a d); simpl; auto. now rewrite H1, IH.
Qed.

Lemma contains_c_lstrip s : Str.contains c s = false -> Str.contains c (Float.c_lstrip s) = false.
Proof.
  induction s as [|d s IH]; simpl; auto.
  intros H. apply orb_false_iff in H as [H1 H2].
  destruct (Float.c_isspace d); simpl; auto. now rewrite H1, H2.
Qed.

Lemma contains_c_rstrip s : Str.contains c s = false -> Str.contains c (Float.c_rstrip s) = false.
Proof.
  induction s as [|d s IH]; simpl; auto.
  intros H. apply orb_false_iff in H as [H1 H2]. specialize (IH H2).
  destruct (Float.c_rstrip s); simpl in *.
  - destruct (Float.c_isspace d); simpl; auto. now rewrite H1.
  - now rewrite H1, IH.
Qed.

Lemma contains_strip_underscores s : forall prev r,
  Float.strip_underscores prev s = Some r ->
  Str.contains c s = false -> Str.contains c r = false.
Proof.
  induction s as [|d s IH]; simpl; intros prev r Hr H.
  - destruct (Ascii.eqb prev "_"); inversion Hr; reflexivity.
  - apply orb_false_iff in H as [H1 H2].
    destruct (Ascii.eqb d "_").
    + destruct (Str.is_decimal prev); [eauto|discriminate].
    + destruct (Ascii.eqb prev "_" && negb (Str.is_decimal d)); [discriminate|].
      destruct (Float.strip_underscores d s) as [r'|] eqn:E; inversion Hr; subst.
      simpl. rewrite H1. eauto.
Qed.

End Occurrences.

(** The minus sign is below 127: [float] reads it as it is written. *)
Lemma contains_minus_transform s :
  Str.contains "-" s = false -> Str.contains "-" (Float.transform s) = false.
Proof.
  induction s as [|d s IH]; simpl; auto.
  intros H. apply orb_false_iff in H as [H1 H2]. rewrite (IH H2), orb_false_r.
  unfold Float.to_ascii.
  destruct (Str.code d <? 127)%N; [exact H1|].
  destruct (Str.isspace d); reflexivity.
Qed.

Lemma sign_of_no_minus s :
  Str.contains "-" s = false -> fst (Float.sign_of s) = false.
Proof.
  destruct s as [|d s]; simpl; auto.
  intros H. apply orb_false_iff in H as [H1 _]. rewrite H1.
  destruct (Ascii.eqb d "+"); reflexivity.
Qed.

Lemma decimal_nonneg body f :
  Float.decimal false body = Some f -> nonneg_or_nan f = true.
Proof.
  unfold Float.decimal.
  destruct (Float.digits body 0 0) as [[m1 n1] r1].
  destruct (match r1 with
            | String "."%char r => let '(m, n, r') := Float.digits r m1 0 in (m, n, r')
            | _ => (m1, 0%nat, r1)
            end) as [[m2 n2] r2].
  destruct (n1 + n2)%nat; [discriminate|].
  destruct r2.
  - intros H; inversion H. apply of_decimal_nonneg.
  - destruct (Float.exponent _) as [[e [|]]|]; try discriminate.
    intros H; inversion H. apply of_decimal_nonneg.
Qed.

(** Text without a minus sign denotes no negative number. *)
Lemma of_string_nonneg s f :
  Str.contains "-" s = false -> Float.of_string s = Ok f -> nonneg_or_nan f = true.
Proof.
  intros Hs. unfold Float.of_string.
  pose proof (contains_minus_transform s Hs) as Ht.
  destruct (if Str.contains "_" (Float.transform s) then _ else _) as [u|] eqn:Eu;
    [|discriminate].
  assert (Hu : Str.contains "-" u = false).
  { destruct (Str.contains "_" (Float.transform s)).
    - eapply contains_strip_underscores; eauto.
    - inversion Eu; subst; exact Ht. }
  pose proof (sign_of_no_minus _
                (contains_c_rstrip _ _ (contains_c_lstrip _ _ Hu))) as Hsign.
  destruct (Float.sign_of _) as [neg body]; simpl in Hsign; subst neg.
  destruct (Float.decimal false body) eqn:Ed.
  - intros H; inversion H; subst. eapply decimal_nonneg; eauto.
  - unfold Float.inf_or_nan.
    destruct (_ || _); [intros H; inversion H; reflexivity|].
    destruct (String.eqb _ "nan"); [intros H; inversion H; reflexivity|discriminate].
Qed.

(* ===================================================================== *)
(** * Properties: scalar cleaners                                         *)
(* ===================================================================== *)

(** Parsing inside [try ... except ValueError] with a default. *)
Lemma try_float_total s (k : Float.float -> pyobj) (d : pyobj) :
  try_except (f <- Float.of_string s ;; Ok (k f)) CValueError (Ok d)
  = Ok (match Float.of_string s with Ok f => k f | Raise _ => d end).
Proof.
  destruct (Float.of_string s) as [f|e] eqn:E; simpl; [reflexivity|].
  now rewrite (of_string_raises _ _ E).
Qed.

(** On text the plain-currency cleaner returns the float read from the
    trimmed text without commas, and 0.0 when there is none. *)
Lemma clean_currency_str s :
  Cleaners.clean_currency (PStr s)
  = Ok (PFloat (match Float.of_string (Str.remove "," (Str.strip s)) with
                | Ok f => f
                | Raise _ => Float.zero
                end)).
Proof.
  unfold Cleaners.clean_currency.
  destruct (String.eqb _ "-") eqn:E1; simpl.
  - apply String.eqb_eq in E1. rewrite E1. reflexivity.
  - destruct (String.eqb _ "") eqn:E2.
    + apply String.eqb_eq in E2. rewrite E2. reflexivity.
    + rewrite try_float_total. destruct (Float.of_string _); reflexivity.
Qed.

(** The abbreviated-currency cleaner follows the precedence B, M, K, T. *)
Lemma clean_money_string_str s :
  Cleaners.clean_money_string (PStr s)
  = Ok (PFloat (Cleaners.abbreviated_currency Cleaners.code_units s)).
Proof.
  unfold Cleaners.clean_money_string, Cleaners.abbreviated_currency; simpl.
  set (t := Str.remove "," (Str.remove "$" (Str.strip s))).
  destruct (Str.contains "B" t);
    [|destruct (Str.contains "M" t);
      [|destruct (Str.contains "K" t); [|destruct (Str.contains "T" t)]]];
    rewrite try_float_total; destruct (Float.of_string _); reflexivity.
Qed.

(** C2, as the code has it: for every input string the abbreviated-currency
    cleaner detects at most one unit among B, M, K, T, first match wins in
    the precedence B, M, K, T (scales 1e9, 1e6, 1e3, 1e12), removes every
    occurrence of it, parses the rest and multiplies by the scale, 1.0 when
    no unit occurs; "$100B" gives 1.0e11 and "$50M" gives 5.0e7. *)
Theorem clean_money_string_precedence :
  (forall s, Cleaners.clean_money_string (PStr s)
             = Ok (PFloat (Cleaners.abbreviated_currency Cleaners.code_units s))) /\
  Cleaners.clean_money_string (PStr "$100B") = Ok (PFloat lit_1e11) /\
  Cleaners.clean_money_string (PStr "$50M") = Ok (PFloat lit_5e7).
Proof.
  split; [exact clean_money_string_str|].
  split; vm_compute; reflexivity.
Qed.

(** C2, as the claim has it, fails: with the precedence T, B, M, K the text
    "BINFINITY" loses its T and no longer parses (0.0), while the code
    removes the B and returns infinity. *)
Lemma clean_money_string_not_T_first :
  Cleaners.clean_money_string (PStr "BINFINITY") = Ok (PFloat Float.inf) /\
  Cleaners.abbreviated_currency Cleaners.spec_units "BINFINITY" = Float.zero /\
  Cleaners.clean_money_string (PStr "BINFINITY")
  <> Ok (PFloat (Cleaners.abbreviated_currency Cleaners.spec_units "BINFINITY")).
Proof.
  split; [vm_compute; reflexivity|].
  split; [vm_compute; reflexivity|].
  vm_compute. discriminate.
Qed.

(** Where a text holds no T, both precedences detect the same unit. *)
Lemma precedences_agree_without_T s :
  Str.contains "T" s = false ->
  Cleaners.detect_unit Cleaners.spec_units s = Cleaners.detect_unit Cleaners.code_units s.
Proof.
  intros H. simpl. rewrite H.
  destruct (Str.contains "B" s), (Str.contains "M" s), (Str.contains "K" s); reflexivity.
Qed.

(** C6, as the code has it: for every input string the plain-currency
    cleaner returns a float: the one read from the trimmed text without
    commas, 0.0 when that text is no numeral (empty and dash included); it
    is NaN or at least zero unless the input holds a minus sign. *)
Theorem clean_currency_value : forall s,
  exists f,
    Cleaners.clean_currency (PStr s) = Ok (PFloat f) /\
    f = match Float.of_string (Str.remove "," (Str.strip s)) with
        | Ok v => v
        | Raise _ => Float.zero
        end /\
    (Str.contains "-" s = true \/ nonneg_or_nan f = true).
Proof.
  intros s. eexists. split; [apply clean_currency_str|]. split; [reflexivity|].
  destruct (Str.contains "-" s) eqn:E; [now left|right].
  destruct (Float.of_string _) as [v|e] eqn:Ev; [|reflexivity].
  eapply of_string_nonneg; [|exact Ev].
  apply contains_remove, contains_strip, E.
Qed.

(** C6, as the claim has it, fails: "-5" is cleaned to -5.0, which is
    below zero. *)
Lemma clean_currency_negative :
  Cleaners.clean_currency (PStr "-5")
  = Ok (PFloat (S754_finite true 5629499534213120 (-50))) /\
  Float.ltb (S754_finite true 5629499534213120 (-50)) Float.zero = true /\
  Float.leb Float.zero (S754_finite true 5629499534213120 (-50)) = false.
Proof. repeat split; vm_compute; reflexivity. Qed.

(** The examples of the specification: a dash, an empty string and text
    that is no numeral give 0.0; "$180,000" gives 180000.0. *)
Lemma cleaner_examples :
  Cleaners.clean_currency (PStr " - ") = Ok (PFloat Float.zero) /\
  Cleaners.clean_currency (PStr "") = Ok (PFloat Float.zero) /\
  Cleaners.clean_currency (PStr "n/a") = Ok (PFloat Float.zero) /\
  Cleaners.clean_money_string (PStr "unknown") = Ok (PFloat Float.zero) /\
  Cleaners.clean_currency (PStr " 1,000,000 ") = Ok (PFloat (Float.of_Z 1000000)) /\
  Cleaners.clean_money_string (PStr "$180,000") = Ok (PFloat (Float.of_Z 180000)).
Proof. repeat split; vm_compute; reflexivity. Qed.

(** A missing cell of a textual funding column reaches the cleaner as the
    text "nan" and stays undefined; it does not become 0.0. *)
Lemma clean_funding_missing_cell :
  clean_funding fx_str [("funding_total_usd", [PStr " 1,000 "; NaN; PStr "-"])]
  = Ok [("funding_total_usd",
         [PFloat (Float.of_Z 1000); PFloat Float.nan; PFloat Float.zero])].
Proof. vm_compute; reflexivity. Qed.

(** C9: both cleaners return an input that is not a string unchanged,
    return a value (raise nothing) on every input, and applied to their own
    output return it unchanged. *)
Theorem cleaners_total_and_idempotent : forall x,
  (is_str x = false ->
   Cleaners.clean_currency x = Ok x /\ Cleaners.clean_money_string x = Ok x) /\
  (exists v, Cleaners.clean_currency x = Ok v /\ Cleaners.clean_currency v = Ok v) /\
  (exists w, Cleaners.clean_money_string x = Ok w /\ Cleaners.clean_money_string w = Ok w).
Proof.
  intros x. split; [|split].
  - destruct x; simpl; intros H; try discriminate; split; reflexivity.
  - destruct x; try (eexists; split; reflexivity).
    eexists. split; [apply clean_currency_str|reflexivity].
  - destruct x; try (eexists; split; reflexivity).
    eexists. split; [apply clean_money_string_str|reflexivity].
Qed.

(** C9 at the float 0.0 and at the text " 1,000 ". *)
Lemma cleaners_total_and_idempotent_witness :
  (Cleaners.clean_currency (PFloat Float.zero) = Ok (PFloat Float.zero) /\
   Cleaners.clean_money_string (PFloat Float.zero) = Ok (PFloat Float.zero)) /\
  (exists v, Cleaners.clean_currency (PStr " 1,000 ") = Ok v /\
             Cleaners.clean_currency v = Ok v).
Proof.
  split.
  - apply (cleaners_total_and_idempotent (PFloat Float.zero)). reflexivity.
  - apply (cleaners_total_and_idempotent (PStr " 1,000 ")).
Defined.

(* ===================================================================== *)
(** * Properties: employee counts and primary categories                  *)
(* ===================================================================== *)

(** C5 at "12.5": the lambda tests and converts the text without its first
    point, so the result is 125.0 and not 12.5; "12.5.3" gives 0. *)
Lemma clean_employees_drops_point :
  clean_employees "12.5" = Ok (PFloat (Float.of_Z 125)) /\
  Float.of_string "12.5" = Ok (Float.of_decimal false 125 (-1)) /\
  Float.of_Z 125 <> Float.of_decimal false 125 (-1) /\
  clean_employees "12.5.3" = Ok (PInt 0).
Proof.
  split; [vm_compute; reflexivity|].
  split; [vm_compute; reflexivity|].
  split; [vm_compute; discriminate|vm_compute; reflexivity].
Qed.

(** A superscript digit passes [isdigit] and is refused by [float]: the
    lambda raises on it. *)
Lemma clean_employees_superscript :
  clean_employees (String (ascii_of_N 178) "") = Raise ValueError.
Proof. vm_compute; reflexivity. Qed.

(** C4 at a missing cell: [astype(str)] turns it into the text "nan"
    before the lambda tests for a string, so the primary category is "nan"
    and not "Other"; on text it is the part before the first bar. *)
Lemma primary_category_of_missing (str_of_number : pyobj -> string) :
  primary_category str_of_number NaN = "nan" /\
  primary_category str_of_number NaN <> "Other" /\
  (forall s, primary_category str_of_number (PStr s) = Str.split_head "|" s).
Proof.
  split; [reflexivity|]. split; [discriminate|]. intros s; reflexivity.
Qed.

(* ===================================================================== *)
(** * Properties: label encoding at inference                             *)
(* ===================================================================== *)

Lemma index_of_bound x l i : LabelEncoder.index_of x l = Some i -> (i < length l)%nat.
Proof.
  revert i; induction l as [|c l IH]; simpl; intros i H; [discriminate|].
  destruct (String.eqb x c).
  - inversion H; lia.
  - destruct (LabelEncoder.index_of x l) as [j|]; inversion H; subst.
    specialize (IH j eq_refl). lia.
Qed.

Lemma insert_key_not_nil k l : Metrics.insert_key k l <> [].
Proof.
  destruct l as [|k' l]; simpl; [discriminate|].
  destruct (String.compare k k'); discriminate.
Qed.

(** An encoder fitted on at least one value has a code 0. *)
Lemma fit_not_empty y :
  y <> [] -> (0 < length (LabelEncoder.classes_ (LabelEncoder.fit y)))%nat.
Proof.
  destruct y as [|k y]; [congruence|]. intros _. simpl.
  pose proof (insert_key_not_nil k (fold_right Metrics.insert_key [] y)) as H.
  destruct (Metrics.insert_key k _); [congruence|simpl; lia].
Qed.

Lemma transform_bound enc x c :
  LabelEncoder.transform enc x = Ok c -> (c < length (LabelEncoder.classes_ enc))%nat.
Proof.
  unfold LabelEncoder.transform.
  destruct (LabelEncoder.index_of _ _) eqn:E; [|discriminate].
  intros H; inversion H; subst. eapply index_of_bound; eauto.
Qed.

(** C1, as the code has it: for every pair of encoders fitted on training
    columns and every country and category string, encoding raises
    nothing; the category follows the policy (the literal value, else
    "Other", else code 0); the country takes the code of the literal value
    and code 0 when it was not seen, without trying "Other"; both codes lie
    in 0..V-1 when the encoder was fitted on at least one value. *)
Theorem inference_encoding_fallback :
  forall (y_country y_category : list string) (country category : string),
    let le_country := LabelEncoder.fit y_country in
    let le_category := LabelEncoder.fit y_category in
    encode_category le_category category
      = Ok (LabelEncoder.fallback_policy le_category category) /\
    encode_country le_country country
      = Ok (match LabelEncoder.transform le_country country with
            | Ok c => c
            | Raise _ => 0%nat
            end) /\
    (y_country <> [] ->
     exists c, encode_country le_country country = Ok c /\
               (c < length (LabelEncoder.classes_ le_country))%nat) /\
    (y_category <> [] ->
     exists c, encode_category le_category category = Ok c /\
               (c < length (LabelEncoder.classes_ le_category))%nat).
Proof.
  intros y_country y_category country category le_country le_category.
  assert (Hcat : encode_category le_category category
                 = Ok (LabelEncoder.fallback_policy le_category category)).
  { unfold encode_category, LabelEncoder.fallback_policy.
    destruct (LabelEncoder.transform le_category category); simpl; [reflexivity|].
    destruct (LabelEncoder.transform le_category "Other"); reflexivity. }
  assert (Hcty : encode_country le_country country
                 = Ok (match LabelEncoder.transform le_country country with
                       | Ok c => c
                       | Raise _ => 0%nat
                       end)).
  { unfold encode_country.
    destruct (LabelEncoder.transform le_country country); reflexivity. }
  split; [exact Hcat|]. split; [exact Hcty|]. split.
  - intros Hy. eexists. split; [exact Hcty|].
    destruct (LabelEncoder.transform le_country country) eqn:E.
    + eapply transform_bound; eauto.
    + apply fit_not_empty, Hy.
  - intros Hy. eexists. split; [exact Hcat|].
    unfold LabelEncoder.fallback_policy.
    destruct (LabelEncoder.transform le_category category) eqn:E.
    + eapply transform_bound; eauto.
    + destruct (LabelEncoder.transform le_category "Other") eqn:E'.
      * eapply transform_bound; eauto.
      * apply fit_not_empty, Hy.
Qed.

(** C1 at encoders fitted on two countries and on two categories, for a
    country and a category that were not seen. *)
Lemma inference_encoding_fallback_witness :
  (exists c, encode_country (LabelEncoder.fit ["USA"; "GBR"]) "FRA" = Ok c /\
             (c < length (LabelEncoder.classes_ (LabelEncoder.fit ["USA"; "GBR"])))%nat) /\
  (exists c, encode_category (LabelEncoder.fit ["Software"; "Other"]) "Games" = Ok c /\
             (c < length (LabelEncoder.classes_ (LabelEncoder.fit ["Software"; "Other"])))%nat).
Proof.
  pose proof (inference_encoding_fallback
                ["USA"; "GBR"] ["Software"; "Other"] "FRA" "Games") as H.
  destruct H as (_ & _ & Hcty & Hcat).
  split; [apply Hcty|apply Hcat]; discriminate.
Defined.

(** C1, as the claim has it, fails for the country: with the vocabulary
    AAA, Other the policy gives an unseen country the code of "Other", 1,
    and the code gives it 0. *)
Lemma country_skips_other :
  LabelEncoder.classes_ (LabelEncoder.fit ["Other"; "AAA"]) = ["AAA"; "Other"] /\
  encode_country (LabelEncoder.fit ["Other"; "AAA"]) "ZZZ" = Ok 0%nat /\
  LabelEncoder.fallback_policy (LabelEncoder.fit ["Other"; "AAA"]) "ZZZ" = 1%nat /\
  encode_country (LabelEncoder.fit ["Other"; "AAA"]) "ZZZ"
  <> Ok (LabelEncoder.fallback_policy (LabelEncoder.fit ["Other"; "AAA"]) "ZZZ").
Proof.
  split; [vm_compute; reflexivity|].
  split; [vm_compute; reflexivity|].
  split; [vm_compute; reflexivity|].
  vm_compute. discriminate.
Qed.

(* ===================================================================== *)
(** * Properties: a file that cannot be read                              *)
(* ===================================================================== *)

Section Unreadable.

Variable read_csv : string -> option string -> result DataFrame.
Variable str_of_number : pyobj -> string.
Variable to_datetime : Series -> list (option Z).
Variable to_numeric : Series -> Series.
Variable year_of : Z -> Z.
Variable series_sub : Series -> Series -> result Series.
Variable series_scale : Series -> Float.float -> result Series.
Variable Model : Type.
Variable forest_fit : list (list pyobj) -> Series -> result Model.
Variable top_50 : list string -> list string.


End Unreadable.


(* ===================================================================== *)
(** * Properties: sector metrics                                          *)
(* ===================================================================== *)



Section SortDesc.

Context {A : Type} (key : A -> Float.float).


Lemma insert_sorted_perm x l : Permutation (x :: l) (Metrics.insert_sorted key x l).
Proof.
  induction l as [|y l IH]; simpl; [reflexivity|].
  destruct (Metrics.before (key x) (key y)); [reflexivity|].
  rewrite perm_swap. now apply perm_skip.
Qed.

Lemma sort_desc_perm l : Permutation l (Metrics.sort_desc key l).
Proof.
  induction l as [|x l IH]; simpl; [reflexivity|].
  rewrite <- insert_sorted_perm. now apply perm_skip.
Qed.




End SortDesc.



Lemma take_length idx col : length (take idx col) = length idx.
Proof. apply length_map. Qed.

Lemma where_bound mask col i : In i (where_ mask col) -> (i < length col)%nat.
Proof.
  unfold where_. intros H. apply filter_In in H as [H _].
  apply in_seq in H. lia.
Qed.

Section SectorMetrics.

Variable group_sum : Series -> Float.float.
Variable group_median : Series -> Float.float.



End SectorMetrics.



(* ===================================================================== *)
(** * Properties: tables                                                  *)
(* ===================================================================== *)

Lemma has_col_cons c name col df :
  has_col c ((name, col) :: df) = String.eqb c name || has_col c df.
Proof. reflexivity. Qed.

Lemma get_col_absent c df : has_col c df = false -> get_col c df = Raise (KeyError c).
Proof.
  induction df as [|[name col] df IH]; [reflexivity|].
  rewrite has_col_cons. intros H. apply orb_false_iff in H as [H1 H2].
  simpl. rewrite H1. auto.
Qed.

Lemma get_col_present c df : has_col c df = true -> exists col, get_col c df = Ok col.
Proof.
  induction df as [|[name col] df IH]; [discriminate|].
  rewrite has_col_cons. simpl. destruct (String.eqb c name); simpl; eauto.
Qed.

Lemma has_col_set c c' v df :
  has_col c (set_col c' v df) = has_col c df || String.eqb c c'.
Proof.
  induction df as [|[name col] df IH]; simpl.
  - unfold has_col; simpl. now rewrite orb_false_r.
  - destruct (String.eqb c' name) eqn:E.
    + apply String.eqb_eq in E; subst.
      rewrite !has_col_cons. destruct (String.eqb c name), (has_col c df); reflexivity.
    + rewrite !has_col_cons, IH. now rewrite orb_assoc.
Qed.

Lemma get_set_same c v df : get_col c (set_col c v df) = Ok v.
Proof.
  induction df as [|[name col] df IH]; simpl.
  - now rewrite String.eqb_refl.
  - destruct (String.eqb c name) eqn:E; simpl; now rewrite E.
Qed.

Lemma get_set_other c c' v df :
  String.eqb c c' = false -> get_col c (set_col c' v df) = get_col c df.
Proof.
  intros H. induction df as [|[name col] df IH]; simpl.
  - now rewrite H.
  - destruct (String.eqb c' name) eqn:E; simpl.
    + apply String.eqb_eq in E; subst. now rewrite H.
    + now rewrite IH.
Qed.

Lemma get_take_rows c idx df :
  get_col c (take_rows idx df)
  = match get_col c df with
    | Ok col => Ok (take idx col)
    | Raise e => Raise e
    end.
Proof.
  induction df as [|[name col] df IH]; simpl; [reflexivity|].
  destruct (String.eqb c name); [reflexivity|exact IH].
Qed.

Lemma mapM_total {A B} (f : A -> result B) (g : A -> B) l :
  (forall a, f a = Ok (g a)) -> mapM f l = Ok (map g l).
Proof.
  intros H. induction l as [|a l IH]; simpl; [reflexivity|].
  now rewrite H, IH.
Qed.

Lemma update_length i v col : length (update i v col) = length col.
Proof.
  revert i; induction col as [|x col IH]; intros [|i]; simpl; auto.
Qed.

Lemma nth_update i v col j d :
  nth j (update i v col) d
  = if Nat.eqb j i && Nat.ltb i (length col) then v else nth j col d.
Proof.
  revert i j; induction col as [|x col IH]; intros i j.
  - rewrite andb_false_r. destruct i, j; reflexivity.
  - destruct i as [|i], j as [|j]; simpl; try reflexivity.
    rewrite IH. reflexivity.
Qed.

(** Writing [h i] at every position [i] of an index: a cell holds [h] of
    its position or what it held. *)
Lemma nth_assign (h : nat -> pyobj) idx : forall col j d,
  nth j (assign idx (map h idx) col) d
  = if existsb (Nat.eqb j) idx && Nat.ltb j (length col) then h j else nth j col d.
Proof.
  induction idx as [|i idx IH]; intros col j d; simpl; [reflexivity|].
  rewrite IH, update_length, nth_update.
  destruct (Nat.eqb j i) eqn:E; simpl.
  - apply Nat.eqb_eq in E; subst.
    destruct (existsb (Nat.eqb i) idx), (Nat.ltb i (length col)); reflexivity.
  - reflexivity.
Qed.

Lemma exit_years_take idx last founded n :
  exit_years (take idx last) (take idx founded) (take idx (repeat NaN n))
  = map (fun i => if notna (nth i last NaN) && notna (nth i founded NaN)
                  then years_between (nth i last NaN) (nth i founded NaN)
                  else NaN) idx.
Proof.
  unfold take. induction idx as [|i idx IH]; simpl; [reflexivity|].
  rewrite IH. f_equal.
  destruct (notna _ && notna _); [reflexivity|].
  apply nth_repeat.
Qed.


(* ===================================================================== *)
(** * Properties: the years to exit                                       *)
(* ===================================================================== *)

Lemma bind_ok {A B} (r : result A) (k : A -> result B) b :
  (x <- r ;; k x) = Ok b -> exists a, r = Ok a /\ k a = Ok b.
Proof. destruct r as [a|e]; simpl; [eauto|discriminate]. Qed.

(** Step 7 keeps the status and date columns and fills its own column
    from them. *)
Lemma years_to_exit_columns df out :
  years_to_exit df = Ok out ->
  exists status founded last,
    get_col "status" out = Ok status /\
    get_col "founded_at" out = Ok founded /\
    get_col "last_funding_at" out = Ok last /\
    get_col "years_to_exit" out
    = Ok (assign (where_ (isin exit_statuses) status)
            (map (exit_cell last founded) (where_ (isin exit_statuses) status))
            (repeat NaN (nrows df))).
Proof.
  unfold years_to_exit.
  rewrite (get_set_other "status" "years_to_exit") by reflexivity.
  destruct (get_col "status" df) as [status|] eqn:Es; [|discriminate]. simpl.
  rewrite !get_take_rows.
  rewrite (get_set_other "last_funding_at" "years_to_exit") by reflexivity.
  rewrite (get_set_other "founded_at" "years_to_exit") by reflexivity.
  rewrite !get_set_same.
  destruct (get_col "last_funding_at" df) as [last|] eqn:El; [|discriminate]. simpl.
  destruct (get_col "founded_at" df) as [founded|] eqn:Ef; [|discriminate]. simpl.
  intros H; inversion H; subst out; clear H.
  exists status, founded, last.
  rewrite get_set_same.
  rewrite !(get_set_other "status" "years_to_exit") by reflexivity.
  rewrite !(get_set_other "last_funding_at" "years_to_exit") by reflexivity.
  rewrite !(get_set_other "founded_at" "years_to_exit") by reflexivity.
  repeat split; try assumption.
  rewrite exit_years_take, map_map. reflexivity.
Qed.



Section LoadData.

Variable read_csv : string -> option string -> result DataFrame.
Variable str_of_number : pyobj -> string.
Variable to_datetime : Series -> list (option Z).
Variable to_numeric : Series -> Series.
Variable year_of : Z -> Z.

Let load := load_data read_csv str_of_number to_datetime to_numeric year_of.


End LoadData.


(* ===================================================================== *)
(** * Properties: the columns [load_data] needs                           *)
(* ===================================================================== *)

Lemma has_col_set_present c c' v df :
  has_col c' df = true -> has_col c (set_col c' v df) = has_col c df.
Proof.
  intros H. rewrite has_col_set.
  destruct (String.eqb c c') eqn:E; [|apply orb_false_r].
  apply String.eqb_eq in E; subst. rewrite H. reflexivity.
Qed.

Lemma keeps_refl df : keeps df df.
Proof. intros c _. reflexivity. Qed.


Lemma keeps_set_present c v df : has_col c df = true -> keeps df (set_col c v df).
Proof. intros H c' _. now apply has_col_set_present. Qed.

(** One step of the monad: [x <- Ok a ;; k x] is [k a]. *)
Ltac step := cbv beta iota zeta delta [bind].

Section Schema.

Variable read_csv : string -> option string -> result DataFrame.
Variable str_of_number : pyobj -> string.
Variable to_datetime : Series -> list (option Z).
Variable to_numeric : Series -> Series.
Variable year_of : Z -> Z.

Let load := load_data read_csv str_of_number to_datetime to_numeric year_of.

(** A guarded rewrite of a column that is present keeps the columns. *)
Lemma guarded_set_keeps c (f : Series -> Series) df :
  exists df',
    (if has_col c df then col <- get_col c df ;; Ok (set_col c (f col) df) else Ok df)
    = Ok df' /\ keeps df df'.
Proof.
  destruct (has_col c df) eqn:E.
  - destruct (get_col_present _ _ E) as (col & Hc). rewrite Hc. simpl.
    eexists. split; [reflexivity|]. now apply keeps_set_present.
  - eexists. split; [reflexivity|apply keeps_refl].
Qed.

Lemma clean_funding_keeps df :
  exists df', clean_funding str_of_number df = Ok df' /\ keeps df df'.
Proof.
  unfold clean_funding.
  destruct (has_col "funding_total_usd" df) eqn:E;
    [|eexists; split; [reflexivity|apply keeps_refl]].
  destruct (get_col_present _ _ E) as (col & Hc). rewrite Hc.
  cbv beta iota delta [bind].
  destruct (is_object col); [|eexists; split; [reflexivity|apply keeps_refl]].
  rewrite (mapM_total _ _ col (fun x => clean_currency_str (astype_str str_of_number x))).
  eexists. split; [reflexivity|]. now apply keeps_set_present.
Qed.






End Schema.



(* ===================================================================== *)
(** * Further properties: whole amounts through the cleaners              *)
(* ===================================================================== *)

Lemma contains_app c s t :
  Str.contains c (s ++ t) = Str.contains c s || Str.contains c t.
Proof.
  induction s as [|d s IH]; simpl; [reflexivity|]. now rewrite IH, orb_assoc.
Qed.

Lemma remove_app c s t : Str.remove c (s ++ t) = Str.remove c s ++ Str.remove c t.
Proof.
  induction s as [|d s IH]; simpl; [reflexivity|].
  destruct (Ascii.eqb d c); simpl; now rewrite IH.
Qed.

Lemma remove_absent c s : Str.contains c s = false -> Str.remove c s = s.
Proof.
  induction s as [|d s IH]; simpl; [reflexivity|].
  intros H. apply orb_false_iff in H as [H1 H2]. now rewrite H1, IH.
Qed.

Lemma all_chars_app p s t : all_chars p (s ++ t) = all_chars p s && all_chars p t.
Proof.
  induction s as [|d s IH]; simpl; [reflexivity|]. now rewrite IH, andb_assoc.
Qed.

(** A character that fails [p] does not occur in a text of [p]. *)
Lemma all_chars_excludes p c s :
  all_chars p s = true -> p c = false -> Str.contains c s = false.
Proof.
  induction s as [|d s IH]; simpl; [reflexivity|].
  intros H Hc. apply andb_true_iff in H as [H1 H2].
  rewrite (IH H2 Hc), orb_false_r.
  destruct (Ascii.eqb d c) eqn:E; [|reflexivity].
  apply Ascii.eqb_eq in E; subst. congruence.
Qed.

Lemma all_chars_weaken (p q : ascii -> bool) s :
  (forall c, p c = true -> q c = true) -> all_chars p s = true -> all_chars q s = true.
Proof.
  intros Hpq. induction s as [|d s IH]; simpl; [reflexivity|].
  intros H. apply andb_true_iff in H as [H1 H2]. now rewrite (Hpq _ H1), IH.
Qed.

Lemma all_chars_remove p c s :
  all_chars p s = true -> all_chars p (Str.remove c s) = true.
Proof.
  induction s as [|d s IH]; simpl; [reflexivity|].
  intros H. apply andb_true_iff in H as [H1 H2].
  destruct (Ascii.eqb d c); simpl; [auto|]. now rewrite H1, IH.
Qed.

(** Removing the separators of an amount leaves digits. *)
Lemma amount_digits t :
  all_chars is_amount_char t = true -> all_chars Str.is_decimal (Str.remove "," t) = true.
Proof.
  induction t as [|d t IH]; simpl; [reflexivity|].
  intros H. apply andb_true_iff in H as [H1 H2].
  destruct (Ascii.eqb d ",") eqn:E; simpl; [auto|].
  unfold is_amount_char in H1. rewrite E, orb_false_r in H1. now rewrite H1, IH.
Qed.

(** Text without blanks is its own [strip], also between blanks. *)
Lemma lstrip_padded pre s :
  all_chars Str.isspace pre = true -> Str.lstrip (pre ++ s) = Str.lstrip s.
Proof.
  induction pre as [|c pre IH]; simpl; [reflexivity|].
  intros H. apply andb_true_iff in H as [H1 H2]. now rewrite H1, IH.
Qed.

Lemma lstrip_blank post : all_chars Str.isspace post = true -> Str.lstrip post = "".
Proof.
  induction post as [|c post IH]; simpl; [reflexivity|].
  intros H. apply andb_true_iff in H as [H1 H2]. now rewrite H1, IH.
Qed.

Lemma rstrip_blank post : all_chars Str.isspace post = true -> Str.rstrip post = "".
Proof.
  induction post as [|c post IH]; simpl; [reflexivity|].
  intros H. apply andb_true_iff in H as [H1 H2]. now rewrite IH, H1.
Qed.

Lemma rstrip_padded s post :
  all_chars (fun c => negb (Str.isspace c)) s = true ->
  all_chars Str.isspace post = true ->
  Str.rstrip (s ++ post) = s.
Proof.
  intros Hs Hp. induction s as [|c s IH]; simpl.
  - now apply rstrip_blank.
  - simpl in Hs. apply andb_true_iff in Hs as [H1 H2]. rewrite (IH H2).
    apply negb_true_iff in H1. rewrite H1. destruct s; reflexivity.
Qed.

Lemma lstrip_no_blank s :
  all_chars (fun c => negb (Str.isspace c)) s = true -> Str.lstrip s = s.
Proof.
  destruct s as [|c s]; simpl; [reflexivity|].
  intros H. apply andb_true_iff in H as [H1 _].
  apply negb_true_iff in H1. now rewrite H1.
Qed.

Lemma strip_padded pre s post :
  all_chars Str.isspace pre = true ->
  all_chars (fun c => negb (Str.isspace c)) s = true ->
  all_chars Str.isspace post = true ->
  Str.strip (pre ++ s ++ post) = s.
Proof.
  intros Hpre Hs Hpost. unfold Str.strip.
  rewrite (lstrip_padded _ _ Hpre).
  destruct s as [|c s].
  - simpl. rewrite (lstrip_blank _ Hpost). reflexivity.
  - assert (H : Str.lstrip (String c s ++ post) = String c s ++ post).
    { simpl in *. apply andb_true_iff in Hs as [H1 _].
      apply negb_true_iff in H1. now rewrite H1. }
    rewrite H. now apply rstrip_padded.
Qed.

(** What [float] and the cleaners test on a character holds of no digit. *)
Lemma decimal_char c :
  Str.is_decimal c = true ->
  (Str.code c <? 127)%N = true /\
  Str.isspace c = false /\
  Float.c_isspace c = false /\
  Ascii.eqb c "-" = false /\
  Ascii.eqb c "+" = false /\
  Ascii.eqb c "." = false.
Proof.
  destruct c as [[] [] [] [] [] [] [] []]; vm_compute; intros H;
    try discriminate H; repeat split; reflexivity.
Qed.

Lemma transform_digits d :
  all_chars Str.is_decimal d = true -> Float.transform d = d.
Proof.
  induction d as [|c d IH]; simpl; [reflexivity|].
  intros H. apply andb_true_iff in H as [H1 H2].
  unfold Float.to_ascii. destruct (decimal_char c H1) as (-> & _). now rewrite IH.
Qed.

Lemma c_rstrip_digits d :
  all_chars Str.is_decimal d = true -> Float.c_rstrip d = d.
Proof.
  induction d as [|c d IH]; simpl; [reflexivity|].
  intros H. apply andb_true_iff in H as [H1 H2]. rewrite (IH H2).
  destruct (decimal_char c H1) as (_ & _ & -> & _). destruct d; reflexivity.
Qed.

Lemma digits_run d : forall acc cnt,
  all_chars Str.is_decimal d = true ->
  Float.digits d acc cnt = (whole acc d, (cnt + String.length d)%nat, "").
Proof.
  induction d as [|c d IH]; simpl; intros acc cnt H.
  - now rewrite Nat.add_0_r.
  - apply andb_true_iff in H as [H1 H2]. rewrite H1, (IH _ _ H2).
    now rewrite Nat.add_succ_r.
Qed.

(** [float] reads a run of digits as the whole number it writes. *)
Lemma of_string_digits d :
  all_chars Str.is_decimal d = true -> d <> "" ->
  Float.of_string d = Ok (Float.of_decimal false (whole 0 d) 0).
Proof.
  intros H Hne. unfold Float.of_string.
  rewrite (transform_digits _ H).
  rewrite (all_chars_excludes Str.is_decimal "_" d H eq_refl).
  rewrite (c_rstrip_digits (Float.c_lstrip d)).
  - destruct d as [|c d]; [congruence|].
    pose proof H as H'. simpl in H'. apply andb_true_iff in H' as [H1 H2].
    destruct (decimal_char c H1) as (_ & _ & Hsp & Hm & Hp & _).
    cbn [Float.c_lstrip]. rewrite Hsp. cbn [Float.sign_of]. rewrite Hm, Hp.
    unfold Float.decimal. rewrite (digits_run _ 0%N 0%nat H).
    reflexivity.
  - destruct d as [|c d]; [congruence|].
    pose proof H as H'. simpl in H'. apply andb_true_iff in H' as [H1 H2].
    destruct (decimal_char c H1) as (_ & _ & Hsp & _).
    cbn [Float.c_lstrip]. rewrite Hsp. exact H.
Qed.

Lemma amount_no_blank t :
  all_chars is_amount_char t = true ->
  all_chars (fun c => negb (Str.isspace c)) t = true.
Proof.
  apply all_chars_weaken. intros c.
  destruct c as [[] [] [] [] [] [] [] []]; vm_compute; congruence.
Qed.

(** X2: the plain-currency cleaner reads digits grouped by commas, between
    any blanks, as the whole number the digits write. *)
Theorem clean_currency_whole_amount (pre t post : string) :
  all_chars Str.isspace pre = true ->
  all_chars Str.isspace post = true ->
  is_amount t ->
  Cleaners.clean_currency (PStr (pre ++ t ++ post))
  = Ok (PFloat (Float.of_decimal false (whole 0 (Str.remove "," t)) 0)).
Proof.
  intros Hpre Hpost [Ht Hne].
  rewrite clean_currency_str.
  rewrite (strip_padded pre t post Hpre (amount_no_blank _ Ht) Hpost).
  now rewrite (of_string_digits _ (amount_digits _ Ht) Hne).
Qed.

(** X2 on the docstring's example. *)
Lemma clean_currency_whole_amount_witness :
  Cleaners.clean_currency (PStr (" " ++ "1,000,000" ++ " "))
  = Ok (PFloat (Float.of_decimal false (whole 0 (Str.remove "," "1,000,000")) 0)).
Proof.
  apply clean_currency_whole_amount; try reflexivity.
  split; [reflexivity|discriminate].
Defined.

Lemma amount_excludes t c :
  all_chars is_amount_char t = true -> is_amount_char c = false ->
  Str.contains c t = false.
Proof. apply all_chars_excludes. Qed.

(** After an amount, a unit letter is the one letter detected. *)
Lemma detect_unit_suffix d u k :
  all_chars Str.is_decimal d = true ->
  In (u, k) Cleaners.code_units ->
  Cleaners.detect_unit Cleaners.code_units (d ++ String u "") = Some (u, k) /\
  Str.remove u (d ++ String u "") = d.
Proof.
  intros Hd Hin.
  assert (Hc : forall c, Str.is_decimal c = false ->
               Str.contains c (d ++ String u "") = Ascii.eqb u c).
  { intros c Hc. rewrite contains_app, (all_chars_excludes _ _ _ Hd Hc). simpl.
    apply orb_false_r. }
  assert (Hr : Str.is_decimal u = false -> Str.remove u (d ++ String u "") = d).
  { intros Hu. rewrite remove_app, (remove_absent _ _ (all_chars_excludes _ _ _ Hd Hu)).
    simpl. rewrite Ascii.eqb_refl. clear. induction d; simpl; congruence. }
  unfold Cleaners.code_units in Hin. simpl in Hin.
  destruct Hin as [H|[H|[H|[H|[]]]]]; inversion H; subst; clear H;
    (split; [|apply Hr; reflexivity]);
    unfold Cleaners.detect_unit, Cleaners.code_units;
    rewrite ?(Hc "B"%char eq_refl), ?(Hc "M"%char eq_refl),
      ?(Hc "K"%char eq_refl), ?(Hc "T"%char eq_refl);
    reflexivity.
Qed.

(** X1: on a dollar sign, digits grouped by commas and one unit letter, the
    abbreviated-currency cleaner returns the whole number the digits write
    times the scale of the letter: 1e9 for B, 1e6 for M, 1e3 for K, 1e12
    for T. *)
Theorem clean_money_string_scales (t : string) (u : ascii) (k : Float.float) :
  is_amount t ->
  In (u, k) Cleaners.code_units ->
  Cleaners.clean_money_string (PStr ("$" ++ t ++ String u ""))
  = Ok (PFloat (Float.mul (Float.of_decimal false (whole 0 (Str.remove "," t)) 0) k)).
Proof.
  intros [Ht Hne] Hin.
  assert (Hu : Str.isspace u = false /\ Ascii.eqb u "$" = false
               /\ Ascii.eqb u "," = false).
  { unfold Cleaners.code_units in Hin. simpl in Hin.
    destruct Hin as [H|[H|[H|[H|[]]]]]; inversion H; repeat split; reflexivity. }
  destruct Hu as (Hu1 & Hu2 & Hu3).
  rewrite clean_money_string_str. unfold Cleaners.abbreviated_currency.
  assert (Hs : Str.strip ("$" ++ t ++ String u "") = "$" ++ t ++ String u "").
  { pose proof (strip_padded "" ("$" ++ t ++ String u "") "") as H.
    replace (("$" ++ t ++ String u "") ++ "") with ("$" ++ t ++ String u "") in H.
    - apply H; try reflexivity.
      simpl. rewrite all_chars_app, (amount_no_blank _ Ht). simpl. now rewrite Hu1.
    - clear. simpl. f_equal. induction t; simpl; congruence. }
  rewrite Hs.
  assert (H1 : Str.remove "$" ("$" ++ t ++ String u "") = t ++ String u "").
  { simpl. rewrite remove_app, (remove_absent _ _ (amount_excludes t "$" Ht eq_refl)).
    simpl. now rewrite Hu2. }
  rewrite H1, remove_app. simpl (Str.remove "," (String u "")). rewrite Hu3.
  destruct (detect_unit_suffix _ u k (amount_digits _ Ht) Hin) as [-> ->].
  now rewrite (of_string_digits _ (amount_digits _ Ht) Hne).
Qed.

(** X1 on "$1,500T": the trillion branch is reached when no other unit
    letter occurs. *)
Lemma clean_money_string_scales_witness :
  Cleaners.clean_money_string (PStr ("$" ++ "1,500" ++ "T"))
  = Ok (PFloat (Float.mul (Float.of_decimal false (whole 0 (Str.remove "," "1,500")) 0)
                  Cleaners.trillion)).
Proof.
  apply (clean_money_string_scales "1,500" "T" Cleaners.trillion).
  - split; [reflexivity|discriminate].
  - unfold Cleaners.code_units. simpl. tauto.
Defined.

(* ===================================================================== *)
(** * Further properties: the shape of the table [load_data] returns      *)
(* ===================================================================== *)

Lemma rectangular_get n df c col :
  rectangular n df -> get_col c df = Ok col -> length col = n.
Proof.
  induction 1 as [|[name v] df Hv _ IH]; simpl; [discriminate|].
  destruct (String.eqb c name); [|exact IH].
  intros H; injection H as <-. exact Hv.
Qed.

Lemma rectangular_set n df c v :
  rectangular n df -> length v = n -> rectangular n (set_col c v df).
Proof.
  intros H Hv. induction H as [|[name w] df Hw Hdf IH]; simpl.
  - repeat constructor. exact Hv.
  - destruct (String.eqb c name); constructor; auto.
Qed.

Lemma rectangular_strip n df : rectangular n df -> rectangular n (strip_columns df).
Proof.
  unfold rectangular, strip_columns. rewrite Forall_map. simpl. auto.
Qed.

Lemma rectangular_nrows n df c :
  rectangular n df -> has_col c df = true -> nrows df = n.
Proof.
  destruct df as [|[name v] df]; [discriminate|].
  intros H _. now inversion H.
Qed.

Lemma mapM_length {A B} (f : A -> result B) l l' :
  mapM f l = Ok l' -> length l' = length l.
Proof.
  revert l'; induction l as [|a l IH]; simpl; intros l' H.
  - inversion H; reflexivity.
  - destruct (f a); [|discriminate]. simpl in H.
    destruct (mapM f l) as [bs|]; [|discriminate].
    inversion H; subst. simpl. now rewrite (IH bs).
Qed.

Lemma assign_length idx : forall vals col, length (assign idx vals col) = length col.
Proof.
  induction idx as [|i idx IH]; intros [|v vals] col; simpl; auto.
  now rewrite IH, update_length.
Qed.

(** A guarded rewrite of a column either finds it absent and leaves the
    table, or replaces it by the image of its cells. *)
Lemma guarded_set_cases c (f : Series -> Series) df df' :
  (if has_col c df then col <- get_col c df ;; Ok (set_col c (f col) df) else Ok df)
  = Ok df' ->
  (has_col c df = false /\ df' = df) \/
  (exists col, get_col c df = Ok col /\ df' = set_col c (f col) df).
Proof.
  destruct (has_col c df) eqn:E.
  - destruct (get_col_present _ _ E) as (col & Hc). rewrite Hc. simpl.
    intros H; inversion H. right. eauto.
  - intros H; inversion H. now left.
Qed.

Lemma guarded_set_rectangular n c (f : Series -> Series) df df' :
  keeps_length f -> rectangular n df ->
  (if has_col c df then col <- get_col c df ;; Ok (set_col c (f col) df) else Ok df)
  = Ok df' ->
  rectangular n df'.
Proof.
  intros Hf Hr H.
  apply guarded_set_cases in H as [[_ ->]|(col & Hc & ->)]; [exact Hr|].
  apply rectangular_set; [exact Hr|].
  rewrite Hf. eapply rectangular_get; eauto.
Qed.

Lemma get_col_has' c df col : get_col c df = Ok col -> has_col c df = true.
Proof.
  destruct (has_col c df) eqn:E; [reflexivity|].
  rewrite (get_col_absent _ _ E). discriminate.
Qed.

Lemma years_to_exit_keeps_col c df out :
  String.eqb c "years_to_exit" = false ->
  years_to_exit df = Ok out -> get_col c out = get_col c df.
Proof.
  intros Hc. unfold years_to_exit. intros H.
  do 5 (apply bind_ok in H as (? & _ & H)).
  inversion H; subst out.
  now rewrite !(get_set_other c "years_to_exit") by exact Hc.
Qed.

Lemma years_to_exit_has_col c df out :
  years_to_exit df = Ok out ->
  has_col c out = has_col c df || String.eqb c "years_to_exit".
Proof.
  unfold years_to_exit. intros H.
  do 5 (apply bind_ok in H as (? & _ & H)).
  inversion H; subst out.
  rewrite !has_col_set. destruct (has_col c df), (String.eqb c "years_to_exit"); reflexivity.
Qed.

Lemma years_to_exit_rectangular n df out :
  rectangular n df -> years_to_exit df = Ok out -> rectangular n out.
Proof.
  intros Hr H. pose proof H as H'. unfold years_to_exit in H.
  apply bind_ok in H as (status & Hs & H).
  rewrite (get_set_other "status" "years_to_exit") in Hs by reflexivity.
  pose proof (rectangular_nrows n df "status" Hr ltac:(eapply get_col_has'; eauto)) as Hn.
  do 4 (apply bind_ok in H as (? & ? & H)).
  inversion H; subst out.
  rewrite get_set_same in *.
  match goal with E : Ok _ = Ok ?y |- _ => inversion E; subst y end.
  apply rectangular_set; [apply rectangular_set; [exact Hr|]|].
  - now rewrite repeat_length.
  - now rewrite assign_length, repeat_length.
Qed.

(** ** Trimming and lower case *)

Lemma lower_char_facts c :
  Str.lower_char (Str.lower_char c) = Str.lower_char c /\
  Str.isspace (Str.lower_char c) = Str.isspace c.
Proof.
  destruct c as [[] [] [] [] [] [] [] []]; vm_compute; split; reflexivity.
Qed.

Lemma lower_idempotent s : Str.lower (Str.lower s) = Str.lower s.
Proof.
  induction s as [|c s IH]; simpl; [reflexivity|].
  now rewrite IH, (proj1 (lower_char_facts c)).
Qed.

Lemma lstrip_lower s : Str.lstrip (Str.lower s) = Str.lower (Str.lstrip s).
Proof.
  induction s as [|c s IH]; simpl; [reflexivity|].
  rewrite (proj2 (lower_char_facts c)). destruct (Str.isspace c); [exact IH|reflexivity].
Qed.

Lemma rstrip_lower s : Str.rstrip (Str.lower s) = Str.lower (Str.rstrip s).
Proof.
  induction s as [|c s IH]; simpl; [reflexivity|].
  rewrite IH, (proj2 (lower_char_facts c)).
  destruct (Str.rstrip s); simpl; [destruct (Str.isspace c)|]; reflexivity.
Qed.

Lemma rstrip_idempotent s : Str.rstrip (Str.rstrip s) = Str.rstrip s.
Proof.
  induction s as [|c s IH]; simpl; [reflexivity|].
  destruct (Str.rstrip s) as [|d r] eqn:E.
  - destruct (Str.isspace c) eqn:Ec; simpl; [reflexivity|]. now rewrite Ec.
  - change (Str.rstrip (String c (String d r)))
      with (match Str.rstrip (String d r) with
            | EmptyString => if Str.isspace c then EmptyString else String c EmptyString
            | r' => String c r'
            end).
    now rewrite IH.
Qed.

(** What [lstrip] leaves does not start with a blank, and [rstrip] keeps
    such a start. *)
Lemma lstrip_rstrip_lstrip s :
  Str.lstrip (Str.rstrip (Str.lstrip s)) = Str.rstrip (Str.lstrip s).
Proof.
  induction s as [|c s IH]; simpl; [reflexivity|].
  destruct (Str.isspace c) eqn:Ec; [exact IH|].
  simpl. destruct (Str.rstrip s); rewrite ?Ec; simpl; rewrite ?Ec; reflexivity.
Qed.

Lemma strip_idempotent s : Str.strip (Str.strip s) = Str.strip s.
Proof.
  unfold Str.strip. now rewrite lstrip_rstrip_lstrip, rstrip_idempotent.
Qed.

Lemma strip_lower s : Str.strip (Str.lower s) = Str.lower (Str.strip s).
Proof. unfold Str.strip. now rewrite lstrip_lower, rstrip_lower. Qed.

Lemma lower_strip_normal s : normalized_status (PStr (Str.lower (Str.strip s))).
Proof.
  eexists. split; [reflexivity|]. split.
  - apply lower_idempotent.
  - now rewrite strip_lower, strip_idempotent.
Qed.

Section LoadedTable.

Variable read_csv : string -> option string -> result DataFrame.
Variable str_of_number : pyobj -> string.
Variable to_datetime : Series -> list (option Z).
Variable to_numeric : Series -> Series.
Variable year_of : Z -> Z.

Let load := load_data read_csv str_of_number to_datetime to_numeric year_of.

(** The seven steps behind a table that [load_data] returns. *)
Lemma load_data_steps path out :
  load path = Ok out ->
  exists df0 df2 df3 df4 df5 df6,
    reads read_csv path df0 /\
    clean_funding str_of_number (strip_columns df0) = Ok df2 /\
    foldM (parse_date_col to_datetime) date_cols df2 = Ok df3 /\
    founded_year to_numeric year_of df3 = Ok df4 /\
    normalize_status str_of_number df4 = Ok df5 /\
    normalize_market str_of_number df5 = Ok df6 /\
    years_to_exit df6 = Ok out.
Proof.
  unfold load, load_data. intros H.
  apply bind_ok in H as (df0 & H0 & H). step.
  apply bind_ok in H as (df2 & H2 & H).
  apply bind_ok in H as (df3 & H3 & H).
  apply bind_ok in H as (df4 & H4 & H).
  apply bind_ok in H as (df5 & H5 & H).
  apply bind_ok in H as (df6 & H6 & H).
  exists df0, df2, df3, df4, df5, df6. repeat split; assumption.
Qed.

(** ** The columns *)

Lemma guarded_set_same_columns c (f : Series -> Series) df df' :
  (if has_col c df then col <- get_col c df ;; Ok (set_col c (f col) df) else Ok df)
  = Ok df' ->
  forall c', has_col c' df' = has_col c' df.
Proof.
  intros H c'.
  apply guarded_set_cases in H as [[_ ->]|(col & Hc & ->)]; [reflexivity|].
  apply has_col_set_present. eapply get_col_has'; eauto.
Qed.

Lemma clean_funding_same_columns df df' :
  clean_funding str_of_number df = Ok df' -> forall c, has_col c df' = has_col c df.
Proof.
  unfold clean_funding. intros H c.
  destruct (has_col "funding_total_usd" df) eqn:E; [|now inversion H].
  apply bind_ok in H as (col & Hc & H).
  destruct (is_object col); [|now inversion H].
  apply bind_ok in H as (col' & _ & H). inversion H; subst.
  now apply has_col_set_present.
Qed.

Lemma parse_dates_same_columns cols : forall df df',
  foldM (parse_date_col to_datetime) cols df = Ok df' ->
  forall c, has_col c df' = has_col c df.
Proof.
  induction cols as [|col cols IH]; simpl; intros df df' H c.
  - now inversion H.
  - apply bind_ok in H as (df1 & H1 & H).
    rewrite (IH _ _ H c).
    exact (guarded_set_same_columns col
             (fun x => map datetime_cell (to_datetime x)) df df1 H1 c).
Qed.

Lemma founded_year_columns df df' :
  founded_year to_numeric year_of df = Ok df' ->
  forall c, has_col c df'
            = has_col c df || (String.eqb c "founded_year" && has_col "founded_at" df).
Proof.
  unfold founded_year. intros H c.
  destruct (has_col "founded_year" df) eqn:E.
  - apply bind_ok in H as (col & Hc & H). inversion H; subst.
    rewrite (has_col_set_present c "founded_year" _ df E).
    destruct (String.eqb c "founded_year") eqn:Ec; [|now rewrite orb_false_r].
    apply String.eqb_eq in Ec; subst. now rewrite E.
  - destruct (has_col "founded_at" df) eqn:E'.
    + apply bind_ok in H as (col & Hc & H). inversion H; subst.
      rewrite has_col_set. now rewrite andb_true_r.
    + inversion H; subst. now rewrite andb_false_r, orb_false_r.
Qed.

(** X3: the table [load_data] returns has exactly the columns of the file
    under their trimmed names, the column years_to_exit, and the column
    founded_year when the file has a founded_at column; no column is
    dropped. *)
Theorem load_data_columns (path : string) (df0 out : DataFrame) :
  reads read_csv path df0 ->
  load path = Ok out ->
  forall c, has_col c out = loaded_column (strip_columns df0) c.
Proof.
  intros Hr H c.
  destruct (load_data_steps path out H)
    as (df0' & df2 & df3 & df4 & df5 & df6 & Hr' & H2 & H3 & H4 & H5 & H6 & H7).
  unfold reads in Hr, Hr'. rewrite Hr in Hr'. inversion Hr'; subst df0'.
  rewrite (years_to_exit_has_col c _ _ H7).
  unfold normalize_market in H6. rewrite (guarded_set_same_columns _ _ _ _ H6 c).
  unfold normalize_status in H5. rewrite (guarded_set_same_columns _ _ _ _ H5 c).
  rewrite (founded_year_columns _ _ H4 c).
  rewrite !(parse_dates_same_columns _ _ _ H3).
  rewrite !(clean_funding_same_columns _ _ H2).
  unfold loaded_column.
  destruct (has_col c (strip_columns df0)), (String.eqb c "years_to_exit"),
    (String.eqb c "founded_year"), (has_col "founded_at" (strip_columns df0)); reflexivity.
Qed.

(** ** The rows *)

Hypothesis to_datetime_length : keeps_length to_datetime.
Hypothesis to_numeric_length : keeps_length to_numeric.

Lemma clean_funding_rectangular n df df' :
  rectangular n df -> clean_funding str_of_number df = Ok df' -> rectangular n df'.
Proof.
  unfold clean_funding. intros Hr H.
  destruct (has_col "funding_total_usd" df); [|inversion H; subst; exact Hr].
  apply bind_ok in H as (col & Hc & H).
  destruct (is_object col); [|inversion H; subst; exact Hr].
  apply bind_ok in H as (col' & Hm & H). inversion H; subst.
  apply rectangular_set; [exact Hr|].
  rewrite (mapM_length _ _ _ Hm). eapply rectangular_get; eauto.
Qed.

Lemma parse_dates_rectangular n cols : forall df df',
  rectangular n df ->
  foldM (parse_date_col to_datetime) cols df = Ok df' -> rectangular n df'.
Proof.
  induction cols as [|col cols IH]; simpl; intros df df' Hr H.
  - inversion H; subst; exact Hr.
  - apply bind_ok in H as (df1 & H1 & H).
    apply (IH df1 df'); [|exact H].
    apply (guarded_set_rectangular n col
             (fun x => map datetime_cell (to_datetime x)) df df1); auto.
    intros x. now rewrite length_map.
Qed.

Lemma founded_year_rectangular n df df' :
  rectangular n df -> founded_year to_numeric year_of df = Ok df' -> rectangular n df'.
Proof.
  unfold founded_year. intros Hr H.
  destruct (has_col "founded_year" df).
  - apply bind_ok in H as (col & Hc & H). inversion H; subst.
    apply rectangular_set; [exact Hr|].
    rewrite to_numeric_length. eapply rectangular_get; eauto.
  - destruct (has_col "founded_at" df); [|inversion H; subst; exact Hr].
    apply bind_ok in H as (col & Hc & H). inversion H; subst.
    apply rectangular_set; [exact Hr|].
    rewrite length_map. eapply rectangular_get; eauto.
Qed.

Lemma steps_rectangular n path df0 out :
  reads read_csv path df0 -> rectangular n df0 -> load path = Ok out ->
  exists df6, rectangular n df6 /\ years_to_exit df6 = Ok out.
Proof.
  intros Hr Hn H.
  destruct (load_data_steps path out H)
    as (df0' & df2 & df3 & df4 & df5 & df6 & Hr' & H2 & H3 & H4 & H5 & H6 & H7).
  unfold reads in Hr, Hr'. rewrite Hr in Hr'. inversion Hr'; subst df0'.
  exists df6. split; [|exact H7].
  unfold normalize_market in H6.
  eapply guarded_set_rectangular; [intros x; apply length_map| |exact H6].
  unfold normalize_status in H5.
  eapply guarded_set_rectangular; [intros x; apply length_map| |exact H5].
  eapply founded_year_rectangular; [|exact H4].
  eapply parse_dates_rectangular; [|exact H3].
  eapply clean_funding_rectangular; [|exact H2].
  now apply rectangular_strip.
Qed.

(** X4: when the file parses to [n] rows in every column, every column of
    the table [load_data] returns has [n] rows: no row is dropped or
    added, the new columns included. *)
Theorem load_data_rows (n : nat) (path : string) (df0 out : DataFrame) :
  reads read_csv path df0 ->
  rectangular n df0 ->
  load path = Ok out ->
  rectangular n out.
Proof.
  intros Hr Hn H.
  destruct (steps_rectangular n path df0 out Hr Hn H) as (df6 & H6 & H7).
  eapply years_to_exit_rectangular; eauto.
Qed.

End LoadedTable.

(* ===================================================================== *)
(** * Further properties: the cells of the table [load_data] returns      *)
(* ===================================================================== *)

Lemma where_complete mask col i :
  (i < length col)%nat -> mask (nth i col NaN) = true ->
  existsb (Nat.eqb i) (where_ mask col) = true.
Proof.
  intros Hi Hm. apply existsb_exists. exists i. split; [|apply Nat.eqb_refl].
  unfold where_. apply filter_In. split; [|exact Hm].
  apply in_seq. lia.
Qed.

Section LoadedCells.

Variable read_csv : string -> option string -> result DataFrame.
Variable str_of_number : pyobj -> string.
Variable to_datetime : Series -> list (option Z).
Variable to_numeric : Series -> Series.
Variable year_of : Z -> Z.

Let load := load_data read_csv str_of_number to_datetime to_numeric year_of.

(** X5: in every table [load_data] returns each status cell is text in
    lower case without surrounding blanks, and each market cell is text
    without surrounding blanks: normalising them again changes nothing. *)
Theorem load_data_text_normal (path : string) (out : DataFrame) :
  load path = Ok out ->
  (forall status, get_col "status" out = Ok status ->
                  Forall normalized_status status) /\
  (forall market, get_col "market" out = Ok market ->
                  Forall trimmed_text market).
Proof.
  intros H.
  destruct (load_data_steps _ _ _ _ _ path out H)
    as (df0 & df2 & df3 & df4 & df5 & df6 & _ & _ & _ & _ & H5 & H6 & H7).
  unfold normalize_status in H5. unfold normalize_market in H6.
  split.
  - intros status Hs.
    rewrite (years_to_exit_keeps_col "status" _ _ eq_refl H7) in Hs.
    apply guarded_set_cases in H6 as [[_ ->]|(m & _ & ->)];
      [|rewrite (get_set_other "status" "market") in Hs by reflexivity];
      (apply guarded_set_cases in H5 as [[Ha ->]|(c & _ & ->)];
       [rewrite (get_col_absent _ _ Ha) in Hs; discriminate|];
       rewrite get_set_same in Hs; inversion Hs; subst;
       apply Forall_map, Forall_forall; intros x _; apply lower_strip_normal).
  - intros market Hm.
    rewrite (years_to_exit_keeps_col "market" _ _ eq_refl H7) in Hm.
    apply guarded_set_cases in H6 as [[Ha ->]|(m & _ & ->)];
      [rewrite (get_col_absent _ _ Ha) in Hm; discriminate|].
    rewrite get_set_same in Hm. inversion Hm; subst.
    apply Forall_map, Forall_forall. intros x _.
    eexists. split; [reflexivity|apply strip_idempotent].
Qed.

Hypothesis to_datetime_length : keeps_length to_datetime.
Hypothesis to_numeric_length : keeps_length to_numeric.

(** X6: when the file parses to [n] rows in every column, every row of the
    returned table with status acquired or ipo has its duration: with both
    dates known, years_to_exit is the days between them over 365.0, or
    nothing when that is below 0.5; with a date missing it is nothing. *)
Theorem exit_rows_get_their_duration (n : nat) (path : string) (df0 out : DataFrame) :
  reads read_csv path df0 ->
  rectangular n df0 ->
  load path = Ok out ->
  exists status founded last years,
    get_col "status" out = Ok status /\
    get_col "founded_at" out = Ok founded /\
    get_col "last_funding_at" out = Ok last /\
    get_col "years_to_exit" out = Ok years /\
    forall i, (i < n)%nat -> isin exit_statuses (nth i status NaN) = true ->
      (forall t0 t1,
         nth i founded NaN = PTime t0 -> nth i last NaN = PTime t1 ->
         let d := Float.div (Float.of_Z ((t1 - t0) / ns_per_day)) lit_365 in
         nth i years NaN = if Float.ltb d lit_half then NaN else PFloat d) /\
      (isna (nth i founded NaN) = true \/ isna (nth i last NaN) = true ->
       nth i years NaN = NaN).
Proof.
  intros Hr Hn H.
  destruct (steps_rectangular _ _ _ _ _ to_datetime_length to_numeric_length
              n path df0 out Hr Hn H) as (df6 & H6 & H7).
  destruct (years_to_exit_columns _ _ H7)
    as (status & founded & last & Hs & Hf & Hl & Hy).
  exists status, founded, last. eexists.
  split; [exact Hs|]. split; [exact Hf|]. split; [exact Hl|]. split; [exact Hy|].
  intros i Hi Hin.
  assert (Hs6 : get_col "status" df6 = Ok status)
    by (now rewrite <- (years_to_exit_keeps_col "status" _ _ eq_refl H7)).
  assert (Hcell : nth i (assign (where_ (isin exit_statuses) status)
                           (map (exit_cell last founded)
                              (where_ (isin exit_statuses) status))
                           (repeat NaN (nrows df6))) NaN
                  = exit_cell last founded i).
  { rewrite nth_assign, repeat_length.
    rewrite (rectangular_nrows n df6 "status" H6 (get_col_has' _ _ _ Hs6)).
    rewrite where_complete;
      [|now rewrite (rectangular_get n df6 "status" status H6 Hs6)|exact Hin].
    apply Nat.ltb_lt in Hi. now rewrite Hi. }
  rewrite Hcell. unfold exit_cell. split.
  - intros t0 t1 E0 E1. rewrite E0, E1. reflexivity.
  - intros [E|E]; unfold notna; rewrite E; simpl; rewrite ?andb_false_r; reflexivity.
Qed.

End LoadedCells.

(** X3 on three companies: the status column, read under a padded name,
    is there under its trimmed name, and founded_year is added. *)
Lemma load_data_columns_witness :
  exists out,
    load_data (one_file three_companies) fx_str fx_to_datetime fx_to_numeric fx_year
      "investments_VC.csv" = Ok out /\
    has_col "status" out = true /\
    has_col "founded_year" out = true /\
    has_col " status " out = false.
Proof.
  eexists. split; [vm_compute; reflexivity|].
  rewrite !(load_data_columns
              (one_file three_companies) fx_str fx_to_datetime fx_to_numeric fx_year
              "investments_VC.csv" three_companies _ eq_refl eq_refl).
  repeat split; reflexivity.
Defined.

Lemma fx_to_datetime_length : keeps_length fx_to_datetime.
Proof. intros col. apply length_map. Qed.

Lemma fx_to_numeric_length : keeps_length fx_to_numeric.
Proof. intros col. reflexivity. Qed.

(** X4 on three companies: three rows in, three rows out. *)
Lemma load_data_rows_witness :
  exists out,
    load_data (one_file three_companies) fx_str fx_to_datetime fx_to_numeric fx_year
      "investments_VC.csv" = Ok out /\
    rectangular 3 out.
Proof.
  eexists. split; [vm_compute; reflexivity|].
  apply (load_data_rows
           (one_file three_companies) fx_str fx_to_datetime fx_to_numeric fx_year
           fx_to_datetime_length fx_to_numeric_length
           3 "investments_VC.csv" three_companies); try reflexivity.
  repeat constructor.
Defined.

(** X5 on three companies. *)
Lemma load_data_text_normal_witness :
  exists out status,
    load_data (one_file three_companies) fx_str fx_to_datetime fx_to_numeric fx_year
      "investments_VC.csv" = Ok out /\
    get_col "status" out = Ok status /\
    Forall normalized_status status.
Proof.
  eexists. eexists. split; [vm_compute; reflexivity|].
  split; [vm_compute; reflexivity|].
  eapply (load_data_text_normal
            (one_file three_companies) fx_str fx_to_datetime fx_to_numeric fx_year
            "investments_VC.csv"); vm_compute; reflexivity.
Defined.

(** X6 on three companies: 730 days give 2.0 and 90 days give nothing. *)
Lemma exit_rows_get_their_duration_witness :
  exists out status founded last years,
    load_data (one_file three_companies) fx_str fx_to_datetime fx_to_numeric fx_year
      "investments_VC.csv" = Ok out /\
    get_col "status" out = Ok status /\
    get_col "founded_at" out = Ok founded /\
    get_col "last_funding_at" out = Ok last /\
    get_col "years_to_exit" out = Ok years /\
    forall i, (i < 3)%nat -> isin exit_statuses (nth i status NaN) = true ->
      (forall t0 t1,
         nth i founded NaN = PTime t0 -> nth i last NaN = PTime t1 ->
         let d := Float.div (Float.of_Z ((t1 - t0) / ns_per_day)) lit_365 in
         nth i years NaN = if Float.ltb d lit_half then NaN else PFloat d) /\
      (isna (nth i founded NaN) = true \/ isna (nth i last NaN) = true ->
       nth i years NaN = NaN).
Proof.
  eexists.
  assert (E : load_data (one_file three_companies) fx_str fx_to_datetime fx_to_numeric
                fx_year "investments_VC.csv" = Ok _) by (vm_compute; reflexivity).
  destruct (exit_rows_get_their_duration
              (one_file three_companies) fx_str fx_to_datetime fx_to_numeric fx_year
              fx_to_datetime_length fx_to_numeric_length
              3 "investments_VC.csv" three_companies _ eq_refl
              ltac:(repeat constructor) E)
    as (status & founded & last & years & Hs & Hf & Hl & Hy & Hrows).
  exists status, founded, last, years.
  split; [exact E|]. repeat split; try assumption; now apply Hrows.
Defined.

(* ===================================================================== *)
(** * Further properties: group keys and vocabularies                     *)
(* ===================================================================== *)

Lemma compare_lt_trans a b c :
  String.compare a b = Lt -> String.compare b c = Lt -> String.compare a c = Lt.
Proof.
  intros H1 H2.
  apply OrderedTypeEx.String_as_OT.cmp_lt.
  eapply OrderedTypeEx.String_as_OT.lt_trans;
    apply OrderedTypeEx.String_as_OT.cmp_lt; eassumption.
Qed.

Lemma compare_gt_lt a b : String.compare a b = Gt -> String.compare b a = Lt.
Proof. intros H. rewrite String.compare_antisym, H. reflexivity. Qed.

Lemma compare_refl a : String.compare a a = Eq.
Proof. now apply OrderedTypeEx.String_as_OT.cmp_eq. Qed.

Lemma in_insert_key x k l : In x (Metrics.insert_key k l) <-> x = k \/ In x l.
Proof.
  induction l as [|k' l IH]; simpl; [intuition|].
  destruct (String.compare k k') eqn:E; simpl.
  - apply String.compare_eq_iff in E; subst. intuition.
  - intuition.
  - rewrite IH. intuition.
Qed.

Lemma insert_key_ascending k l : ascending l -> ascending (Metrics.insert_key k l).
Proof.
  unfold ascending. induction 1 as [|k' l Hs IH Hall]; simpl.
  - repeat constructor.
  - destruct (String.compare k k') eqn:E.
    + now constructor.
    + constructor; [now constructor|]. constructor; [exact E|].
      eapply Forall_impl; [|exact Hall]. intros b Hb. eapply compare_lt_trans; eauto.
    + constructor; [exact IH|].
      apply Forall_forall. intros x Hx. apply in_insert_key in Hx as [->|Hx].
      * now apply compare_gt_lt.
      * rewrite Forall_forall in Hall. now apply Hall.
Qed.

Lemma ascending_NoDup l : ascending l -> NoDup l.
Proof.
  unfold ascending. induction 1 as [|k l Hs IH Hall]; constructor; [|exact IH].
  intros Hin. rewrite Forall_forall in Hall. specialize (Hall k Hin).
  rewrite compare_refl in Hall. discriminate.
Qed.

Lemma group_keys_ascending col : ascending (Metrics.group_keys col).
Proof.
  induction col as [|x col IH]; simpl; [constructor|].
  destruct x; try exact IH. now apply insert_key_ascending.
Qed.

Lemma in_group_keys k col : In k (Metrics.group_keys col) <-> In (PStr k) col.
Proof.
  induction col as [|x col IH]; simpl; [reflexivity|].
  destruct x as [s| | | | |]; try (rewrite IH; intuition discriminate).
  rewrite in_insert_key, IH. split.
  - intros [->|H]; auto.
  - intros [H|H]; [inversion H|]; auto.
Qed.

Lemma fit_ascending y : ascending (LabelEncoder.classes_ (LabelEncoder.fit y)).
Proof.
  simpl. induction y as [|k y IH]; simpl; [constructor|].
  now apply insert_key_ascending.
Qed.

Lemma in_fit x y : In x (LabelEncoder.classes_ (LabelEncoder.fit y)) <-> In x y.
Proof.
  simpl. induction y as [|k y IH]; simpl; [reflexivity|].
  rewrite in_insert_key, IH. intuition.
Qed.

Lemma index_of_nth x l i :
  LabelEncoder.index_of x l = Some i -> nth_error l i = Some x.
Proof.
  revert i; induction l as [|c l IH]; simpl; intros i H; [discriminate|].
  destruct (String.eqb x c) eqn:E.
  - apply String.eqb_eq in E. inversion H; subst. reflexivity.
  - destruct (LabelEncoder.index_of x l) as [j|]; inversion H; subst.
    simpl. now apply IH.
Qed.

Lemma index_of_in x l : In x l -> exists i, LabelEncoder.index_of x l = Some i.
Proof.
  induction l as [|c l IH]; simpl; [contradiction|].
  intros H. destruct (String.eqb x c) eqn:E; [eauto|].
  destruct H as [->|H]; [now rewrite String.eqb_refl in E|].
  destruct (IH H) as (i & ->). eauto.
Qed.

Lemma index_of_absent x l : ~ In x l -> LabelEncoder.index_of x l = None.
Proof.
  intros H. destruct (LabelEncoder.index_of x l) as [i|] eqn:E; [|reflexivity].
  apply index_of_nth, nth_error_In in E. contradiction.
Qed.

(* ===================================================================== *)
(** * Further properties: the sectors of the metrics table                *)
(* ===================================================================== *)

Lemma map_filter_map {A B C} (f : B -> C) (g : A -> B) (p : B -> bool) l :
  map f (filter p (map g l)) = map (fun a => f (g a)) (filter (fun a => p (g a)) l).
Proof.
  induction l as [|a l IH]; simpl; [reflexivity|].
  destruct (p (g a)); simpl; now rewrite IH.
Qed.

Section Sectors.

Variable group_sum : Series -> Float.float.
Variable group_median : Series -> Float.float.

(** X7: the table [get_sector_metrics] returns has one row for each
    sector of the market column that has more than five named companies,
    and no other row: a sector is there exactly when its count of
    non-missing names exceeds 5, and no sector is there twice. *)
Theorem sector_metrics_sectors
    (df : DataFrame) (rows : list Metrics.Sector) (markets names : Series) :
  Metrics.get_sector_metrics group_sum group_median df = Ok rows ->
  get_col "market" df = Ok markets ->
  get_col "name" df = Ok names ->
  NoDup (sectors rows) /\
  forall k, In k (sectors rows) <->
            In (PStr k) markets /\
            5 < count_if notna (take (where_ (Metrics.is_key k) markets) names).
Proof.
  unfold Metrics.get_sector_metrics. intros H Hm Hn. rewrite Hm, Hn in H.
  cbn [bind] in H. destruct (filter _ Metrics.agg_columns); [|discriminate].
  destruct (get_col "funding_total_usd" df) as [funding|]; [|discriminate].
  destruct (get_col "status" df) as [status|]; [|discriminate].
  destruct (get_col "years_to_exit" df) as [years|]; [|discriminate].
  simpl in H. inversion H; subst rows; clear H.
  set (q := fun k => 5 <? count_if notna (take (where_ (Metrics.is_key k) markets) names)).
  assert (P : Permutation (filter q (Metrics.group_keys markets))
                (sectors (Metrics.sort_desc
                            (fun r => Metrics.total_funding_usd (Metrics.agg r))
                            (map (Metrics.derive)
                               (filter (fun a => 5 <? Metrics.deal_count a)
                                  (map (fun k => Metrics.aggregate group_sum group_median
                                                   funding names status years k
                                                   (where_ (Metrics.is_key k) markets))
                                     (Metrics.group_keys markets))))))).
  { unfold sectors. rewrite <- sort_desc_perm.
    rewrite map_map, map_filter_map. simpl. rewrite map_id. reflexivity. }
  split.
  - eapply Permutation_NoDup; [exact P|].
    apply NoDup_filter, ascending_NoDup, group_keys_ascending.
  - intros k. split.
    + intros Hk. apply (Permutation_in _ (Permutation_sym P)) in Hk.
      apply filter_In in Hk as [Hk Hq]. split.
      * now apply in_group_keys.
      * now apply Z.ltb_lt.
    + intros [Hk Hq]. apply (Permutation_in _ P).
      apply filter_In. split; [now apply in_group_keys|now apply Z.ltb_lt].
Qed.


End Sectors.

(** X7 on six named companies of one sector: the sector is there, once. *)
Lemma sector_metrics_sectors_witness :
  exists rows,
    Metrics.get_sector_metrics fx_reduce fx_reduce named_deals = Ok rows /\
    NoDup (sectors rows) /\
    In "Software" (sectors rows).
Proof.
  eexists. split; [vm_compute; reflexivity|].
  destruct (sector_metrics_sectors fx_reduce fx_reduce named_deals _
              (repeat (PStr "Software") 6) (repeat (PStr "a") 6)
              eq_refl eq_refl eq_refl) as [Hnd Hin].
  split; [exact Hnd|].
  apply Hin. split; [simpl; auto|vm_compute; reflexivity].
Defined.


(* ===================================================================== *)
(** * Further properties: codes of the values seen in training            *)
(* ===================================================================== *)

(** X9: at inference a country or category that occurred in the training
    column gets its own code, the position of the value in the fitted
    vocabulary, so no fallback applies and two values seen in training
    never share a code; a country that did not occur gets code 0. *)
Theorem seen_values_keep_their_code (y : list string) (x : string) :
  let enc := LabelEncoder.fit y in
  (In x y ->
   exists i,
     encode_country enc x = Ok i /\
     encode_category enc x = Ok i /\
     nth_error (LabelEncoder.classes_ enc) i = Some x) /\
  (forall x' i, In x y -> In x' y ->
                encode_country enc x = Ok i -> encode_country enc x' = Ok i ->
                x = x') /\
  (~ In x y -> encode_country enc x = Ok 0%nat).
Proof.
  intros enc.
  assert (Hseen : forall v, In v y ->
            exists i, LabelEncoder.index_of v (LabelEncoder.classes_ enc) = Some i /\
                      nth_error (LabelEncoder.classes_ enc) i = Some v).
  { intros v Hv. apply (in_fit v y) in Hv.
    destruct (index_of_in _ _ Hv) as (i & Hi). exists i. split; [exact Hi|].
    now apply index_of_nth. }
  split; [|split].
  - intros Hx. destruct (Hseen x Hx) as (i & Hi & Hn). exists i.
    unfold encode_country, encode_category, LabelEncoder.transform. rewrite Hi.
    split; [reflexivity|split; [reflexivity|exact Hn]].
  - intros x' i Hx Hx' E E'.
    destruct (Hseen x Hx) as (j & Hj & Hn). destruct (Hseen x' Hx') as (j' & Hj' & Hn').
    unfold encode_country, LabelEncoder.transform in E, E'. rewrite Hj in E. rewrite Hj' in E'.
    simpl in E, E'. inversion E; inversion E'; subst. congruence.
  - intros Hx. unfold encode_country, LabelEncoder.transform.
    rewrite index_of_absent; [reflexivity|]. intros H. apply Hx. now apply in_fit.
Qed.

(** X9 at an encoder fitted on three countries. *)
Lemma seen_values_keep_their_code_witness :
  (exists i,
     encode_country (LabelEncoder.fit ["USA"; "GBR"; "USA"; "IND"]) "IND" = Ok i /\
     encode_category (LabelEncoder.fit ["USA"; "GBR"; "USA"; "IND"]) "IND" = Ok i /\
     nth_error (LabelEncoder.classes_ (LabelEncoder.fit ["USA"; "GBR"; "USA"; "IND"])) i
     = Some "IND") /\
  encode_country (LabelEncoder.fit ["USA"; "GBR"; "USA"; "IND"]) "FRA" = Ok 0%nat.
Proof.
  destruct (seen_values_keep_their_code ["USA"; "GBR"; "USA"; "IND"] "IND") as (H & _ & _).
  destruct (seen_values_keep_their_code ["USA"; "GBR"; "USA"; "IND"] "FRA") as (_ & _ & H').
  split.
  - apply H. simpl. auto.
  - apply H'. simpl. intros [E|[E|[E|[E|[]]]]]; discriminate.
Defined.

(* ===================================================================== *)
(** * Further properties: what the classifier is trained on               *)
(* ===================================================================== *)

Lemma clean_funding_keeps_col str_of_number c df df' :
  String.eqb c "funding_total_usd" = false ->
  clean_funding str_of_number df = Ok df' -> get_col c df' = get_col c df.
Proof.
  unfold clean_funding. intros Hc H.
  destruct (has_col "funding_total_usd" df); [|now inversion H].
  apply bind_ok in H as (col & _ & H).
  destruct (is_object col); [|now inversion H].
  apply bind_ok in H as (col' & _ & H). inversion H; subst.
  now apply get_set_other.
Qed.

Lemma guarded_set_keeps_col c c' (f : Series -> Series) df df' :
  String.eqb c' c = false ->
  (if has_col c df then col <- get_col c df ;; Ok (set_col c (f col) df) else Ok df)
  = Ok df' ->
  get_col c' df' = get_col c' df.
Proof.
  intros Hc H.
  apply guarded_set_cases in H as [[_ ->]|(col & _ & ->)]; [reflexivity|].
  now apply get_set_other.
Qed.

Lemma has_col_take_rows c idx df : has_col c (take_rows idx df) = has_col c df.
Proof.
  unfold has_col, columns, take_rows. now rewrite map_map.
Qed.

Lemma nth_map_in {A B} (f : A -> B) l i d d' :
  (i < length l)%nat -> nth i (map f l) d = f (nth i l d').
Proof.
  intros Hi. rewrite (nth_indep _ d (f d')) by (now rewrite length_map).
  apply map_nth.
Qed.

(** A cell taken at a complete row is not missing. *)
Lemma complete_row_cell df idx name col i :
  idx = complete_rows df -> In (name, col) df -> (i < length idx)%nat ->
  notna (nth i (take idx col) NaN) = true.
Proof.
  intros -> Hin Hi. unfold take. rewrite (nth_map_in _ _ _ _ 0%nat Hi).
  pose proof (nth_In (complete_rows df) 0%nat Hi) as Hj.
  unfold complete_rows in Hj at 2. apply filter_In in Hj as [_ Hj].
  rewrite forallb_forall in Hj. exact (Hj _ Hin).
Qed.

(** The code of a value of the fitted column is defined. *)
Lemma fit_transform_defined L i :
  (i < length L)%nat ->
  notna (nth i (map (fun x => code_cell (LabelEncoder.transform (LabelEncoder.fit L) x)) L)
           NaN) = true.
Proof.
  intros Hi. rewrite (nth_map_in _ _ _ _ "" Hi).
  pose proof (nth_In L "" Hi) as Hin. apply (in_fit _ L) in Hin.
  destruct (index_of_in _ _ Hin) as (j & Hj).
  unfold LabelEncoder.transform. rewrite Hj. reflexivity.
Qed.

Section Training.

Variable read_csv : string -> option string -> result DataFrame.
Variable str_of_number : pyobj -> string.
Variable to_numeric : Series -> Series.
Variable Model : Type.
Variable forest_fit : list (list pyobj) -> Series -> result Model.
Variable top_50 : list string -> list string.

Let train :=
  train_success_model read_csv str_of_number to_numeric Model forest_fit top_50.

(** What stands behind a model that training returns: the five selected
    columns, the complete rows [idx], the two fitted encoders and the call
    that fitted the forest. *)
Lemma training_inversion path m lc lcat :
  train path = Ok (Some m, Some (lc, lcat)) ->
  exists (funding rounds country category status : Series) (idx : list nat),
    let selected := [("funding_total_usd", funding); ("funding_rounds", rounds);
                     ("country_code", country); ("primary_category", category);
                     ("is_success", map label_of status)] in
    let countries := map (astype_str str_of_number) (take idx country) in
    let top := top_50 (map text_of (take idx category)) in
    let categories :=
      map (fun x => if existsb (String.eqb (text_of x)) top then text_of x else "Other")
          (take idx category) in
    idx = complete_rows selected /\
    lc = LabelEncoder.fit countries /\
    lcat = LabelEncoder.fit categories /\
    forest_fit
      (rows_of [("funding_total_usd", take idx funding);
                ("funding_rounds", take idx rounds);
                ("country_code_enc",
                 map (fun x => code_cell (LabelEncoder.transform lc x)) countries);
                ("category_enc",
                 map (fun x => code_cell (LabelEncoder.transform lcat x)) categories)])
      (take idx (map label_of status))
    = Ok m.
Proof.
  unfold train, train_success_model. intros H.
  destruct (read_csv path None) as [df|e];
    [|destruct (isinstance e CException); discriminate].
  apply bind_ok in H as (status0 & Hs0 & H). step.
  apply bind_ok in H as (status1 & Hs1 & H).
  apply bind_ok in H as (df3 & H3 & H).
  apply bind_ok in H as (df4 & H4 & H).
  apply bind_ok in H as (category_list & Hcl & H).
  apply bind_ok in H as (funding & Hfu & H).
  apply bind_ok in H as (rounds & Hro & H).
  apply bind_ok in H as (country & Hco & H).
  apply bind_ok in H as (category & Hca & H).
  apply bind_ok in H as (is_success & His & H).
  rewrite (get_set_other "is_success" "primary_category") in His by reflexivity.
  rewrite (guarded_set_keeps_col "funding_rounds" "is_success" _ _ _ eq_refl H4) in His.
  rewrite (clean_funding_keeps_col _ "is_success" _ _ eq_refl H3) in His.
  rewrite get_set_same in His. inversion His; subst is_success; clear His.
  cbn [get_col set_col take_rows map fst snd String.eqb Ascii.eqb Bool.eqb bind] in H.
  apply bind_ok in H as (model & Hfit & H).
  inversion H; subst; clear H.
  exists funding, rounds, country, category, status1. eexists.
  cbv zeta. split; [reflexivity|]. split; [reflexivity|]. split; [reflexivity|].
  exact Hfit.
Qed.

(** X10: whenever training returns a model, the forest was fitted on one
    label per feature row, every feature row has four cells none of which
    is missing, and every label is 0 or 1. *)
Theorem forest_is_fitted_on_defined_rows path m encoders :
  train path = Ok (Some m, Some encoders) ->
  exists X y,
    forest_fit X y = Ok m /\
    length X = length y /\
    Forall defined_row X /\
    Forall binary_label y.
Proof.
  destruct encoders as [lc lcat]. intros H.
  destruct (training_inversion path m lc lcat H)
    as (funding & rounds & country & category & status & idx & Hidx & Hlc & Hlcat & Hfit).
  cbv zeta in Hidx, Hlc, Hlcat, Hfit.
  eexists. eexists. split; [exact Hfit|].
  assert (Hrow : forall name col,
            In (name, col)
               [("funding_total_usd", funding); ("funding_rounds", rounds);
                ("country_code", country); ("primary_category", category);
                ("is_success", map label_of status)] ->
            forall i, (i < length idx)%nat -> notna (nth i (take idx col) NaN) = true).
  { intros name col Hin i Hi. eapply complete_row_cell; eauto. }
  split; [|split].
  - unfold rows_of. cbn [nrows]. now rewrite length_map, length_seq, !take_length.
  - unfold rows_of. cbn [nrows]. rewrite take_length.
    apply Forall_forall. intros row Hr.
    apply in_map_iff in Hr as (i & <- & Hi). apply in_seq in Hi.
    assert (Hi' : (i < length idx)%nat) by lia.
    split; [reflexivity|]. cbn [map snd].
    repeat constructor.
    + apply (Hrow "funding_total_usd"); simpl; auto.
    + apply (Hrow "funding_rounds"); simpl; auto.
    + rewrite Hlc. apply fit_transform_defined. now rewrite length_map, take_length.
    + rewrite Hlcat. apply fit_transform_defined. now rewrite length_map, take_length.
  - apply Forall_forall. intros l Hl.
    apply In_nth with (d := NaN) in Hl as (i & Hi & <-). rewrite take_length in Hi.
    pose proof (Hrow "is_success" (map label_of status) ltac:(simpl; tauto) i Hi) as Hn.
    unfold take in *. rewrite (nth_map_in _ _ _ _ 0%nat Hi) in *.
    set (j := nth i idx 0%nat) in *.
    destruct (Nat.lt_ge_cases j (length status)) as [Hj|Hj].
    + rewrite (nth_map_in _ _ _ _ NaN Hj). unfold binary_label, label_of.
      destruct (isin _ _); auto.
    + rewrite nth_overflow in Hn by (now rewrite length_map). discriminate.
Qed.

(** X11: whenever training returns encoders, every class of the category
    encoder is "Other" or one of the values kept by the top-50 selection;
    with a selection of at most fifty values the encoder has at most 51
    classes. *)
Theorem category_vocabulary_is_bounded path m lc lcat :
  (forall l, (length (top_50 l) <= 50)%nat) ->
  train path = Ok (Some m, Some (lc, lcat)) ->
  (length (LabelEncoder.classes_ lcat) <= 51)%nat /\
  exists values,
    Forall (fun c => c = "Other" \/ In c (top_50 values)) (LabelEncoder.classes_ lcat).
Proof.
  intros Htop H.
  destruct (training_inversion path m lc lcat H)
    as (funding & rounds & country & category & status & idx & _ & _ & Hlcat & _).
  cbv zeta in Hlcat.
  set (top := top_50 (map text_of (take idx category))) in *.
  assert (Hin : forall c, In c (LabelEncoder.classes_ lcat) -> In c ("Other" :: top)).
  { intros c Hc. rewrite Hlcat in Hc. apply (proj1 (in_fit _ _)) in Hc.
    apply in_map_iff in Hc as (x & <- & _).
    destruct (existsb _ top) eqn:E; [|now left]. right.
    apply existsb_exists in E as (t & Ht & E). apply String.eqb_eq in E. now subst. }
  split.
  - transitivity (length ("Other" :: top)); [|simpl; specialize (Htop (map text_of (take idx category))); fold top in Htop; lia].
    apply NoDup_incl_length; [|exact Hin].
    rewrite Hlcat. apply ascending_NoDup, fit_ascending.
  - exists (map text_of (take idx category)). apply Forall_forall. intros c Hc.
    destruct (Hin c Hc) as [<-|Ht]; auto.
Qed.

(** X12: a training file that is read but lacks the status column makes
    training raise KeyError('status'), and one that has it but lacks the
    category_list column makes it raise KeyError('category_list'): the
    (None, None) answer covers the unreadable file only. *)
Theorem training_needs_columns path df :
  read_csv path None = Ok df ->
  (has_col "status" df = false -> train path = Raise (KeyError "status")) /\
  (has_col "status" df = true -> has_col "category_list" df = false ->
   train path = Raise (KeyError "category_list")).
Proof.
  intros Hr. unfold train, train_success_model. rewrite Hr. split.
  - intros Hs. now rewrite (get_col_absent _ _ Hs).
  - intros Hs Hc.
    destruct (get_col_present _ _ Hs) as (status0 & ->). cbn [bind].
    set (df1 := take_rows _ df).
    assert (Hs1 : has_col "status" df1 = true) by (unfold df1; now rewrite has_col_take_rows).
    destruct (get_col_present _ _ Hs1) as (status1 & ->). cbn [bind].
    set (df2 := set_col "is_success" _ df1).
    destruct (clean_funding_keeps str_of_number df2) as (df3 & -> & K3). cbn [bind].
    destruct (guarded_set_keeps "funding_rounds"
                (fun c => fillna (PInt 1) (to_numeric c)) df3) as (df4 & -> & K4). cbn [bind].
    rewrite get_col_absent; [reflexivity|].
    rewrite (K4 "category_list" eq_refl), (K3 "category_list" eq_refl).
    unfold df2. rewrite has_col_set. unfold df1. rewrite has_col_take_rows, Hc. reflexivity.
Qed.

End Training.

Lemma fx_top50_length l : (length (fx_top50 l) <= 50)%nat.
Proof. apply firstn_le_length. Qed.

(** X10 on four companies: two complete rows with a valid status are
    left for the forest. *)
Lemma forest_is_fitted_on_defined_rows_witness :
  exists X y,
    fx_fit X y = Ok tt /\
    length X = length y /\
    Forall defined_row X /\
    Forall binary_label y.
Proof.
  eapply (forest_is_fitted_on_defined_rows
            (one_file training_table) fx_str fx_to_numeric unit fx_fit fx_top50
            "big_startup_secsees_dataset2015.csv" tt).
  vm_compute. reflexivity.
Defined.

(** X11 on four companies. *)
Lemma category_vocabulary_is_bounded_witness :
  exists lcat,
    (length (LabelEncoder.classes_ lcat) <= 51)%nat /\
    exists values,
      Forall (fun c => c = "Other" \/ In c (fx_top50 values)) (LabelEncoder.classes_ lcat).
Proof.
  eexists.
  eapply (category_vocabulary_is_bounded
            (one_file training_table) fx_str fx_to_numeric unit fx_fit fx_top50
            "big_startup_secsees_dataset2015.csv" tt _ _ fx_top50_length).
  vm_compute. reflexivity.
Defined.

(** X12 on a file without a status column and on one with a status column
    only. *)
Lemma training_needs_columns_witness :
  train_success_model (one_file [("name", [PStr "a"])]) fx_str fx_to_numeric unit
    fx_fit fx_top50 "big_startup_secsees_dataset2015.csv" = Raise (KeyError "status") /\
  train_success_model (one_file status_only) fx_str fx_to_numeric unit
    fx_fit fx_top50 "big_startup_secsees_dataset2015.csv"
  = Raise (KeyError "category_list").
Proof.
  split.
  - apply (training_needs_columns
             (one_file [("name", [PStr "a"])]) fx_str fx_to_numeric unit fx_fit fx_top50
             "big_startup_secsees_dataset2015.csv" [("name", [PStr "a"])]); reflexivity.
  - apply (training_needs_columns
             (one_file status_only) fx_str fx_to_numeric unit fx_fit fx_top50
             "big_startup_secsees_dataset2015.csv" status_only); reflexivity.
Defined.

(* ===================================================================== *)
(** * Further properties: the investor loader                             *)
(* ===================================================================== *)

Section Investors.

Variable read_csv : string -> option string -> result DataFrame.

(** X13: [load_investor_data] returns the UTF-8 reading when it succeeds
    and retries as ISO-8859-1 only after a failure of class Exception; no
    exception of class Exception ever leaves it: all that can escape is an
    interrupt of the first read. *)
Theorem investor_loader_never_fails (path : string) :
  (forall df, read_csv path (Some "utf-8") = Ok df ->
              load_investor_data read_csv path = Ok df) /\
  (forall e df, read_csv path (Some "utf-8") = Raise e ->
                isinstance e CException = true ->
                read_csv path (Some "ISO-8859-1") = Ok df ->
                load_investor_data read_csv path = Ok df) /\
  (forall e, load_investor_data read_csv path = Raise e ->
             isinstance e CException = false /\
             read_csv path (Some "utf-8") = Raise e).
Proof.
  unfold load_investor_data, try_except. split; [|split].
  - intros df ->. reflexivity.
  - intros e df -> -> ->. reflexivity.
  - intros e. destruct (read_csv path (Some "utf-8")) as [df|e1]; [discriminate|].
    destruct (isinstance e1 CException) eqn:E.
    + destruct (read_csv path (Some "ISO-8859-1")) as [df|e2]; [discriminate|].
      simpl. discriminate.
    + intros H; inversion H; subst. split; [exact E|reflexivity].
Qed.

End Investors.

(** X13 on a file that reads as ISO-8859-1 only. *)
Lemma investor_loader_never_fails_witness :
  load_investor_data (latin1_file status_only) "VCSheets_Investors.csv" = Ok status_only.
Proof.
  apply (investor_loader_never_fails (latin1_file status_only) "VCSheets_Investors.csv")
    with (e := UnicodeDecodeError); reflexivity.
Defined.

(* ===================================================================== *)
(** * Further properties: the SaaS loader                                 *)
(* ===================================================================== *)

Lemma clean_money_string_cell x : Cleaners.clean_money_string x = Ok (money_cell x).
Proof.
  destruct x; try reflexivity. apply clean_money_string_str.
Qed.

Lemma clean_employees_count x y : clean_employees x = Ok y -> employee_count y.
Proof.
  unfold clean_employees, employee_count.
  destruct (Str.isdigit _); [|intros H; inversion H; now left].
  destruct (Float.of_string _) as [f|]; simpl; [|discriminate].
  intros H; inversion H. right. eauto.
Qed.

Lemma mapM_Forall {A B} (f : A -> result B) (P : B -> Prop) l l' :
  (forall a b, f a = Ok b -> P b) -> mapM f l = Ok l' -> Forall P l'.
Proof.
  intros Hf. revert l'; induction l as [|a l IH]; simpl; intros l' H.
  - inversion H. constructor.
  - destruct (f a) as [b|] eqn:E; [|discriminate]. simpl in H.
    destruct (mapM f l) as [bs|]; [|discriminate]. inversion H; subst.
    constructor; eauto.
Qed.

Section Saas.

Variable read_csv : string -> option string -> result DataFrame.
Variable str_of_number : pyobj -> string.

Lemma clean_money_col_eq df c :
  clean_money_col df c
  = Ok (match get_col c df with
        | Ok col => set_col (c ++ "_USD") (map money_cell col) df
        | Raise _ => df
        end).
Proof.
  unfold clean_money_col. destruct (has_col c df) eqn:E.
  - destruct (get_col_present _ _ E) as (col & ->). cbn [bind].
    now rewrite (mapM_total _ _ col clean_money_string_cell).
  - now rewrite (get_col_absent _ _ E).
Qed.

(** The table after the loop over the three money columns. *)
Lemma money_columns_done df :
  exists df',
    foldM clean_money_col ["Total Funding"; "ARR"; "Valuation"] df = Ok df' /\
    (forall c, In c money_columns -> get_col c df' = get_col c df) /\
    (forall c col, In c money_columns -> get_col c df = Ok col ->
                   get_col (c ++ "_USD") df' = Ok (map money_cell col)) /\
    (forall c, has_col c df = true -> has_col c df' = true) /\
    has_col "Employees" df' = has_col "Employees" df /\
    get_col "Employees" df' = get_col "Employees" df.
Proof.
  cbn [foldM]. rewrite (clean_money_col_eq df "Total Funding"). cbn [bind].
  set (df1 := match get_col "Total Funding" df with Ok _ => _ | Raise _ => df end).
  rewrite (clean_money_col_eq df1 "ARR"). cbn [bind].
  set (df2 := match get_col "ARR" df1 with Ok _ => _ | Raise _ => df1 end).
  rewrite (clean_money_col_eq df2 "Valuation"). cbn [bind].
  set (df3 := match get_col "Valuation" df2 with Ok _ => _ | Raise _ => df2 end).
  exists df3. split; [reflexivity|].
  assert (G1 : forall c, String.eqb c "Total Funding_USD" = false ->
                         get_col c df1 = get_col c df).
  { intros c Hc. unfold df1. destruct (get_col "Total Funding" df); [|reflexivity].
    now apply get_set_other. }
  assert (G2 : forall c, String.eqb c "ARR_USD" = false -> get_col c df2 = get_col c df1).
  { intros c Hc. unfold df2. destruct (get_col "ARR" df1); [|reflexivity].
    now apply get_set_other. }
  assert (G3 : forall c, String.eqb c "Valuation_USD" = false ->
                         get_col c df3 = get_col c df2).
  { intros c Hc. unfold df3. destruct (get_col "Valuation" df2); [|reflexivity].
    now apply get_set_other. }
  assert (M1 : forall c, has_col c df1 = has_col c df || String.eqb c "Total Funding_USD"
                         \/ has_col c df1 = has_col c df).
  { intros c. unfold df1. destruct (get_col "Total Funding" df); [left|now right].
    apply has_col_set. }
  assert (M2 : forall c, has_col c df2 = has_col c df1 || String.eqb c "ARR_USD"
                         \/ has_col c df2 = has_col c df1).
  { intros c. unfold df2. destruct (get_col "ARR" df1); [left|now right].
    apply has_col_set. }
  assert (M3 : forall c, has_col c df3 = has_col c df2 || String.eqb c "Valuation_USD"
                         \/ has_col c df3 = has_col c df2).
  { intros c. unfold df3. destruct (get_col "Valuation" df2); [left|now right].
    apply has_col_set. }
  split; [|split; [|split; [|split]]].
  - intros c [<-|[<-|[<-|[]]]];
      now rewrite G3, G2, G1 by reflexivity.
  - intros c col [<-|[<-|[<-|[]]]] Hc.
    + rewrite G3, G2 by reflexivity. unfold df1. rewrite Hc. apply get_set_same.
    + rewrite G3 by reflexivity. unfold df2. rewrite G1 by reflexivity.
      rewrite Hc. apply get_set_same.
    + unfold df3. rewrite G2, G1 by reflexivity. rewrite Hc. apply get_set_same.
  - intros c Hc.
    destruct (M3 c) as [->| ->]; destruct (M2 c) as [->| ->]; destruct (M1 c) as [->| ->];
      rewrite Hc; reflexivity.
  - destruct (M3 "Employees") as [->| ->]; destruct (M2 "Employees") as [->| ->];
      destruct (M1 "Employees") as [->| ->]; rewrite ?orb_false_r; reflexivity.
  - now rewrite G3, G2, G1 by reflexivity.
Qed.

(** X14: in every table [load_saas_data] returns, each money column of the
    file (Total Funding, ARR, Valuation) is still there with its cells as
    read, beside a column named after it with the suffix _USD that holds
    [clean_money_string] of each cell; every column of the file is kept,
    and each cell of the Employees column is a float or the integer 0. *)
Theorem saas_loader_columns (path : string) (df out : DataFrame) :
  read_csv path None = Ok df ->
  load_saas_data read_csv str_of_number path = Ok out ->
  (forall c col, In c money_columns -> get_col c df = Ok col ->
     get_col c out = Ok col /\
     get_col (c ++ "_USD") out = Ok (map money_cell col)) /\
  (forall c, has_col c df = true -> has_col c out = true) /\
  (forall employees, get_col "Employees" out = Ok employees ->
     Forall employee_count employees).
Proof.
  intros Hr. unfold load_saas_data. rewrite Hr.
  destruct (money_columns_done df) as (df' & -> & Hkeep & Husd & Hcols & He & Hge).
  cbn [bind]. rewrite He.
  destruct (has_col "Employees" df) eqn:E.
  - destruct (get_col_present _ _ E) as (emp & Hemp). rewrite Hge, Hemp. cbn [bind].
    intros H. apply bind_ok in H as (emp' & Hm & H). inversion H; subst out; clear H.
    split; [|split].
    + intros c col Hc Hcol. split.
      * rewrite get_set_other; [now rewrite Hkeep|].
        destruct Hc as [<-|[<-|[<-|[]]]]; reflexivity.
      * rewrite get_set_other; [now apply Husd|].
        destruct Hc as [<-|[<-|[<-|[]]]]; reflexivity.
    + intros c Hc. rewrite has_col_set, (Hcols c Hc). reflexivity.
    + intros employees Hg. rewrite get_set_same in Hg. inversion Hg; subst.
      eapply mapM_Forall; [|exact Hm]. intros a b. apply clean_employees_count.
  - intros H. inversion H; subst out; clear H.
    split; [|split].
    + intros c col Hc Hcol. split; [now rewrite Hkeep|now apply Husd].
    + exact Hcols.
    + intros employees Hg. rewrite Hge, (get_col_absent _ _ E) in Hg. discriminate.
Qed.

(** X15: a SaaS file without an Employees column always loads: nothing in
    the money columns can make [load_saas_data] raise. *)
Theorem saas_loader_total_without_employees (path : string) (df : DataFrame) :
  read_csv path None = Ok df ->
  has_col "Employees" df = false ->
  exists out, load_saas_data read_csv str_of_number path = Ok out.
Proof.
  intros Hr He. unfold load_saas_data. rewrite Hr.
  destruct (money_columns_done df) as (df' & -> & _ & _ & _ & He' & _).
  cbn [bind]. rewrite He', He. eauto.
Qed.

End Saas.

(** X14 on two companies: ARR stays as read and ARR_USD holds the floats. *)
Lemma saas_loader_columns_witness :
  exists out,
    load_saas_data (one_file saas_table) fx_str "top_100_saas_companies_2025.csv" = Ok out /\
    get_col "ARR" out = Ok [PStr "$50M"; PStr "$1.5B"] /\
    get_col ("ARR" ++ "_USD") out = Ok (map money_cell [PStr "$50M"; PStr "$1.5B"]).
Proof.
  eexists. split; [vm_compute; reflexivity|].
  apply (saas_loader_columns (one_file saas_table) fx_str
           "top_100_saas_companies_2025.csv" saas_table _ eq_refl).
  - vm_compute; reflexivity.
  - simpl; auto.
  - reflexivity.
Defined.

(** X15 on the same file. *)
Lemma saas_loader_total_without_employees_witness :
  exists out,
    load_saas_data (one_file saas_table) fx_str "top_100_saas_companies_2025.csv" = Ok out.
Proof.
  apply (saas_loader_total_without_employees (one_file saas_table) fx_str
           "top_100_saas_companies_2025.csv" saas_table); reflexivity.
Defined.

(* ===================================================================== *)
(** * Further properties: the unicorn loader                              *)
(* ===================================================================== *)

(** A name that matches no key exactly has no entry. *)
Lemma dict_find_unmatched keys : forall values k,
  (forall k', In k' keys -> key_eqb k' k = false) ->
  dict_find keys values k = None.
Proof.
  induction keys as [|k0 keys IH]; intros [|v values] k H; simpl; try reflexivity.
  rewrite IH by (intros k' Hk; apply H; now right).
  now rewrite (H k0 (or_introl eq_refl)).
Qed.

(** The last pair whose key matches gives the value. *)
Lemma dict_find_last (ks1 : Series) : forall (vs1 : Series) k0 v ks2 vs2 k,
  length ks1 = length vs1 ->
  key_eqb k0 k = true ->
  (forall k', In k' ks2 -> key_eqb k' k = false) ->
  dict_find (ks1 ++ k0 :: ks2)%list (vs1 ++ v :: vs2)%list k = Some v.
Proof.
  induction ks1 as [|k1 ks1 IH]; intros [|v1 vs1] k0 v ks2 vs2 k Hl Hk Hno;
    try discriminate Hl; simpl.
  - now rewrite (dict_find_unmatched ks2 vs2 k Hno), Hk.
  - rewrite (IH vs1 k0 v ks2 vs2 k); auto.
Qed.

Lemma set_col_other c a v df :
  String.eqb c a = false ->
  get_col c (set_col a v df) = get_col c df /\
  has_col c (set_col a v df) = has_col c df.
Proof.
  intros H. split; [now apply get_set_other|].
  rewrite has_col_set, H. apply orb_false_r.
Qed.

Section Unicorns.

Variable read_csv : string -> option string -> result DataFrame.
Variable to_datetime : Series -> list (option Z).
Variable to_numeric : Series -> Series.
Variable year_of : Z -> Z.
Variable series_sub : Series -> Series -> result Series.
Variable series_scale : Series -> Float.float -> result Series.

Let load :=
  load_unicorn_data read_csv to_datetime to_numeric year_of series_sub series_scale.

(** The valuation and date steps leave every other column as it is. *)
Lemma valuation_step df df' :
  (if has_col "Last Valuation (Billion $)" df then
     c <- get_col "Last Valuation (Billion $)" df ;;
     v <- series_scale (to_numeric c) Cleaners.billion ;;
     Ok (set_col "Valuation_USD" v df)
   else Ok df) = Ok df' ->
  forall c, String.eqb c "Valuation_USD" = false ->
            get_col c df' = get_col c df /\ has_col c df' = has_col c df.
Proof.
  intros H c Hc. destruct (has_col "Last Valuation (Billion $)" df).
  - apply bind_ok in H as (col & _ & H). apply bind_ok in H as (v & _ & H).
    inversion H; subst. now apply set_col_other.
  - inversion H; subst. now split.
Qed.

Lemma date_step df df' :
  (if has_col "Date Joined" df then
     c <- get_col "Date Joined" df ;;
     Ok (set_col "Year Joined" (map (dt_year year_of) (map datetime_cell (to_datetime c)))
           (set_col "Date Joined" (map datetime_cell (to_datetime c)) df))
   else Ok df) = Ok df' ->
  forall c, String.eqb c "Date Joined" = false -> String.eqb c "Year Joined" = false ->
            get_col c df' = get_col c df /\ has_col c df' = has_col c df.
Proof.
  intros H c Hc1 Hc2. destruct (has_col "Date Joined" df).
  - apply bind_ok in H as (col & _ & H). inversion H; subst.
    destruct (set_col_other c "Year Joined"
                (map (dt_year year_of) (map datetime_cell (to_datetime col)))
                (set_col "Date Joined" (map datetime_cell (to_datetime col)) df) Hc2)
      as [-> ->].
    now apply set_col_other.
  - inversion H; subst. now split.
Qed.

Lemma investors_step df df' :
  (if has_col "Investors" df then
     c <- get_col "Investors" df ;; Ok (set_col "Select Investors" c df)
   else Ok df) = Ok df' ->
  forall c, String.eqb c "Select Investors" = false ->
            get_col c df' = get_col c df /\ has_col c df' = has_col c df.
Proof.
  intros H c Hc. destruct (has_col "Investors" df).
  - apply bind_ok in H as (col & _ & H). inversion H; subst. now apply set_col_other.
  - inversion H; subst. now split.
Qed.

(** X16: with a usable reference file, the founding year of each company
    is looked up by its exact name: the Year Founded column of the result
    is the reference's year for the last reference row of that very name,
    and is missing for a company whose name equals no reference name. *)
Theorem unicorn_join_is_exact (path : string) (df_2022 df_2021 out : DataFrame) :
  read_csv path None = Ok df_2022 ->
  read_csv "Unicorn_Companies2021.csv" None = Ok df_2021 ->
  is_empty df_2021 = false ->
  has_col "Company" df_2021 = true ->
  has_col "Year Founded" df_2021 = true ->
  load path = Ok out ->
  exists keys values company,
    get_col "Company" df_2021 = Ok keys /\
    get_col "Year Founded" df_2021 = Ok values /\
    get_col "Company" df_2022 = Ok company /\
    get_col "Year Founded" out = Ok (map (dict_get keys values) company) /\
    (forall name, (forall k, In k keys -> key_eqb k name = false) ->
                  dict_get keys values name = NaN) /\
    (forall ks1 vs1 k v ks2 vs2 name,
       keys = (ks1 ++ k :: ks2)%list -> values = (vs1 ++ v :: vs2)%list ->
       length ks1 = length vs1 -> key_eqb k name = true ->
       (forall k', In k' ks2 -> key_eqb k' name = false) ->
       dict_get keys values name = v).
Proof.
  intros Hr Hr21 Hne Hc Hy. unfold load, load_unicorn_data.
  rewrite Hr, Hr21. unfold try_except. cbn [bind]. intros H.
  apply bind_ok in H as (df1 & H1 & H).
  apply bind_ok in H as (df2 & H2 & H).
  apply bind_ok in H as (df3 & H3 & H).
  rewrite Hne, Hc, Hy in H3. cbn [negb andb] in H3.
  apply bind_ok in H3 as (keys & Hk & H3).
  apply bind_ok in H3 as (values & Hv & H3).
  apply bind_ok in H3 as (company & Hco & H3).
  apply bind_ok in H3 as (joined & _ & H3).
  apply bind_ok in H3 as (founded & Hf & H3).
  apply bind_ok in H3 as (d & _ & H3).
  inversion H3; subst df3; clear H3.
  rewrite (get_set_same "Year Founded") in Hf. inversion Hf; subst founded; clear Hf.
  exists keys, values, company.
  split; [exact Hk|]. split; [exact Hv|]. split; [|split; [|split]].
  - rewrite <- Hco.
    rewrite (proj1 (date_step _ _ H2 "Company" eq_refl eq_refl)).
    now rewrite (proj1 (valuation_step _ _ H1 "Company" eq_refl)).
  - rewrite (proj1 (investors_step _ _ H "Year Founded" eq_refl)).
    rewrite (get_set_other "Year Founded" "Years_to_Unicorn") by reflexivity.
    apply get_set_same.
  - intros name Hno. unfold dict_get. now rewrite dict_find_unmatched.
  - intros ks1 vs1 k v ks2 vs2 name -> -> Hl Hm Hno. unfold dict_get.
    now rewrite (dict_find_last ks1 vs1 k v ks2 vs2 name Hl Hm Hno).
Qed.

(** Setting a column of the table's height keeps the height. *)
Lemma set_col_height n c v df :
  rectangular n df /\ nrows df = n -> length v = n ->
  rectangular n (set_col c v df) /\ nrows (set_col c v df) = n.
Proof.
  intros [Hr Hn] Hv. split; [now apply rectangular_set|].
  destruct df as [|[name w] df]; simpl; [exact Hv|].
  destruct (String.eqb c name); simpl; [exact Hv|exact Hn].
Qed.

(** The valuation and date steps return when the library calls give one
    cell per row. *)
Lemma valuation_returns n df :
  (forall c, exists v,
     series_scale (to_numeric c) Cleaners.billion = Ok v /\ length v = length c) ->
  rectangular n df /\ nrows df = n ->
  exists df',
    (if has_col "Last Valuation (Billion $)" df then
       c <- get_col "Last Valuation (Billion $)" df ;;
       v <- series_scale (to_numeric c) Cleaners.billion ;;
       Ok (set_col "Valuation_USD" v df)
     else Ok df) = Ok df' /\
    (rectangular n df' /\ nrows df' = n).
Proof.
  intros Hscale W. destruct (has_col "Last Valuation (Billion $)" df) eqn:E.
  - destruct (get_col_present _ _ E) as (c & Hc). rewrite Hc. cbn [bind].
    destruct (Hscale c) as (v & Hv & Hl). rewrite Hv. cbn [bind].
    eexists. split; [reflexivity|]. apply set_col_height; [exact W|].
    rewrite Hl. eapply rectangular_get; [apply W|exact Hc].
  - eexists. split; [reflexivity|exact W].
Qed.

Lemma date_returns n df :
  keeps_length to_datetime ->
  rectangular n df /\ nrows df = n ->
  exists df',
    (if has_col "Date Joined" df then
       c <- get_col "Date Joined" df ;;
       Ok (set_col "Year Joined" (map (dt_year year_of) (map datetime_cell (to_datetime c)))
             (set_col "Date Joined" (map datetime_cell (to_datetime c)) df))
     else Ok df) = Ok df' /\
    (rectangular n df' /\ nrows df' = n).
Proof.
  intros Hdt W. destruct (has_col "Date Joined" df) eqn:E.
  - destruct (get_col_present _ _ E) as (c & Hc). rewrite Hc. cbn [bind].
    assert (Hl : length (map datetime_cell (to_datetime c)) = n).
    { rewrite length_map, Hdt. eapply rectangular_get; [apply W|exact Hc]. }
    eexists. split; [reflexivity|].
    apply set_col_height; [apply set_col_height; [exact W|exact Hl]|].
    now rewrite length_map.
  - eexists. split; [reflexivity|exact W].
Qed.

(** X17: when the reference file cannot be read, the load still returns
    its table, provided the library calls give one cell per row:
    Years_to_Unicorn is missing in every row of the file and no Year
    Founded column is added. *)
Theorem unicorn_without_reference (path : string) (df_2022 : DataFrame) (e : exn) :
  read_csv path None = Ok df_2022 ->
  read_csv "Unicorn_Companies2021.csv" None = Raise e ->
  isinstance e CException = true ->
  rectangular (nrows df_2022) df_2022 ->
  keeps_length to_datetime ->
  (forall c, exists v,
     series_scale (to_numeric c) Cleaners.billion = Ok v /\ length v = length c) ->
  exists out,
    load path = Ok out /\
    get_col "Years_to_Unicorn" out = Ok (repeat NaN (nrows df_2022)) /\
    has_col "Year Founded" out = has_col "Year Founded" df_2022.
Proof.
  intros Hr Hr21 He Hrect Hdt Hscale. unfold load, load_unicorn_data.
  rewrite Hr, Hr21. unfold try_except. rewrite He. cbn [bind].
  destruct (valuation_returns (nrows df_2022) df_2022 Hscale (conj Hrect eq_refl))
    as (df1 & H1 & W1).
  destruct (date_returns (nrows df_2022) df1 Hdt W1) as (df2 & H2 & [R2 N2]).
  rewrite H1. cbn [bind]. rewrite H2. cbn [bind].
  cbn [is_empty empty nrows Nat.eqb negb andb]. rewrite N2.
  set (df3 := set_col "Years_to_Unicorn" (repeat NaN (nrows df_2022)) df2).
  assert (H4 : exists out,
             (if has_col "Investors" df3 then
                c <- get_col "Investors" df3 ;; Ok (set_col "Select Investors" c df3)
              else Ok df3) = Ok out).
  { destruct (has_col "Investors" df3) eqn:E; [|eauto].
    destruct (get_col_present _ _ E) as (c & ->). cbn [bind]. eauto. }
  destruct H4 as (out & H4). exists out. split; [exact H4|]. split.
  - rewrite (proj1 (investors_step _ _ H4 "Years_to_Unicorn" eq_refl)).
    apply get_set_same.
  - rewrite (proj2 (investors_step _ _ H4 "Year Founded" eq_refl)).
    unfold df3. rewrite has_col_set. cbn [String.eqb Ascii.eqb Bool.eqb].
    rewrite orb_false_r.
    rewrite (proj2 (date_step _ _ H2 "Year Founded" eq_refl eq_refl)).
    now rewrite (proj2 (valuation_step _ _ H1 "Year Founded" eq_refl)).
Qed.

End Unicorns.

(** X16 on two unicorns: "Acme" finds its year, "Globex Inc" does not
    match "Globex" and gets none. *)
Lemma unicorn_join_is_exact_witness :
  exists out,
    load_unicorn_data unicorn_files fx_to_datetime fx_to_numeric fx_year fx_sub fx_scale
      "unicorns2022.csv" = Ok out /\
    get_col "Year Founded" out = Ok [PInt 1960; NaN].
Proof.
  eexists. split; [vm_compute; reflexivity|].
  destruct (unicorn_join_is_exact
              unicorn_files fx_to_datetime fx_to_numeric fx_year fx_sub fx_scale
              "unicorns2022.csv" unicorns_2022 unicorns_2021 _
              eq_refl eq_refl eq_refl eq_refl eq_refl eq_refl)
    as (keys & values & company & Hk & Hv & Hc & Hy & _).
  inversion Hk; inversion Hv; inversion Hc; subst. exact Hy.
Defined.

(** X17 on the unicorn file alone: two rows, both without a value. *)
Lemma unicorn_without_reference_witness :
  exists out,
    load_unicorn_data unicorn_file_alone fx_to_datetime fx_to_numeric fx_year fx_sub
      fx_scale "unicorns2022.csv" = Ok out /\
    get_col "Years_to_Unicorn" out = Ok [NaN; NaN] /\
    has_col "Year Founded" out = false.
Proof.
  apply (unicorn_without_reference
           unicorn_file_alone fx_to_datetime fx_to_numeric fx_year fx_sub fx_scale
           "unicorns2022.csv" unicorns_2022 FileNotFoundError);
    try reflexivity.
  - repeat constructor.
  - intros col. apply length_map.
  - intros c. exists (fx_to_numeric c). split; reflexivity.
Defined.

(* ===================================================================== *)
(** * Further properties: the funding column of the loaded table          *)
(* ===================================================================== *)

Section LoadedFunding.

Variable read_csv : string -> option string -> result DataFrame.
Variable str_of_number : pyobj -> string.
Variable to_datetime : Series -> list (option Z).
Variable to_numeric : Series -> Series.
Variable year_of : Z -> Z.

Let load := load_data read_csv str_of_number to_datetime to_numeric year_of.

Lemma clean_funding_cells df df' col :
  clean_funding str_of_number df = Ok df' ->
  get_col "funding_total_usd" df = Ok col ->
  get_col "funding_total_usd" df'
  = Ok (if is_object col then map (funding_cell str_of_number) col else col).
Proof.
  unfold clean_funding. intros H Hc.
  rewrite (get_col_has' _ _ _ Hc), Hc in H. cbn [bind] in H.
  destruct (is_object col); [|now inversion H; subst].
  rewrite (mapM_total _ (funding_cell str_of_number) col) in H
    by (intros a; apply clean_currency_str).
  cbn [bind] in H. inversion H; subst. apply get_set_same.
Qed.

Lemma parse_dates_keeps_col c cols : forall df df',
  ~ In c cols ->
  foldM (parse_date_col to_datetime) cols df = Ok df' ->
  get_col c df' = get_col c df.
Proof.
  induction cols as [|col cols IH]; simpl; intros df df' Hc H.
  - now inversion H.
  - apply bind_ok in H as (df1 & H1 & H).
    rewrite (IH df1 df') by tauto.
    apply (guarded_set_keeps_col col c
             (fun x => map datetime_cell (to_datetime x)) df df1); [|exact H1].
    apply String.eqb_neq. intros <-. tauto.
Qed.

Lemma founded_year_keeps_col c df df' :
  String.eqb c "founded_year" = false ->
  founded_year to_numeric year_of df = Ok df' -> get_col c df' = get_col c df.
Proof.
  unfold founded_year. intros Hc H.
  destruct (has_col "founded_year" df).
  - apply bind_ok in H as (col & _ & H). inversion H; subst. now apply get_set_other.
  - destruct (has_col "founded_at" df); [|now inversion H; subst].
    apply bind_ok in H as (col & _ & H). inversion H; subst. now apply get_set_other.
Qed.

(** X18: when the file's funding column holds text, every cell of the
    funding column [load_data] returns is a float, cell by cell the value
    [clean_currency] gives the cell's text; when the column is numeric it
    is returned as read. *)
Theorem load_data_funding (path : string) (df0 out : DataFrame) (col : Series) :
  reads read_csv path df0 ->
  load path = Ok out ->
  get_col "funding_total_usd" (strip_columns df0) = Ok col ->
  (is_object col = true ->
   get_col "funding_total_usd" out = Ok (map (funding_cell str_of_number) col) /\
   Forall is_float (map (funding_cell str_of_number) col)) /\
  (is_object col = false -> get_col "funding_total_usd" out = Ok col).
Proof.
  intros Hr H Hc.
  destruct (load_data_steps _ _ _ _ _ path out H)
    as (df0' & df2 & df3 & df4 & df5 & df6 & Hr' & H2 & H3 & H4 & H5 & H6 & H7).
  unfold reads in Hr, Hr'. rewrite Hr in Hr'. inversion Hr'; subst df0'.
  assert (Hout : get_col "funding_total_usd" out
                 = Ok (if is_object col then map (funding_cell str_of_number) col else col)).
  { rewrite (years_to_exit_keeps_col "funding_total_usd" _ _ eq_refl H7).
    unfold normalize_market in H6.
    rewrite (guarded_set_keeps_col "market" "funding_total_usd" _ _ _ eq_refl H6).
    unfold normalize_status in H5.
    rewrite (guarded_set_keeps_col "status" "funding_total_usd" _ _ _ eq_refl H5).
    rewrite (founded_year_keeps_col "funding_total_usd" _ _ eq_refl H4).
    assert (Hd : ~ In "funding_total_usd" date_cols)
      by (unfold date_cols; simpl; intros [E|[E|[E|[]]]]; discriminate).
    rewrite (parse_dates_keeps_col "funding_total_usd" date_cols df2 df3 Hd H3).
    exact (clean_funding_cells _ _ _ H2 Hc). }
  split.
  - intros Ho. rewrite Ho in Hout. split; [exact Hout|].
    apply Forall_map, Forall_forall. intros x _. unfold funding_cell, is_float. eauto.
  - intros Ho. now rewrite Ho in Hout.
Qed.

End LoadedFunding.

(** X18 on three companies: the amount, the dash and the missing cell. *)
Lemma load_data_funding_witness :
  exists out,
    load_data (one_file funded_companies) fx_str fx_to_datetime fx_to_numeric fx_year
      "investments_VC.csv" = Ok out /\
    get_col "funding_total_usd" out
    = Ok (map (funding_cell fx_str) [PStr " 1,000 "; PStr "-"; NaN]) /\
    Forall is_float (map (funding_cell fx_str) [PStr " 1,000 "; PStr "-"; NaN]).
Proof.
  eexists. split; [vm_compute; reflexivity|].
  apply (load_data_funding
           (one_file funded_companies) fx_str fx_to_datetime fx_to_numeric fx_year
           "investments_VC.csv" funded_companies _ [PStr " 1,000 "; PStr "-"; NaN]);
    reflexivity.
Defined.

(* ===================================================================== *)
(** * Further properties: funding by year and sector                      *)
(* ===================================================================== *)

Lemma in_firstn {A} (x : A) n : forall l, In x (firstn n l) -> In x l.
Proof.
  induction n as [|n IH]; intros [|a l]; simpl; try tauto.
  intros [H|H]; auto.
Qed.

Lemma NoDup_firstn {A} n : forall l : list A, NoDup l -> NoDup (firstn n l).
Proof.
  induction n as [|n IH]; intros [|a l] H; simpl; try constructor.
  - inversion H; subst. intros Hin. apply in_firstn in Hin. contradiction.
  - inversion H; subst. now apply IH.
Qed.

Lemma NoDup_map_filter {A B} (f : A -> B) (p : A -> bool) l :
  NoDup (map f l) -> NoDup (map f (filter p l)).
Proof.
  induction l as [|a l IH]; simpl; [constructor|].
  intros H. inversion H; subst. destruct (p a); simpl; [|auto].
  constructor; [|auto]. intros Hin. apply in_map_iff in Hin as (b & Hb & Hin).
  apply filter_In in Hin as [Hin _]. apply H2. rewrite <- Hb. now apply in_map.
Qed.

Lemma nlargest_in n sums k : In k (Yearly.nlargest n sums) -> In k (map fst sums).
Proof.
  unfold Yearly.nlargest. intros H. apply in_map_iff in H as (p & <- & Hp).
  apply in_firstn in Hp.
  apply (Permutation_in _ (Permutation_sym (sort_desc_perm snd _))) in Hp.
  apply filter_In in Hp as [Hp _]. now apply in_map.
Qed.

Lemma nlargest_length n sums : (length (Yearly.nlargest n sums) <= Z.to_nat n)%nat.
Proof. unfold Yearly.nlargest. rewrite length_map. apply firstn_le_length. Qed.

Lemma nlargest_NoDup n sums : NoDup (map fst sums) -> NoDup (Yearly.nlargest n sums).
Proof.
  intros H. unfold Yearly.nlargest. rewrite <- firstn_map. apply NoDup_firstn.
  eapply Permutation_NoDup; [apply Permutation_map, sort_desc_perm|].
  now apply NoDup_map_filter.
Qed.

Lemma nth_error_take idx col j x :
  nth_error (take idx col) j = Some x ->
  exists i, nth_error idx j = Some i /\ x = nth i col NaN.
Proof.
  unfold take. rewrite nth_error_map.
  destruct (nth_error idx j) as [i|]; simpl; [|discriminate].
  intros H; inversion H. eauto.
Qed.

(** A cell that is not missing stands inside its column. *)
Lemma nth_defined col i x :
  nth i col NaN = x -> notna x = true -> nth_error col i = Some x.
Proof.
  intros H Hx. destruct (Nat.lt_ge_cases i (length col)) as [Hi|Hi].
  - rewrite <- H. now apply nth_error_nth'.
  - rewrite nth_overflow in H by exact Hi. subst. discriminate.
Qed.

Section YearlyFunding.

Variable group_sum : Series -> Float.float.
Variable year_compare : pyobj -> pyobj -> comparison.

Let key_compare := Yearly.key_compare year_compare.
Let yearly := Yearly.get_yearly_funding_by_sector group_sum year_compare.

Lemma sector_sums_keys markets funding :
  map fst (Yearly.sector_sums group_sum markets funding) = Metrics.group_keys markets.
Proof. unfold Yearly.sector_sums. rewrite map_map. simpl. apply map_id. Qed.

Lemma in_insert_pair x k l :
  In x (Yearly.insert_pair year_compare k l) -> x = k \/ In x l.
Proof.
  induction l as [|k' l IH]; simpl; [intuition|].
  destruct (Yearly.key_compare year_compare k k'); simpl; intuition.
Qed.

Lemma insert_pair_keeps x k l :
  In x l -> In x (Yearly.insert_pair year_compare k l).
Proof.
  induction l as [|k' l IH]; simpl; [tauto|].
  destruct (Yearly.key_compare year_compare k k'); simpl; intuition.
Qed.

(** A key of the grouping is the year and the sector of some row. *)
Lemma group_pairs_observed years : forall markets y m,
  In (y, m) (Yearly.group_pairs year_compare years markets) ->
  notna y = true /\
  exists i, nth_error years i = Some y /\ nth_error markets i = Some (PStr m).
Proof.
  induction years as [|y0 years IH]; intros [|m0 markets] y m H;
    simpl in H; try contradiction.
  assert (Hrec : In (y, m) (Yearly.group_pairs year_compare years markets) ->
                 notna y = true /\
                 exists i, nth_error (y0 :: years) i = Some y /\
                           nth_error (m0 :: markets) i = Some (PStr m)).
  { intros H'. destruct (IH _ _ _ H') as (Hy & i & H1 & H2).
    split; [exact Hy|]. exists (S i). now split. }
  destruct m0 as [s| | | | |]; auto.
  destruct (notna y0) eqn:E; auto.
  apply in_insert_pair in H as [H|H]; auto.
  inversion H; subst. split; [exact E|]. exists 0%nat. now split.
Qed.

Lemma insert_row_perm r l : Permutation (r :: l) (Yearly.insert_row year_compare r l).
Proof.
  induction l as [|r' l IH]; simpl; [reflexivity|].
  destruct (year_compare _ _); try reflexivity.
  rewrite perm_swap. now apply perm_skip.
Qed.

Lemma sort_rows_perm l : Permutation l (Yearly.sort_rows year_compare l).
Proof.
  induction l as [|r l IH]; simpl; [reflexivity|].
  rewrite <- insert_row_perm. now apply perm_skip.
Qed.

(** What stands behind a table that the function returns. *)
Lemma yearly_inversion df top_n rows markets funding years :
  yearly df top_n = Ok rows ->
  get_col "market" df = Ok markets ->
  get_col "funding_total_usd" df = Ok funding ->
  get_col "founded_year" df = Ok years ->
  let top := Yearly.nlargest top_n (Yearly.sector_sums group_sum markets funding) in
  let idx := where_ (isin top) markets in
  Permutation
    (map (fun k => {| Yearly.founded_year := fst k;
                      Yearly.market := snd k;
                      Yearly.funding_total_usd :=
                        group_sum (take (Yearly.group_rows year_compare k
                                           (take idx years) (take idx markets))
                                     (take idx funding)) |})
         (Yearly.group_pairs year_compare (take idx years) (take idx markets)))
    rows /\
  rows = Yearly.sort_rows year_compare
           (map (fun k => {| Yearly.founded_year := fst k;
                             Yearly.market := snd k;
                             Yearly.funding_total_usd :=
                               group_sum (take (Yearly.group_rows year_compare k
                                                  (take idx years) (take idx markets))
                                            (take idx funding)) |})
                (Yearly.group_pairs year_compare (take idx years) (take idx markets))).
Proof.
  unfold yearly, Yearly.get_yearly_funding_by_sector. intros H Hm Hf Hy.
  rewrite Hm, Hf in H. cbn [bind] in H.
  rewrite !get_take_rows, Hm, Hf, Hy in H. cbn [bind] in H.
  inversion H; subst rows; clear H. cbv zeta.
  split; [apply sort_rows_perm|reflexivity].
Qed.

(** X19: every row of the table [get_yearly_funding_by_sector] returns
    belongs to one of at most [top_n] sectors, the ones [nlargest] keeps,
    each of them a text of the market column and none twice; the year of a
    row is not missing, and year and sector are those of some company of
    the input: a year and sector without a company has no row. *)
Theorem yearly_rows_are_observed
    (df : DataFrame) (top_n : Z) (rows : list Yearly.Row) (markets funding years : Series) :
  yearly df top_n = Ok rows ->
  get_col "market" df = Ok markets ->
  get_col "funding_total_usd" df = Ok funding ->
  get_col "founded_year" df = Ok years ->
  let top := Yearly.nlargest top_n (Yearly.sector_sums group_sum markets funding) in
  (length top <= Z.to_nat top_n)%nat /\
  NoDup top /\
  (forall k, In k top -> In (PStr k) markets) /\
  (forall r, In r rows ->
     In (Yearly.market r) top /\
     notna (Yearly.founded_year r) = true /\
     exists i, nth_error years i = Some (Yearly.founded_year r) /\
               nth_error markets i = Some (PStr (Yearly.market r))).
Proof.
  intros H Hm Hf Hy top.
  destruct (yearly_inversion df top_n rows markets funding years H Hm Hf Hy) as [P _].
  cbv zeta in P. fold top in P.
  split; [apply nlargest_length|].
  split; [apply nlargest_NoDup; rewrite sector_sums_keys;
          apply ascending_NoDup, group_keys_ascending|].
  split.
  - intros k Hk. apply nlargest_in in Hk. rewrite sector_sums_keys in Hk.
    now apply in_group_keys.
  - intros r Hr. apply (Permutation_in _ (Permutation_sym P)) in Hr.
    apply in_map_iff in Hr as ([y m] & <- & Hk). simpl.
    apply group_pairs_observed in Hk as (Hy' & j & Hj1 & Hj2).
    apply nth_error_take in Hj1 as (i & Hi & Hyi).
    apply nth_error_take in Hj2 as (i' & Hi' & Hmi).
    rewrite Hi in Hi'. inversion Hi'; subst i'; clear Hi'.
    apply nth_error_In in Hi.
    pose proof (where_bound _ _ _ Hi) as Hlt.
    unfold where_ in Hi. apply filter_In in Hi as [_ Hin].
    rewrite <- Hmi in Hin. simpl in Hin.
    split; [|split; [exact Hy'|]].
    + apply existsb_exists in Hin as (k & Hk & E). apply String.eqb_eq in E. now subst.
    + exists i. split.
      * now apply nth_defined.
      * rewrite Hmi. now apply nth_error_nth'.
Qed.

(** ** The order of the rows *)

Hypothesis year_compare_order : year_order year_compare.

Lemma year_compare_refl a : year_compare a a = Eq.
Proof.
  destruct year_compare_order as (Ha & _).
  specialize (Ha a a). destruct (year_compare a a); simpl in Ha; congruence.
Qed.













Lemma insert_pair_finds k l :
  exists q, In q (Yearly.insert_pair year_compare k l) /\ key_compare k q = Eq.
Proof.
  induction l as [|k' l IH]; simpl.
  - exists k. split; [now left|].
    unfold key_compare, Yearly.key_compare. rewrite year_compare_refl. apply compare_refl.
  - fold key_compare. destruct (key_compare k k') eqn:E.
    + exists k'. split; [now left|exact E].
    + exists k. split; [now left|].
      unfold key_compare, Yearly.key_compare. rewrite year_compare_refl. apply compare_refl.
    + destruct IH as (q & Hq & Eq'). exists q. split; [now right|exact Eq'].
Qed.

(** Every row with a year and a market text has its key. *)
Lemma group_pairs_complete years : forall markets j y m,
  nth_error years j = Some y -> nth_error markets j = Some (PStr m) ->
  notna y = true ->
  exists q, In q (Yearly.group_pairs year_compare years markets) /\
            key_compare (y, m) q = Eq.
Proof.
  induction years as [|y0 years IH]; intros [|m0 markets] [|j] y m Hy Hm Hn;
    simpl in *; try discriminate.
  - inversion Hy; inversion Hm; subst. rewrite Hn. apply insert_pair_finds.
  - destruct (IH _ _ _ _ Hy Hm Hn) as (q & Hq & E).
    exists q. split; [|exact E].
    destruct m0; auto. destruct (notna y0); auto. now apply insert_pair_keeps.
Qed.

(** X21: every company of a kept sector with a known year is counted: for
    each row of the input whose market is one of the sectors [nlargest]
    keeps and whose year is not missing, the table returned has the row of
    that sector and year. *)
Theorem yearly_counts_every_company
    (df : DataFrame) (top_n : Z) (rows : list Yearly.Row) (markets funding years : Series) :
  yearly df top_n = Ok rows ->
  get_col "market" df = Ok markets ->
  get_col "funding_total_usd" df = Ok funding ->
  get_col "founded_year" df = Ok years ->
  forall i m y,
    nth_error markets i = Some (PStr m) ->
    nth_error years i = Some y ->
    notna y = true ->
    In m (Yearly.nlargest top_n (Yearly.sector_sums group_sum markets funding)) ->
    exists r, In r rows /\ Yearly.market r = m /\
              year_compare y (Yearly.founded_year r) = Eq.
Proof.
  intros H Hm Hf Hy i m y Hi Hyi Hn Htop.
  destruct (yearly_inversion df top_n rows markets funding years H Hm Hf Hy) as [P _].
  cbv zeta in P.
  set (top := Yearly.nlargest top_n (Yearly.sector_sums group_sum markets funding)) in *.
  set (idx := where_ (isin top) markets) in *.
  assert (Hlt : (i < length markets)%nat)
    by (apply nth_error_Some; congruence).
  assert (Hcell : nth i markets NaN = PStr m) by (now apply nth_error_nth).
  assert (Hidx : In i idx).
  { unfold idx, where_. apply filter_In. split; [apply in_seq; lia|].
    rewrite Hcell. simpl. apply existsb_exists. exists m.
    split; [exact Htop|apply String.eqb_refl]. }
  apply In_nth_error in Hidx as (j & Hj).
  destruct (group_pairs_complete (take idx years) (take idx markets) j y m)
    as (q & Hq & E).
  - unfold take. rewrite nth_error_map, Hj. simpl. f_equal. now apply nth_error_nth.
  - unfold take. rewrite nth_error_map, Hj. simpl. now f_equal.
  - exact Hn.
  - unfold key_compare, Yearly.key_compare in E. simpl in E.
    destruct (year_compare y (fst q)) eqn:Ey; try discriminate.
    apply String.compare_eq_iff in E.
    eexists. split; [apply (Permutation_in _ P), in_map, Hq|].
    simpl. split; [now symmetry|exact Ey].
Qed.

End YearlyFunding.

Lemma fx_year_compare_order : year_order fx_year_compare.
Proof.
  unfold year_order, fx_year_compare. repeat split.
  - intros a b. apply Z.compare_antisym.
  - intros a b c H1 H2. rewrite Z.compare_lt_iff in H1, H2 |- *.
    eapply Z.lt_trans; eauto.
  - intros a b c H1 H2. apply Z.compare_eq in H1. now rewrite H1.
  - intros a b c H1 H2. apply Z.compare_eq in H2. now rewrite <- H2.
Qed.

(** X19 on three sectors, all kept: the rows are (2010, Health),
    (2010, Software) and (2011, Software). *)
Lemma yearly_rows_are_observed_witness :
  exists rows,
    Yearly.get_yearly_funding_by_sector fx_reduce fx_year_compare yearly_table 3 = Ok rows /\
    map row_key rows
    = [(PInt 2010, "Health"); (PInt 2010, "Software"); (PInt 2011, "Software")] /\
    forall r, In r rows ->
      notna (Yearly.founded_year r) = true /\
      exists i,
        nth_error [PInt 2011; PInt 2010; PInt 2010; NaN; PInt 2012] i
        = Some (Yearly.founded_year r) /\
        nth_error [PStr "Software"; PStr "Health"; PStr "Software"; PStr "Games"; NaN] i
        = Some (PStr (Yearly.market r)).
Proof.
  eexists. split; [vm_compute; reflexivity|]. split; [reflexivity|].
  intros r Hr.
  destruct (yearly_rows_are_observed fx_reduce fx_year_compare yearly_table 3 _
              _ _ _ eq_refl eq_refl eq_refl eq_refl) as (_ & _ & _ & Hrows).
  destruct (Hrows r Hr) as (_ & Hy & Hi). split; [exact Hy|exact Hi].
Defined.


(** X21 on the same table: the company of row 2 is in the row
    (2010, Software). *)
Lemma yearly_counts_every_company_witness :
  exists rows r,
    Yearly.get_yearly_funding_by_sector fx_reduce fx_year_compare yearly_table 3 = Ok rows /\
    In r rows /\ Yearly.market r = "Software" /\
    fx_year_compare (PInt 2010) (Yearly.founded_year r) = Eq.
Proof.
  eexists.
  destruct (yearly_counts_every_company fx_reduce fx_year_compare fx_year_compare_order
              yearly_table 3 _ _ _ _ eq_refl eq_refl eq_refl eq_refl
              2%nat "Software" (PInt 2010) eq_refl eq_refl eq_refl)
    as (r & Hr & Hm & Hy).
  - vm_compute. tauto.
  - exists r. split; [reflexivity|]. split; [exact Hr|]. split; [exact Hm|exact Hy].
Defined.
